(** * The matching and ranking engine of the resume screener

    A shallow embedding of [src/services/search_handler.py] and
    [src/services/rank_handler.py], with the records of
    [src/models/candidate_model.py] and [src/models/job_model.py] that the two
    handlers read, the search by skills of [src/database/candidate_crud.py]
    and the extension test of [src/api/candidate_endpoints.py].

    The handlers are embedded twice.

    The first embedding computes in exact arithmetic.
    - A Python [float] (and the [int] 0 the accumulators start from) is an
      exact rational of [Q]; every comparison of the source is the
      corresponding decidable comparison of [Q], and equality of scores is
      [Qeq].  Rounding, infinities and NaN are outside this embedding; it
      carries the properties of structure and order that hold of the
      rounded scores as well.
    - [np.dot] is written out; [np.linalg.norm] belongs to numpy and is a
      parameter ([norm]) of every definition that calls it.  [l2norm] is an
      executable instance used to evaluate concrete searches.
    - A call that raises inside a [try] block of the source returns what the
      [except] branch returns.
    - Text is ASCII: [lower] folds A-Z only and [strip] removes the ASCII
      white space of Python's [str.strip].

    The second embedding ([Runtime]) computes on the values of the
    interpreter: binary64 floats, strings of Unicode code points, JSON
    columns that may be null.  What the interpreter and numpy decide
    ([str.lower], [str.strip], [sum], the order of the additions of
    [np.dot]) is a parameter there.  It carries the properties that
    rounding, a character outside ASCII or a null column decides. *)

From Stdlib Require Import QArith Qabs Lqa Lia ZArith List String Ascii Bool.
From Stdlib Require Import Permutation Sorted.
From Stdlib Require Import Floats.
Import ListNotations.

(** Decimal literals of floats stand for the nearest binary64 value, as in
    Python. *)
Set Warnings "-inexact-float".

Open Scope Q_scope.

(** ** Python values and built-ins *)

Module Py.

(** [x < y] on floats. *)
Definition Qltb (x y : Q) : bool := negb (Qle_bool y x).

(** Truth value of a number: every number but zero. *)
Definition truthy_num (x : Q) : bool := negb (Qeq_bool x 0).

(** Truth value of an optional list: [None] and [[]] are false. *)
Definition truthy_list {A : Type} (l : option (list A)) : bool :=
  match l with
  | Some (_ :: _) => true
  | _ => false
  end.

(** Truth value of an optional string: [None] and the empty string are
    false. *)
Definition truthy_str (s : option string) : bool :=
  match s with
  | Some (String _ _) => true
  | _ => false
  end.

(** Truth value of an optional number: [None] and zero are false. *)
Definition truthy_opt_num (x : option Q) : bool :=
  match x with
  | Some q => truthy_num q
  | None => false
  end.

(** [x or 0.0] for an optional score. *)
Definition or_zero (x : option Q) : Q :=
  match x with
  | Some q => if truthy_num q then q else 0
  | None => 0
  end.

(** [sum(l)], which starts from the integer 0. *)
Definition sum (l : list Q) : Q := fold_left Qplus l 0.

(** [max(l)]: the first greatest element; [None] stands for the
    [ValueError] on an empty sequence. *)
Definition max (l : list Q) : option Q :=
  match l with
  | [] => None
  | x :: xs => Some (fold_left (fun m y => if Qltb m y then y else m) xs x)
  end.

(** [min(l)]: the first least element. *)
Definition min (l : list Q) : option Q :=
  match l with
  | [] => None
  | x :: xs => Some (fold_left (fun m y => if Qltb y m then y else m) xs x)
  end.

(** [len(l)] as a float denominator. *)
Definition len {A : Type} (l : list A) : Q := inject_Z (Z.of_nat (List.length l)).

(** [l[:n]] for an integer [n]: the first [n] elements when [n] is not
    negative, and all but the last [-n] elements otherwise. *)
Definition slice_to {A : Type} (l : list A) (n : Z) : list A :=
  if (0 <=? n)%Z then firstn (Z.to_nat n) l
  else firstn (List.length l - Z.to_nat (- n)) l.

(** [sorted(l, key=key, reverse=True)]: Python's sort is stable, and with
    [reverse=True] elements of equal key keep their original order.  The
    element [x], which precedes every element of [l] in the input, is put
    in front of the first element whose key is not greater than its own. *)
Section Sorted.
Context {A : Type} (key : A -> Q).

Fixpoint insert_desc (x : A) (l : list A) : list A :=
  match l with
  | [] => [x]
  | y :: l' =>
      if Qle_bool (key y) (key x) then x :: y :: l'
      else y :: insert_desc x l'
  end.

Definition sorted_reverse (l : list A) : list A :=
  fold_right insert_desc [] l.
End Sorted.

(** *** Strings *)

Definition comma : ascii := ","%char.

(** [s.split(sep)] for a one-character separator: never empty, and the
    empty string splits into one empty segment. *)
Fixpoint split (sep : ascii) (s : string) : list string :=
  match s with
  | EmptyString => [EmptyString]
  | String c s' =>
      if Ascii.eqb c sep then EmptyString :: split sep s'
      else match split sep s' with
           | [] => [String c EmptyString]
           | h :: t => String c h :: t
           end
  end.

(** White space of [str.strip] in the ASCII range: tab, line feed,
    vertical tab, form feed, carriage return, the four separators
    28 to 31, and the space. *)
Definition is_space (c : ascii) : bool :=
  let n := nat_of_ascii c in
  ((9 <=? n) && (n <=? 13) || (28 <=? n) && (n <=? 32))%nat.

Fixpoint lstrip (s : string) : string :=
  match s with
  | EmptyString => EmptyString
  | String c s' => if is_space c then lstrip s' else s
  end.

Fixpoint rstrip (s : string) : string :=
  match s with
  | EmptyString => EmptyString
  | String c s' =>
      match rstrip s' with
      | EmptyString => if is_space c then EmptyString else String c EmptyString
      | r => String c r
      end
  end.

Definition strip (s : string) : string := rstrip (lstrip s).

Definition lower_char (c : ascii) : ascii :=
  let n := nat_of_ascii c in
  if ((65 <=? n) && (n <=? 90))%nat then ascii_of_nat (n + 32) else c.

Fixpoint lower (s : string) : string :=
  match s with
  | EmptyString => EmptyString
  | String c s' => String (lower_char c) (lower s')
  end.

(** [a in b] on strings: [a] occurs in [b] as a contiguous substring. *)
Fixpoint contains (a b : string) : bool :=
  String.prefix a b
  || match b with
     | EmptyString => false
     | String _ b' => contains a b'
     end.

(** [sum(1 for a, b in zip(s, t) if a == b)]. *)
Fixpoint zip_matches (s t : string) : nat :=
  match s, t with
  | String a s', String b t' =>
      ((if Ascii.eqb a b then 1 else 0) + zip_matches s' t')%nat
  | _, _ => 0%nat
  end.

End Py.

(** ** numpy *)

Module Np.

(** [np.dot] of two flat sequences; [None] stands for the [ValueError]
    numpy raises when their lengths differ. *)
Fixpoint dot (u v : list Q) : option Q :=
  match u, v with
  | [], [] => Some 0
  | x :: u', y :: v' =>
      match dot u' v' with
      | Some d => Some (x * y + d)
      | None => None
      end
  | _, _ => None
  end.

(** [np.mean], [np.max] and [np.min] of a non-empty sequence. *)
Definition mean (l : list Q) : Q := Py.sum l / Py.len l.

Definition max (l : list Q) : Q :=
  match Py.max l with Some m => m | None => 0 end.

Definition min (l : list Q) : Q :=
  match Py.min l with Some m => m | None => 0 end.

(** An executable Euclidean norm: the square root of the sum of squares,
    exact whenever that sum is the square of a rational, and rounded down
    to a multiple of the inverse of its denominator otherwise. *)
Definition Qsqrt (q : Q) : Q :=
  Z.sqrt (Qnum q * Zpos (Qden q)) # Qden q.

Definition l2norm (v : list Q) : Q :=
  match dot v v with
  | Some d => Qsqrt (Qred d)
  | None => 0
  end.

End Np.

(** ** Records read by the engine *)

(** [candidate.parsed_resume["personal_info"]]; the engine reads only the
    location. *)
Record PersonalInfo := { location : option string }.

(** [candidate.parsed_resume], a JSON object whose ["personal_info"] key may
    be missing. *)
Record ParsedResume := { personal_info : option PersonalInfo }.

(** The JSON column [total_experience]: null, the empty string the search
    handler tests for, or a number of years. *)
Inductive experience_value : Type :=
| ExpNone
| ExpEmpty
| ExpYears (years : Q).

(** [CandidateProfile] of [models/candidate_model.py]. *)
Record CandidateProfile := {
  profile_id : Z;
  parsed_resume : ParsedResume;
  resume_vector : option (list Q);
  total_experience : experience_value
}.

(** [Job] of [models/job_model.py]. *)
Record Job := {
  job_id : Z;
  job_location : option string;
  jd_vector : option (list Q);
  required_experience : option Q
}.

(** What a database session answers to the two queries of the engine. *)
Record Session := {
  jobs : list Job;
  candidate_profiles : list CandidateProfile
}.

(** [candidate.parsed_resume.get("personal_info", {}).get("location")]. *)
Definition get_location (c : CandidateProfile) : option string :=
  match personal_info (parsed_resume c) with
  | Some info => location info
  | None => None
  end.

(** [db.query(Job).filter(Job.id == job_id).first()]. *)
Definition get_job (db : Session) (id : Z) : option Job :=
  find (fun j => (job_id j =? id)%Z) (jobs db).

(** Truth value of the JSON experience: null, the empty string and zero are
    false. *)
Definition truthy_experience (e : experience_value) : bool :=
  match e with
  | ExpYears y => Py.truthy_num y
  | _ => false
  end.

(** [e != ""]. *)
Definition not_empty_str (e : experience_value) : bool :=
  match e with
  | ExpEmpty => false
  | _ => true
  end.

Inductive criterion : Type := Skills | Location | Experience | Title.

(** ** search_handler.py *)

Module SearchHandler.

Record SearchScores := {
  skills_score : Q;
  location_score : Q;
  experience_score : Q;
  total_score : Q
}.

(** One entry of the list [search_candidates] returns. *)
Record result := {
  candidate : CandidateProfile;
  scores : SearchScores
}.

(** [self.weights]. *)
Definition weights (c : criterion) : Q :=
  match c with
  | Skills => 0.6
  | Location => 0.2
  | Experience => 0.2
  | Title => 0   (* no such key in the search weights; never looked up *)
  end.

(** The body of the loop over the candidate parts: the similarity of one
    query part and one candidate part. *)
Definition part_similarity (query_part candidate_part : string) : Q :=
  if String.eqb query_part candidate_part then 1.0
  else if Py.contains query_part candidate_part
          || Py.contains candidate_part query_part then 0.9
  else
    let (shorter, longer) :=
      if (String.length query_part <=? String.length candidate_part)%nat
      then (query_part, candidate_part)
      else (candidate_part, query_part) in
    if (String.length longer =? 0)%nat then 0
    else inject_Z (Z.of_nat (Py.zip_matches shorter longer))
         / inject_Z (Z.of_nat (String.length longer)).

(** [max(similarities) if similarities else 0]. *)
Definition max_or_zero (similarities : list Q) : Q :=
  match Py.max similarities with
  | Some m => m
  | None => 0
  end.

(** [[p.strip().lower() for p in s.split(',')]]. *)
Definition parts (s : string) : list string :=
  map (fun p => Py.lower (Py.strip p)) (Py.split Py.comma s).

Definition calculate_location_match
    (query_location candidate_location : option string) : Q :=
  match query_location, candidate_location with
  | Some ((String _ _) as q), Some ((String _ _) as c) =>
      let query_parts := parts q in
      let candidate_parts := parts c in
      let max_similarities :=
        map (fun query_part =>
               max_or_zero
                 (map (part_similarity query_part) candidate_parts))
            query_parts in
      Py.sum max_similarities / Py.len query_parts
  | _, _ => 0
  end.

Definition calculate_experience_match
    (candidate_experience : experience_value)
    (required_experience : option Q) : Q :=
  match candidate_experience, required_experience with
  | ExpNone, _ => 0
  | _, None => 0
  | ExpEmpty, Some _ => 0   (* the subtraction raises; the handler returns 0 *)
  | ExpYears c, Some r =>
      let difference_years := Qabs (c - r) in
      if Qeq_bool difference_years 0 then 1.0
      else if Qle_bool difference_years 1 then 0.9
      else if Qle_bool difference_years 2 then 0.7
      else if Qle_bool difference_years 3 then 0.5
      else if Qle_bool difference_years 4 then 0.3
      else 0.1
  end.

Section WithNorm.
(** [np.linalg.norm]. *)
Variable norm : list Q -> Q.

(** The loop that fills [similarities]; [None] when [np.dot] raises. *)
Fixpoint similarities (query_vectors : list (list Q))
    (candidate_vector : list Q) : option (list Q) :=
  match query_vectors with
  | [] => Some []
  | vec :: rest =>
      match Np.dot vec candidate_vector with
      | None => None
      | Some dot_product =>
          let norm1 := norm vec in
          let norm2 := norm candidate_vector in
          match similarities rest candidate_vector with
          | None => None
          | Some sims =>
              Some (if Py.truthy_num norm1 && Py.truthy_num norm2
                    then dot_product / (norm1 * norm2) :: sims
                    else sims)
          end
      end
  end.

Definition calculate_skills_similarity
    (query_vectors : option (list (list Q)))
    (candidate_vector : option (list Q)) : Q :=
  match query_vectors, candidate_vector with
  | Some ((_ :: _) as qs), Some ((_ :: _) as v) =>
      match similarities qs v with
      | Some sims => max_or_zero sims
      | None => 0
      end
  | _, _ => 0
  end.

(** The running [total_score] and [total_weight] with the three optional
    sub-scores, as the loop body updates them. *)
Record tally := {
  t_skills : option Q;
  t_location : option Q;
  t_experience : option Q;
  t_score : Q;
  t_weight : Q
}.

Definition tally0 : tally :=
  {| t_skills := None; t_location := None; t_experience := None;
     t_score := 0; t_weight := 0 |}.

Definition add_skills (skills_vectors : option (list (list Q)))
    (c : CandidateProfile) (t : tally) : tally :=
  if Py.truthy_list skills_vectors && Py.truthy_list (resume_vector c)
  then
    let s := calculate_skills_similarity skills_vectors (resume_vector c) in
    {| t_skills := Some s; t_location := t_location t;
       t_experience := t_experience t;
       t_score := t_score t + s * weights Skills;
       t_weight := t_weight t + weights Skills |}
  else t.

Definition add_location (loc : option string)
    (c : CandidateProfile) (t : tally) : tally :=
  if Py.truthy_str loc && Py.truthy_str (get_location c)
  then
    let s := calculate_location_match loc (get_location c) in
    {| t_skills := t_skills t; t_location := Some s;
       t_experience := t_experience t;
       t_score := t_score t + s * weights Location;
       t_weight := t_weight t + weights Location |}
  else t.

Definition add_experience (required : option Q)
    (c : CandidateProfile) (t : tally) : tally :=
  if Py.truthy_opt_num required && not_empty_str (total_experience c)
  then
    let s := calculate_experience_match (total_experience c) required in
    {| t_skills := t_skills t; t_location := t_location t;
       t_experience := Some s;
       t_score := t_score t + s * weights Experience;
       t_weight := t_weight t + weights Experience |}
  else t.

(** The tally of one candidate after the three criteria. *)
Definition tally_of (skills_vectors : option (list (list Q)))
    (loc : option string) (required : option Q)
    (c : CandidateProfile) : tally :=
  add_experience required c
    (add_location loc c (add_skills skills_vectors c tally0)).

(** The end of the loop body: the entry appended for the candidate, if
    any. *)
Definition entry_of (min_score : Q) (c : CandidateProfile) (t : tally)
    : option result :=
  if Py.Qltb 0 (t_weight t) then
    let final_score := t_score t / t_weight t in
    if Qle_bool min_score final_score then
      Some {| candidate := c;
              scores := {| skills_score := Py.or_zero (t_skills t);
                           location_score := Py.or_zero (t_location t);
                           experience_score := Py.or_zero (t_experience t);
                           total_score := final_score |} |}
    else None
  else None.

(** The list [results] when the loop over the candidates ends. *)
Fixpoint results (skills_vectors : option (list (list Q)))
    (loc : option string) (required : option Q) (min_score : Q)
    (candidates : list CandidateProfile) : list result :=
  match candidates with
  | [] => []
  | c :: rest =>
      match entry_of min_score c (tally_of skills_vectors loc required c) with
      | Some r => r :: results skills_vectors loc required min_score rest
      | None => results skills_vectors loc required min_score rest
      end
  end.

Definition search_candidates (db : Session)
    (skills_vectors : option (list (list Q)))
    (loc : option string) (required : option Q)
    (min_score : Q) (limit : Z) : list result :=
  let candidates := candidate_profiles db in
  Py.slice_to
    (Py.sorted_reverse (fun x => total_score (scores x))
       (results skills_vectors loc required min_score candidates))
    limit.

End WithNorm.

Record Summary := {
  count : nat;
  avg_score : Q;
  max_score : Q;
  min_score : Q;
  excellent : nat;
  good : nat;
  fair : nat
}.

Definition get_search_summary (search_results : list result) : Summary :=
  match search_results with
  | [] =>
      {| count := 0; avg_score := 0; max_score := 0; min_score := 0;
         excellent := 0; good := 0; fair := 0 |}
  | _ :: _ =>
      let scores := map (fun r => total_score (scores r)) search_results in
      {| count := List.length search_results;
         avg_score := Np.mean scores;
         max_score := Np.max scores;
         min_score := Np.min scores;
         excellent :=
           List.length (filter (fun s => Qle_bool 0.8 s) scores);
         good :=
           List.length
             (filter (fun s => Qle_bool 0.6 s && Py.Qltb s 0.8) scores);
         fair :=
           List.length
             (filter (fun s => Qle_bool 0.5 s && Py.Qltb s 0.6) scores) |}
  end.

End SearchHandler.

(** ** rank_handler.py *)

Module RankHandler.

(** The dictionary [scores] of one ranked candidate. *)
Record Scores := {
  skills_score : Q;
  experience_score : Q;
  location_score : Q
}.

(** One entry of the list [rank_candidates_for_job] returns. *)
Record result := {
  candidate : CandidateProfile;
  scores : Scores;
  total_score : Q
}.

(** [self.weights]. *)
Definition weights (c : criterion) : Q :=
  match c with
  | Skills => 0.4
  | Experience => 0.3
  | Title => 0.2
  | Location => 0.1
  end.

Definition calculate_experience_match
    (candidate_experience : experience_value)
    (required_experience : option Q) : Q :=
  match candidate_experience, required_experience with
  | ExpNone, _ => 0
  | _, None => 0
  | ExpEmpty, Some _ => 0   (* the subtraction raises; the handler returns 0 *)
  | ExpYears c, Some r =>
      let difference_years := Qabs (c - r) in
      if Qeq_bool difference_years 0 then 1.0
      else if Qle_bool difference_years 1 then 0.9
      else if Qle_bool difference_years 2 then 0.7
      else if Qle_bool difference_years 3 then 0.5
      else if Qle_bool difference_years 4 then 0.3
      else 0.1
  end.

(** [max(0.0, min(1.0, similarity))]: Python's two-argument [min] and
    [max] return the first argument unless the second is strictly smaller
    (respectively greater). *)
Definition clamp01 (similarity : Q) : Q :=
  let m := if Py.Qltb similarity 1.0 then similarity else 1.0 in
  if Py.Qltb 0.0 m then m else 0.0.

Section WithNorm.
(** [np.linalg.norm]. *)
Variable norm : list Q -> Q.

Definition calculate_skills_match
    (candidate_vector job_vector : option (list Q)) : Q :=
  match candidate_vector, job_vector with
  | Some ((_ :: _) as c), Some ((_ :: _) as j) =>
      match Np.dot c j with
      | None => 0
      | Some dot_product =>
          let norm1 := norm c in
          let norm2 := norm j in
          if Py.truthy_num norm1 && Py.truthy_num norm2
          then clamp01 (dot_product / (norm1 * norm2))
          else 0
      end
  | _, _ => 0
  end.

(** The dictionary [scores] and the running [total_score] of the loop
    body. *)
Definition tally : Type := (Scores * Q)%type.

Definition tally0 : tally :=
  ({| skills_score := 0.0; experience_score := 0.0;
      location_score := 0.0 |}, 0).

Definition add_skills (job : Job) (c : CandidateProfile) (t : tally)
    : tally :=
  if Py.truthy_list (jd_vector job) && Py.truthy_list (resume_vector c)
  then
    let s := calculate_skills_match (resume_vector c) (jd_vector job) in
    ({| skills_score := s;
        experience_score := experience_score (fst t);
        location_score := location_score (fst t) |},
     snd t + s * weights Skills)
  else t.

Definition add_experience (job : Job) (c : CandidateProfile) (t : tally)
    : tally :=
  if Py.truthy_opt_num (required_experience job)
     && truthy_experience (total_experience c)
  then
    let s := calculate_experience_match (total_experience c)
               (required_experience job) in
    ({| skills_score := skills_score (fst t);
        experience_score := s;
        location_score := location_score (fst t) |},
     snd t + s * weights Experience)
  else t.

Definition add_location (job : Job) (c : CandidateProfile) (t : tally)
    : tally :=
  let candidate_location := get_location c in
  if Py.truthy_str (job_location job) && Py.truthy_str candidate_location
  then
    let s := SearchHandler.calculate_location_match
               (job_location job) candidate_location in
    ({| skills_score := skills_score (fst t);
        experience_score := experience_score (fst t);
        location_score := s |},
     snd t + s * weights Location)
  else t.

(** The tally of one candidate after the three criteria. *)
Definition tally_of (job : Job) (c : CandidateProfile) : tally :=
  add_location job c (add_experience job c (add_skills job c tally0)).

(** The end of the loop body: the entry appended for the candidate, if
    any. *)
Definition entry_of (min_score : Q) (c : CandidateProfile) (t : tally)
    : option result :=
  if Qle_bool min_score (snd t) then
    Some {| candidate := c; scores := fst t; total_score := snd t |}
  else None.

(** The list [ranked_results] when the loop over the candidates ends. *)
Fixpoint ranked_results (job : Job) (min_score : Q)
    (candidates : list CandidateProfile) : list result :=
  match candidates with
  | [] => []
  | c :: rest =>
      match entry_of min_score c (tally_of job c) with
      | Some r => r :: ranked_results job min_score rest
      | None => ranked_results job min_score rest
      end
  end.

Definition rank_candidates_for_job (db : Session) (id : Z)
    (min_score : Q) (limit : Z) : list result :=
  match get_job db id with
  | None => []
  | Some job =>
      match candidate_profiles db with
      | [] => []
      | (_ :: _) as candidates =>
          Py.slice_to
            (Py.sorted_reverse total_score
               (ranked_results job min_score candidates))
            limit
      end
  end.

End WithNorm.

End RankHandler.

(** ** candidate_crud.py *)

Module CandidateCrud.

Section WithNorm.
(** [np.linalg.norm]. *)
Variable norm : list Q -> Q.

(** The local function [cosine_similarity]; [None] stands for the
    [ValueError] of [np.dot], which nothing catches here. *)
Definition cosine_similarity (vec1 vec2 : option (list Q)) : option Q :=
  match vec1, vec2 with
  | Some ((_ :: _) as u), Some ((_ :: _) as v) =>
      match Np.dot u v with
      | None => None
      | Some dot_product =>
          let norm1 := norm u in
          let norm2 := norm v in
          Some (if Py.truthy_num norm1 && Py.truthy_num norm2
                then dot_product / (norm1 * norm2)
                else 0)
      end
  | _, _ => Some 0
  end.

(** The list [candidates_with_scores]; [None] when a similarity raises. *)
Fixpoint candidates_with_scores (skills_vector : option (list Q))
    (candidates : list CandidateProfile)
    : option (list (CandidateProfile * Q)) :=
  match candidates with
  | [] => Some []
  | candidate :: rest =>
      match cosine_similarity skills_vector (resume_vector candidate) with
      | None => None
      | Some score =>
          match candidates_with_scores skills_vector rest with
          | None => None
          | Some scored => Some ((candidate, score) :: scored)
          end
      end
  end.

(** The key of the final sort, which computes the similarity again; it
    cannot raise for a candidate that went through [candidates_with_scores]. *)
Definition sort_key (skills_vector : option (list Q)) (x : CandidateProfile)
    : Q :=
  match cosine_similarity skills_vector (resume_vector x) with
  | Some score => score
  | None => 0
  end.

(** [search_candidates_by_skills], over the rows [candidates] that the query
    for the profiles with a vector returns; [None] stands for the exception
    the function logs and raises again. *)
Definition search_candidates_by_skills (candidates : list CandidateProfile)
    (skills_vector : option (list Q)) (limit : Z) (similarity_threshold : Q)
    : option (list CandidateProfile) :=
  match candidates_with_scores skills_vector candidates with
  | None => None
  | Some scored =>
      let filtered_candidates :=
        map fst
          (filter (fun cs => Qle_bool similarity_threshold (snd cs)) scored) in
      let sorted_candidates :=
        Py.sorted_reverse (sort_key skills_vector) filtered_candidates in
      Some (Py.slice_to sorted_candidates limit)
  end.

End WithNorm.

End CandidateCrud.

(** ** candidate_endpoints.py *)

Module CandidateEndpoints.

Definition dot_char : ascii := "."%char.

(** [l[-1]] of a list that [split] returned, which is never empty. *)
Definition last_item (l : list string) : string := last l EmptyString.

(** ['.' + file.filename.split('.')[-1].lower()] of [upload_resume]. *)
Definition file_ext (filename : string) : string :=
  String dot_char (Py.lower (last_item (Py.split dot_char filename))).

(** [file_ext in allowed_extensions]: when false [upload_resume] answers
    400 before it reads the file. *)
Definition allowed (filename : string) : bool :=
  String.eqb (file_ext filename) ".pdf" || String.eqb (file_ext filename) ".docx".

End CandidateEndpoints.

(** * Vocabulary of the properties

    The notions the statements below are written with: what the specification
    calls a step function, a mean, a histogram bucket, a substring, the
    applied criteria and their weighted sums, a sorted and truncated result
    list; and the concrete searches and rankings the theorems are evaluated
    on. *)

(** The chain of tests of [calculate_experience_match] on a difference. *)
Definition gap_score (d : Q) : Q :=
  if Qeq_bool d 0 then 1.0
  else if Qle_bool d 1 then 0.9
  else if Qle_bool d 2 then 0.7
  else if Qle_bool d 3 then 0.5
  else if Qle_bool d 4 then 0.3
  else 0.1.

(** The sum of a list of scores, term by term. *)
Fixpoint total_of (l : list Q) : Q :=
  match l with
  | [] => 0
  | x :: l' => x + total_of l'
  end.

(** The number of scores [t] of [l] with [lo <= t], and [t < hi] when an
    upper end is given. *)
Fixpoint bucket (lo : Q) (hi : option Q) (l : list Q) : nat :=
  match l with
  | [] => 0
  | t :: l' =>
      let below_hi :=
        match hi with
        | Some h => if Qlt_le_dec t h then true else false
        | None => true
        end in
      ((if Qlt_le_dec t lo then 0 else if below_hi then 1 else 0)
       + bucket lo hi l')%nat
  end.

(** [a] occurs in [b] as a contiguous run of characters. *)
Definition Substring (a b : string) : Prop :=
  exists pre post : string, b = String.append pre (String.append a post).

(** The number of positions, counted from index 0, at which both strings
    have a character and the two characters are equal. *)
Definition positional_matches (a b : string) : nat :=
  List.length
    (filter (fun i => match String.get i a, String.get i b with
                      | Some x, Some y => Ascii.eqb x y
                      | _, _ => false
                      end)
            (seq 0 (Nat.min (String.length a) (String.length b)))).

(** [sep.join(l)]. *)
Fixpoint join (sep : ascii) (l : list string) : string :=
  match l with
  | [] => EmptyString
  | [x] => x
  | x :: l' => String.append x (String sep (join sep l'))
  end.

(** The cosine of two vectors of equal length as the handlers compute it
    from [np.dot] and the norm; 0 stands in where [np.dot] raises. *)
Definition cosine_of (norm : list Q -> Q) (u v : list Q) : Q :=
  match Np.dot u v with
  | Some d => d / (norm u * norm v)
  | None => 0
  end.

(** Both norms are different from zero, so that the handlers divide. *)
Definition usable (norm : list Q -> Q) (u v : list Q) : bool :=
  Py.truthy_num (norm u) && Py.truthy_num (norm v).

(** [a] may stand before [b] in a list sorted by decreasing key. *)
Definition desc {A : Type} (key : A -> Q) (a b : A) : Prop := key b <= key a.

(** [out] is what remains of [all] after sorting by decreasing key and
    keeping at most [limit] entries: it is sorted, no longer than [limit],
    and with the entries left out it makes up [all], every entry left out
    having a key no greater than any kept one, and the entries of any one
    key standing in [out], then among those left out, in the order they have
    in [all]. *)
Definition ranked_prefix {A : Type} (key : A -> Q) (limit : Z)
    (all out : list A) : Prop :=
  StronglySorted (desc key) out
  /\ (Z.of_nat (List.length out) <= limit)%Z
  /\ exists rest,
       Permutation (out ++ rest) all
       /\ (forall a b, In a out -> In b rest -> key b <= key a)
       /\ (forall k,
             filter (fun a => Qeq_bool (key a) k) out
             ++ filter (fun a => Qeq_bool (key a) k) rest
             = filter (fun a => Qeq_bool (key a) k) all).

(** The list the ranking sorts: empty without a job. *)
Definition ranked_for (norm : list Q -> Q) (db : Session) (id : Z)
    (min_score : Q) : list RankHandler.result :=
  match get_job db id with
  | Some job =>
      RankHandler.ranked_results norm job min_score (candidate_profiles db)
  | None => []
  end.

(** ** The criteria of the search *)

Module SearchSpec.

(** Whether the search evaluates a criterion for a candidate, as the three
    guards of the loop body decide it. *)
Definition applied (sv : option (list (list Q))) (loc : option string)
    (required : option Q) (c : CandidateProfile) (k : criterion) : bool :=
  match k with
  | Skills => Py.truthy_list sv && Py.truthy_list (resume_vector c)
  | Location => Py.truthy_str loc && Py.truthy_str (get_location c)
  | Experience =>
      Py.truthy_opt_num required && not_empty_str (total_experience c)
  | Title => false
  end.

Definition sub_score (norm : list Q -> Q) (sv : option (list (list Q)))
    (loc : option string) (required : option Q) (c : CandidateProfile)
    (k : criterion) : Q :=
  match k with
  | Skills =>
      SearchHandler.calculate_skills_similarity norm sv (resume_vector c)
  | Location => SearchHandler.calculate_location_match loc (get_location c)
  | Experience =>
      SearchHandler.calculate_experience_match (total_experience c) required
  | Title => 0
  end.

Definition criteria : list criterion := [Skills; Location; Experience].

(** The sum of sub-score times weight over the applied criteria. *)
Definition applied_score (norm : list Q -> Q) (sv : option (list (list Q)))
    (loc : option string) (required : option Q) (c : CandidateProfile) : Q :=
  total_of
    (map (fun k => sub_score norm sv loc required c k
                   * SearchHandler.weights k)
         (filter (applied sv loc required c) criteria)).

(** The sum of the weights of the applied criteria. *)
Definition applied_weight (sv : option (list (list Q)))
    (loc : option string) (required : option Q) (c : CandidateProfile) : Q :=
  total_of
    (map SearchHandler.weights (filter (applied sv loc required c) criteria)).

(** The candidate has the data a criterion reads: a non-empty skills
    vector, a non-empty location, a number of years. *)
Definition has_data (c : CandidateProfile) (k : criterion) : bool :=
  match k with
  | Skills => Py.truthy_list (resume_vector c)
  | Location => Py.truthy_str (get_location c)
  | Experience =>
      match total_experience c with
      | ExpYears _ => true
      | _ => false
      end
  | Title => false
  end.

End SearchSpec.

(** ** Concrete searches and rankings *)

Module Example.

Definition profile (id : Z) (v : option (list Q)) (place : option string)
    (e : experience_value) : CandidateProfile :=
  {| profile_id := id;
     parsed_resume := {| personal_info := Some {| location := place |} |};
     resume_vector := v;
     total_experience := e |}.

Definition session (cs : list CandidateProfile) : Session :=
  {| jobs := []; candidate_profiles := cs |}.

(** One skill query along the first axis. *)
Definition query : option (list (list Q)) := Some [[1; 0; 0; 0]].

(** Vectors whose cosine to the query is 1, 0.9 and 0.5. *)
Definition aligned : option (list Q) := Some [1; 0; 0; 0].
Definition close : option (list Q) := Some [9; 3; 3; 1].
Definition halfway : option (list Q) := Some [1; 1; 1; 1].

Definition austin : option string := Some "Austin, TX"%string.

(** A candidate with a skills vector and a null experience. *)
Definition null_experience : CandidateProfile :=
  profile 1 aligned None ExpNone.

(** The two candidates of the search scenario: the first has skills of
    cosine 0.9 and neither location nor experience, the second skills of
    cosine 0.5, the location of the query and the required 5 years.  The
    missing experience of the first is the empty string in [first_empty]
    and null in [first_null]. *)
Definition first_empty : CandidateProfile := profile 1 close None ExpEmpty.
Definition first_null : CandidateProfile := profile 1 close None ExpNone.
Definition second : CandidateProfile := profile 2 halfway austin (ExpYears 5).

(** The ranking scenario: a job that requires 5 years, a candidate with 5
    years and one without experience data, both with skills of cosine 1. *)
Definition job : Job :=
  {| job_id := 7; job_location := None; jd_vector := aligned;
     required_experience := Some 5 |}.
Definition experienced : CandidateProfile :=
  profile 1 aligned None (ExpYears 5).
Definition newcomer : CandidateProfile :=
  profile 2 (Some [2; 0; 0; 0]) None ExpNone.
Definition office : Session :=
  {| jobs := [job]; candidate_profiles := [experienced; newcomer] |}.

(** What a search returns, as identifiers with reduced totals. *)
Definition listing (rs : list SearchHandler.result) : list (Z * Q) :=
  map (fun r => (profile_id (SearchHandler.candidate r),
                 Qred (SearchHandler.total_score (SearchHandler.scores r))))
      rs.

End Example.

(** * The handlers on the values of the Python runtime

    The same two handlers once more, on the values the interpreter computes
    with, for the properties that the rounding of a float, a character
    outside ASCII or a null JSON column decides.
    - A Python [float] is a binary64 value ([float]); [+], [-], [*], [/],
      [abs] and the comparisons are the IEEE 754 operations, which is what
      CPython and numpy compute.  An [int] that meets a float (the initial
      0 of an accumulator, a length, the constants of a comparison) is the
      float of the same value.
    - A [str] is the list of its Unicode code points.  [str.lower] and the
      white space of [str.strip] come from the Unicode tables of the
      interpreter, and the built-in [sum] adds floats in order up to Python
      3.11 and with a compensation from 3.12 on: the three are parameters
      ([Interpreter]).
    - [np.dot] and [np.linalg.norm] are parameters ([Numpy]): numpy fixes
      neither the order of the additions nor the use of fused operations.
    - The JSON column [parsed_resume] may be null, and so may its
      ["personal_info"]; reading the location then raises
      [AttributeError]. *)

(** ** The order of binary64 values *)

(** The place of a binary64 value in the order of the floats, as an
    integer; [None] for NaN, which compares with nothing. *)
Definition sf_key (x : spec_float) : option Z :=
  match x with
  | S754_nan => None
  | S754_zero _ => Some 0%Z
  | S754_infinity s => Some (if s then - 2 ^ 64 else 2 ^ 64)%Z
  | S754_finite s m e =>
      let k := ((e + 1075) * 2 ^ 53 + Zpos m)%Z in
      Some (if s then - k else k)%Z
  end.

Definition fkey (x : float) : option Z := sf_key (Prim2SF x).

(** The key of a finite value is smaller in magnitude than the key of the
    infinities. *)
Definition finite_key (k : Z) : Prop := (- 2 ^ 64 < k < 2 ^ 64)%Z.

Module Runtime.

Local Open Scope float_scope.

(** A Python [str]. *)
Definition str : Type := list N.

(** The [str] of an ASCII literal. *)
Definition text (s : string) : str :=
  map N_of_ascii (list_ascii_of_string s).

(** What the handlers take from the interpreter: [str.lower], the test
    behind [str.strip] ([str.isspace] on one character), and the built-in
    [sum] on a list of floats. *)
Record Interpreter := {
  str_lower : str -> str;
  str_isspace : N -> bool;
  float_sum : list float -> float
}.

(** numpy's sum of products of two sequences of equal length, and
    [np.linalg.norm]. *)
Record Numpy := {
  dot_sum : list float -> list float -> float;
  linalg_norm : list float -> float
}.

(** ** Python values and built-ins *)

Module Py.

(** An [int] as a float; exact below 2^53. *)
Definition of_nat (n : nat) : float :=
  of_uint63 (Uint63.of_Z (Z.of_nat n)).

(** Truth value of a number: every number but zero (NaN is true). *)
Definition truthy_num (x : float) : bool := negb (x =? 0).

Definition truthy_list {A : Type} (l : option (list A)) : bool :=
  match l with
  | Some (_ :: _) => true
  | _ => false
  end.

Definition truthy_opt_num (x : option float) : bool :=
  match x with
  | Some q => truthy_num q
  | None => false
  end.

(** [x or 0.0] for an optional score. *)
Definition or_zero (x : option float) : float :=
  match x with
  | Some q => if truthy_num q then q else 0.0
  | None => 0.0
  end.

(** The additions from left to right, starting from 0: [sum(l)] up to
    Python 3.11, and in every version for a list of one or two floats. *)
Definition sum_in_order (l : list float) : float := fold_left add l 0.

(** [max(l)]: the running maximum is replaced by an item that is strictly
    greater; [None] stands for the [ValueError] on an empty sequence. *)
Definition max (l : list float) : option float :=
  match l with
  | [] => None
  | x :: xs => Some (fold_left (fun m y => if m <? y then y else m) xs x)
  end.

(** [len(l)] as a denominator. *)
Definition len {A : Type} (l : list A) : float := of_nat (List.length l).

(** [l[:n]]. *)
Definition slice_to {A : Type} (l : list A) (n : Z) : list A :=
  if (0 <=? n)%Z then firstn (Z.to_nat n) l
  else firstn (List.length l - Z.to_nat (- n)) l.

(** [sorted(l, key=key, reverse=True)].  The sort compares keys with [<]
    only and is stable, also when reversed: the element [x], which precedes
    every element of [l] in the input, goes in front of the first element
    whose key is not greater than its own.  (No key is NaN where the
    handlers sort: a NaN total does not pass the threshold.) *)
Section Sorted.
Context {A : Type} (key : A -> float).

Fixpoint insert_desc (x : A) (l : list A) : list A :=
  match l with
  | [] => [x]
  | y :: l' =>
      if key x <? key y then y :: insert_desc x l'
      else x :: y :: l'
  end.

Definition sorted_reverse (l : list A) : list A :=
  fold_right insert_desc [] l.
End Sorted.

(** *** Strings *)

Definition comma : N := 44%N.

(** [a == b]. *)
Fixpoint eqb (a b : str) : bool :=
  match a, b with
  | [], [] => true
  | x :: a', y :: b' => (x =? y)%N && eqb a' b'
  | _, _ => false
  end.

Definition truthy_str (s : option str) : bool :=
  match s with
  | Some (_ :: _) => true
  | _ => false
  end.

(** [s.split(sep)] for a one-character separator. *)
Fixpoint split (sep : N) (s : str) : list str :=
  match s with
  | [] => [[]]
  | c :: s' =>
      if (c =? sep)%N then [] :: split sep s'
      else match split sep s' with
           | [] => [[c]]
           | h :: t => (c :: h) :: t
           end
  end.

Section Strip.
Variable py : Interpreter.

Fixpoint lstrip (s : str) : str :=
  match s with
  | [] => []
  | c :: s' => if str_isspace py c then lstrip s' else s
  end.

Fixpoint rstrip (s : str) : str :=
  match s with
  | [] => []
  | c :: s' =>
      match rstrip s' with
      | [] => if str_isspace py c then [] else [c]
      | r => c :: r
      end
  end.

Definition strip (s : str) : str := rstrip (lstrip s).
End Strip.

(** [b.startswith(a)]. *)
Fixpoint prefix (a b : str) : bool :=
  match a, b with
  | [], _ => true
  | x :: a', y :: b' => (x =? y)%N && prefix a' b'
  | _ :: _, [] => false
  end.

(** [a in b]. *)
Fixpoint contains (a b : str) : bool :=
  prefix a b
  || match b with
     | [] => false
     | _ :: b' => contains a b'
     end.

(** [sum(1 for a, b in zip(s, t) if a == b)]. *)
Fixpoint zip_matches (s t : str) : nat :=
  match s, t with
  | a :: s', b :: t' =>
      ((if (a =? b)%N then 1 else 0) + zip_matches s' t')%nat
  | _, _ => 0%nat
  end.

End Py.

(** ** numpy *)

Module Np.

(** [np.dot]; [None] stands for the [ValueError] numpy raises when the
    lengths differ. *)
Definition dot (np : Numpy) (a b : list float) : option float :=
  if (List.length a =? List.length b)%nat then Some (dot_sum np a b)
  else None.

(** The products added from left to right, starting from 0. *)
Fixpoint sum_of_products (a b : list float) (acc : float) : float :=
  match a, b with
  | x :: a', y :: b' => sum_of_products a' b' (acc + x * y)
  | _, _ => acc
  end.

(** A numpy that adds the products in order and takes the norm as the root
    of the sum of squares.  Where every product and partial sum is exact,
    as with small whole numbers, every other order gives the same values. *)
Definition in_order : Numpy :=
  {| dot_sum := fun a b => sum_of_products a b 0;
     linalg_norm := fun v => sqrt (sum_of_products v v 0) |}.

End Np.

(** ** Rows *)

(** The entry ["personal_info"] of [parsed_resume]: the key is missing,
    its value is null, or it is an object whose ["location"] is a string or
    is null or missing. *)
Inductive personal_info_value : Type :=
| InfoMissing
| InfoNull
| InfoObject (location : option str).

(** The JSON column [total_experience]. *)
Inductive experience_value : Type :=
| ExpNone
| ExpEmpty
| ExpYears (years : float).

Record CandidateProfile := {
  profile_id : Z;
  (** [None] when the column is null. *)
  parsed_resume : option personal_info_value;
  resume_vector : option (list float);
  total_experience : experience_value
}.

(** [required_experience] is an integer column; the handlers use it as a
    number, and every 32-bit integer is a float. *)
Record Job := {
  job_id : Z;
  job_location : option str;
  jd_vector : option (list float);
  required_experience : option float
}.

Record Session := {
  jobs : list Job;
  candidate_profiles : list CandidateProfile
}.

(** [candidate.parsed_resume.get("personal_info", {}).get("location")];
    [None] stands for the [AttributeError] of [None.get]. *)
Definition get_location (c : CandidateProfile) : option (option str) :=
  match parsed_resume c with
  | None => None
  | Some InfoMissing => Some None
  | Some InfoNull => None
  | Some (InfoObject l) => Some l
  end.

Definition get_job (db : Session) (id : Z) : option Job :=
  find (fun j => (job_id j =? id)%Z) (jobs db).

Definition truthy_experience (e : experience_value) : bool :=
  match e with
  | ExpYears y => Py.truthy_num y
  | _ => false
  end.

(** [e != ""]. *)
Definition not_empty_str (e : experience_value) : bool :=
  match e with
  | ExpEmpty => false
  | _ => true
  end.

(** ** search_handler.py *)

Module SearchHandler.

Record SearchScores := {
  skills_score : float;
  location_score : float;
  experience_score : float;
  total_score : float
}.

Record result := {
  candidate : CandidateProfile;
  scores : SearchScores
}.

Definition weights (c : criterion) : float :=
  match c with
  | Skills => 0.6
  | Location => 0.2
  | Experience => 0.2
  | Title => 0
  end.

Definition part_similarity (query_part candidate_part : str) : float :=
  if Py.eqb query_part candidate_part then 1.0
  else if Py.contains query_part candidate_part
          || Py.contains candidate_part query_part then 0.9
  else
    let (shorter, longer) :=
      if (List.length query_part <=? List.length candidate_part)%nat
      then (query_part, candidate_part)
      else (candidate_part, query_part) in
    if (List.length longer =? 0)%nat then 0
    else Py.of_nat (Py.zip_matches shorter longer)
         / Py.of_nat (List.length longer).

(** [max(similarities) if similarities else 0]. *)
Definition max_or_zero (similarities : list float) : float :=
  match Py.max similarities with
  | Some m => m
  | None => 0
  end.

(** [[p.strip().lower() for p in s.split(',')]]. *)
Definition parts (py : Interpreter) (s : str) : list str :=
  map (fun p => str_lower py (Py.strip py p)) (Py.split Py.comma s).

Definition calculate_location_match (py : Interpreter)
    (query_location candidate_location : option str) : float :=
  match query_location, candidate_location with
  | Some ((_ :: _) as q), Some ((_ :: _) as c) =>
      let query_parts := parts py q in
      let candidate_parts := parts py c in
      let max_similarities :=
        map (fun query_part =>
               max_or_zero
                 (map (part_similarity query_part) candidate_parts))
            query_parts in
      float_sum py max_similarities / Py.len query_parts
  | _, _ => 0
  end.

Definition calculate_experience_match
    (candidate_experience : experience_value)
    (required_experience : option float) : float :=
  match candidate_experience, required_experience with
  | ExpNone, _ => 0
  | _, None => 0
  | ExpEmpty, Some _ => 0   (* the subtraction raises; the handler returns 0 *)
  | ExpYears c, Some r =>
      let difference_years := abs (c - r) in
      if difference_years =? 0 then 1.0
      else if difference_years <=? 1 then 0.9
      else if difference_years <=? 2 then 0.7
      else if difference_years <=? 3 then 0.5
      else if difference_years <=? 4 then 0.3
      else 0.1
  end.

Section WithNumpy.
Variable np : Numpy.

(** The loop that fills [similarities]; [None] when [np.dot] raises. *)
Fixpoint similarities (query_vectors : list (list float))
    (candidate_vector : list float) : option (list float) :=
  match query_vectors with
  | [] => Some []
  | vec :: rest =>
      match Np.dot np vec candidate_vector with
      | None => None
      | Some dot_product =>
          let norm1 := linalg_norm np vec in
          let norm2 := linalg_norm np candidate_vector in
          match similarities rest candidate_vector with
          | None => None
          | Some sims =>
              Some (if Py.truthy_num norm1 && Py.truthy_num norm2
                    then dot_product / (norm1 * norm2) :: sims
                    else sims)
          end
      end
  end.

Definition calculate_skills_similarity
    (query_vectors : option (list (list float)))
    (candidate_vector : option (list float)) : float :=
  match query_vectors, candidate_vector with
  | Some ((_ :: _) as qs), Some ((_ :: _) as v) =>
      match similarities qs v with
      | Some sims => max_or_zero sims
      | None => 0
      end
  | _, _ => 0
  end.

Record tally := {
  t_skills : option float;
  t_location : option float;
  t_experience : option float;
  t_score : float;
  t_weight : float
}.

Definition tally0 : tally :=
  {| t_skills := None; t_location := None; t_experience := None;
     t_score := 0; t_weight := 0 |}.

Definition add_skills (skills_vectors : option (list (list float)))
    (c : CandidateProfile) (t : tally) : tally :=
  if Py.truthy_list skills_vectors && Py.truthy_list (resume_vector c)
  then
    let s := calculate_skills_similarity skills_vectors (resume_vector c) in
    {| t_skills := Some s; t_location := t_location t;
       t_experience := t_experience t;
       t_score := t_score t + s * weights Skills;
       t_weight := t_weight t + weights Skills |}
  else t.

(** The location of the candidate is read only when the search has a
    location; [None] when reading it raises. *)
Definition add_location (py : Interpreter) (loc : option str)
    (c : CandidateProfile) (t : tally) : option tally :=
  if Py.truthy_str loc then
    match get_location c with
    | None => None
    | Some candidate_location =>
        Some (if Py.truthy_str candidate_location
              then
                let s := calculate_location_match py loc candidate_location in
                {| t_skills := t_skills t; t_location := Some s;
                   t_experience := t_experience t;
                   t_score := t_score t + s * weights Location;
                   t_weight := t_weight t + weights Location |}
              else t)
    end
  else Some t.

Definition add_experience (required : option float)
    (c : CandidateProfile) (t : tally) : tally :=
  if Py.truthy_opt_num required && not_empty_str (total_experience c)
  then
    let s := calculate_experience_match (total_experience c) required in
    {| t_skills := t_skills t; t_location := t_location t;
       t_experience := Some s;
       t_score := t_score t + s * weights Experience;
       t_weight := t_weight t + weights Experience |}
  else t.

Definition tally_of (py : Interpreter)
    (skills_vectors : option (list (list float)))
    (loc : option str) (required : option float)
    (c : CandidateProfile) : option tally :=
  option_map (add_experience required c)
    (add_location py loc c (add_skills skills_vectors c tally0)).

Definition entry_of (min_score : float) (c : CandidateProfile) (t : tally)
    : option result :=
  if 0 <? t_weight t then
    let final_score := t_score t / t_weight t in
    if min_score <=? final_score then
      Some {| candidate := c;
              scores := {| skills_score := Py.or_zero (t_skills t);
                           location_score := Py.or_zero (t_location t);
                           experience_score := Py.or_zero (t_experience t);
                           total_score := final_score |} |}
    else None
  else None.

(** The list [results] when the loop ends; [None] when a candidate
    raises. *)
Fixpoint results (py : Interpreter) (skills_vectors : option (list (list float)))
    (loc : option str) (required : option float) (min_score : float)
    (candidates : list CandidateProfile) : option (list result) :=
  match candidates with
  | [] => Some []
  | c :: rest =>
      match tally_of py skills_vectors loc required c with
      | None => None
      | Some t =>
          match results py skills_vectors loc required min_score rest with
          | None => None
          | Some rs =>
              Some (match entry_of min_score c t with
                    | Some r => r :: rs
                    | None => rs
                    end)
          end
      end
  end.

(** [None] stands for the exception that [search_candidates] logs and
    raises again. *)
Definition search_candidates (py : Interpreter) (db : Session)
    (skills_vectors : option (list (list float)))
    (loc : option str) (required : option float)
    (min_score : float) (limit : Z) : option (list result) :=
  match results py skills_vectors loc required min_score
          (candidate_profiles db) with
  | None => None
  | Some rs =>
      Some (Py.slice_to
              (Py.sorted_reverse (fun x => total_score (scores x)) rs)
              limit)
  end.

End WithNumpy.

End SearchHandler.

(** ** rank_handler.py *)

Module RankHandler.

Record Scores := {
  skills_score : float;
  experience_score : float;
  location_score : float
}.

Record result := {
  candidate : CandidateProfile;
  scores : Scores;
  total_score : float
}.

Definition weights (c : criterion) : float :=
  match c with
  | Skills => 0.4
  | Experience => 0.3
  | Title => 0.2
  | Location => 0.1
  end.

Definition calculate_experience_match
    (candidate_experience : experience_value)
    (required_experience : option float) : float :=
  match candidate_experience, required_experience with
  | ExpNone, _ => 0
  | _, None => 0
  | ExpEmpty, Some _ => 0   (* the subtraction raises; the handler returns 0 *)
  | ExpYears c, Some r =>
      let difference_years := abs (c - r) in
      if difference_years =? 0 then 1.0
      else if difference_years <=? 1 then 0.9
      else if difference_years <=? 2 then 0.7
      else if difference_years <=? 3 then 0.5
      else if difference_years <=? 4 then 0.3
      else 0.1
  end.

(** [max(0.0, min(1.0, similarity))]. *)
Definition clamp01 (similarity : float) : float :=
  let m := if similarity <? 1.0 then similarity else 1.0 in
  if 0.0 <? m then m else 0.0.

Section WithNumpy.
Variable np : Numpy.

Definition calculate_skills_match
    (candidate_vector job_vector : option (list float)) : float :=
  match candidate_vector, job_vector with
  | Some ((_ :: _) as c), Some ((_ :: _) as j) =>
      match Np.dot np c j with
      | None => 0
      | Some dot_product =>
          let norm1 := linalg_norm np c in
          let norm2 := linalg_norm np j in
          if Py.truthy_num norm1 && Py.truthy_num norm2
          then clamp01 (dot_product / (norm1 * norm2))
          else 0
      end
  | _, _ => 0
  end.

Definition tally : Type := (Scores * float)%type.

Definition tally0 : tally :=
  ({| skills_score := 0.0; experience_score := 0.0;
      location_score := 0.0 |}, 0).

Definition add_skills (job : Job) (c : CandidateProfile) (t : tally)
    : tally :=
  if Py.truthy_list (jd_vector job) && Py.truthy_list (resume_vector c)
  then
    let s := calculate_skills_match (resume_vector c) (jd_vector job) in
    ({| skills_score := s;
        experience_score := experience_score (fst t);
        location_score := location_score (fst t) |},
     snd t + s * weights Skills)
  else t.

Definition add_experience (job : Job) (c : CandidateProfile) (t : tally)
    : tally :=
  if Py.truthy_opt_num (required_experience job)
     && truthy_experience (total_experience c)
  then
    let s := calculate_experience_match (total_experience c)
               (required_experience job) in
    ({| skills_score := skills_score (fst t);
        experience_score := s;
        location_score := location_score (fst t) |},
     snd t + s * weights Experience)
  else t.

(** The location of the candidate is read for every candidate; [None]
    when reading it raises. *)
Definition add_location (py : Interpreter) (job : Job) (c : CandidateProfile)
    (t : tally) : option tally :=
  match get_location c with
  | None => None
  | Some candidate_location =>
      Some (if Py.truthy_str (job_location job)
               && Py.truthy_str candidate_location
            then
              let s := SearchHandler.calculate_location_match py
                         (job_location job) candidate_location in
              ({| skills_score := skills_score (fst t);
                  experience_score := experience_score (fst t);
                  location_score := s |},
               snd t + s * weights Location)
            else t)
  end.

Definition tally_of (py : Interpreter) (job : Job) (c : CandidateProfile)
    : option tally :=
  add_location py job c (add_experience job c (add_skills job c tally0)).

Definition entry_of (min_score : float) (c : CandidateProfile) (t : tally)
    : option result :=
  if min_score <=? snd t then
    Some {| candidate := c; scores := fst t; total_score := snd t |}
  else None.

(** The list [ranked_results] when the loop ends; [None] when a candidate
    raises. *)
Fixpoint ranked_results (py : Interpreter) (job : Job) (min_score : float)
    (candidates : list CandidateProfile) : option (list result) :=
  match candidates with
  | [] => Some []
  | c :: rest =>
      match tally_of py job c with
      | None => None
      | Some t =>
          match ranked_results py job min_score rest with
          | None => None
          | Some rs =>
              Some (match entry_of min_score c t with
                    | Some r => r :: rs
                    | None => rs
                    end)
          end
      end
  end.

(** An exception in the loop is logged and the ranking returns the empty
    list. *)
Definition rank_candidates_for_job (py : Interpreter) (db : Session) (id : Z)
    (min_score : float) (limit : Z) : list result :=
  match get_job db id with
  | None => []
  | Some job =>
      match candidate_profiles db with
      | [] => []
      | (_ :: _) as candidates =>
          match ranked_results py job min_score candidates with
          | None => []
          | Some rs =>
              Py.slice_to (Py.sorted_reverse total_score rs) limit
          end
      end
  end.

End WithNumpy.

End RankHandler.

(** ** Vocabulary of the properties *)

Module Spec.

(** [a] occurs in [b] as a contiguous run of characters. *)
Definition Substring (a b : str) : Prop :=
  exists pre post : str, b = pre ++ a ++ post.

(** The number of positions, counted from index 0, at which both strings
    have a character and the two characters are equal. *)
Definition positional_matches (a b : str) : nat :=
  List.length
    (filter (fun i => match nth_error a i, nth_error b i with
                      | Some x, Some y => (x =? y)%N
                      | _, _ => false
                      end)
            (seq 0 (Nat.min (List.length a) (List.length b)))).

(** [sep.join(l)]. *)
Fixpoint join (sep : N) (l : list str) : str :=
  match l with
  | [] => []
  | [x] => x
  | x :: l' => x ++ sep :: join sep l'
  end.

Fixpoint last_char (s : str) : option N :=
  match s with
  | [] => None
  | [c] => Some c
  | _ :: s' => last_char s'
  end.

(** The string neither starts nor ends with white space. *)
Definition trimmed (py : Interpreter) (s : str) : Prop :=
  (forall c, hd_error s = Some c -> str_isspace py c = false)
  /\ (forall c, last_char s = Some c -> str_isspace py c = false).

(** Every character is below 128. *)
Definition is_ascii (s : str) : bool := forallb (fun c => (c <? 128)%N) s.

(** [str.lower] on an ASCII character: the letters A to Z move to a to z. *)
Definition ascii_lower (c : N) : N :=
  if ((65 <=? c) && (c <=? 90))%N then (c + 32)%N else c.

(** The ASCII white space of [str.strip]: tab, line feed, vertical tab,
    form feed, carriage return, the separators 28 to 31, and the space. *)
Definition ascii_space (c : N) : bool :=
  ((9 <=? c) && (c <=? 13) || (28 <=? c) && (c <=? 32))%N.

(** What holds of every CPython: on ASCII text [str.lower] folds A to Z and
    nothing else, the ASCII white space is the one above, and [sum] of at
    most two floats is their sum in order (the compensation of Python 3.12
    adds back the rounding error of a single addition, which changes
    nothing). *)
Definition conforming (py : Interpreter) : Prop :=
  (forall s, is_ascii s = true -> str_lower py s = map ascii_lower s)
  /\ (forall c, (c < 128)%N -> str_isspace py c = ascii_space c)
  /\ (forall l, (List.length l <= 2)%nat ->
                float_sum py l = Py.sum_in_order l).

(** [a] may stand before [b] in a list sorted by decreasing key. *)
Definition desc {A : Type} (key : A -> float) (a b : A) : Prop :=
  (key b <=? key a) = true.

(** [out] is what remains of [all] after sorting by decreasing key and
    cutting the sorted list short: it is sorted, and with the entries left
    out it makes up [all], every entry left out having a key no greater
    than any kept one, and the entries of any one key standing in [out],
    then among those left out, in the order they have in [all]. *)
Definition ranked_prefix {A : Type} (key : A -> float) (all out : list A)
    : Prop :=
  StronglySorted (desc key) out
  /\ exists rest,
       Permutation (out ++ rest) all
       /\ (forall a b, In a out -> In b rest -> (key b <=? key a) = true)
       /\ (forall k,
             filter (fun a => key a =? k) out
             ++ filter (fun a => key a =? k) rest
             = filter (fun a => key a =? k) all).

(** The number of entries [l[:limit]] keeps of a list of [n]. *)
Definition slice_length (n : nat) (limit : Z) : nat :=
  if (0 <=? limit)%Z then Nat.min (Z.to_nat limit) n
  else (n - Z.to_nat (- limit))%nat.

(** Whether the search loop appends an entry for the candidate. *)
Definition search_kept (np : Numpy) (py : Interpreter)
    (sv : option (list (list float))) (loc : option str)
    (required : option float) (min_score : float) (c : CandidateProfile)
    : bool :=
  match SearchHandler.tally_of np py sv loc required c with
  | Some t =>
      (0 <? SearchHandler.t_weight t)
      && (min_score <=? SearchHandler.t_score t / SearchHandler.t_weight t)
  | None => false
  end.

(** Whether the ranking loop appends an entry for the candidate. *)
Definition rank_kept (np : Numpy) (py : Interpreter) (job : Job)
    (min_score : float) (c : CandidateProfile) : bool :=
  match RankHandler.tally_of np py job c with
  | Some t => min_score <=? snd t
  | None => false
  end.

(** The list the ranking sorts: empty without a job, and when reading a
    candidate raises. *)
Definition ranked_for (np : Numpy) (py : Interpreter) (db : Session) (id : Z)
    (min_score : float) : list RankHandler.result :=
  match get_job db id with
  | Some job =>
      match RankHandler.ranked_results np py job min_score
              (candidate_profiles db) with
      | Some rs => rs
      | None => []
      end
  | None => []
  end.





End Spec.

(** ** Concrete searches and rankings *)

Module Example.

(** An interpreter that knows ASCII only and adds in order; enough to
    evaluate ASCII text. *)
Definition ascii_only : Interpreter :=
  {| str_lower := map Spec.ascii_lower;
     str_isspace := Spec.ascii_space;
     float_sum := Py.sum_in_order |}.

Definition profile (id : Z) (v : option (list float)) (place : option str)
    (e : experience_value) : CandidateProfile :=
  {| profile_id := id;
     parsed_resume := Some (InfoObject place);
     resume_vector := v;
     total_experience := e |}.

Definition session (cs : list CandidateProfile) : Session :=
  {| jobs := []; candidate_profiles := cs |}.

(** The ranking scenario: a job that requires 5 years, a candidate with 5
    years and one without experience data, both with skills of cosine 1. *)
Definition job : Job :=
  {| job_id := 7; job_location := None; jd_vector := Some [1; 0; 0; 0];
     required_experience := Some 5 |}.
Definition experienced : CandidateProfile :=
  profile 1 (Some [1; 0; 0; 0]) None (ExpYears 5).
Definition newcomer : CandidateProfile :=
  profile 2 (Some [2; 0; 0; 0]) None ExpNone.
Definition office : Session :=
  {| jobs := [job]; candidate_profiles := [experienced; newcomer] |}.

(** One skill query along the first axis, and a candidate whose skills
    point away from it (cosine -0.6), with the location and the years the
    search asks for. *)
Definition query : option (list (list float)) := Some [[1; 0; 0; 0]].
Definition austin : option str := Some (text "Austin, TX").
Definition contrarian : CandidateProfile :=
  profile 3 (Some [-3; 4; 0; 0]) austin (ExpYears 5).

(** The two candidates of the search scenario: skills of cosine 0.9 and
    nothing else, and skills of cosine 0.5 with the location and the years
    of the query. *)
Definition first : CandidateProfile :=
  profile 1 (Some [9; 3; 3; 1]) None ExpEmpty.
Definition second : CandidateProfile :=
  profile 2 (Some [1; 1; 1; 1]) austin (ExpYears 5).

(** A candidate whose skills vector is the query vector [[1, 1, 1]]. *)
Definition diagonal : option (list (list float)) := Some [[1; 1; 1]].
Definition twin : CandidateProfile :=
  profile 4 (Some [1; 1; 1]) None ExpEmpty.

End Example.

End Runtime.

(** * Properties of the handlers in exact arithmetic *)

(** ** Comparisons of scores *)

Lemma Qltb_lt (x y : Q) : Py.Qltb x y = true <-> x < y.
Proof.
  unfold Py.Qltb. rewrite negb_true_iff. split; intro H.
  - apply Qnot_le_lt. intro L. apply Qle_bool_iff in L. congruence.
  - destruct (Qle_bool y x) eqn:E; [|reflexivity].
    apply Qle_bool_iff in E. exfalso. apply (Qlt_not_le _ _ H E).
Qed.

Lemma Qltb_ge (x y : Q) : Py.Qltb x y = false <-> y <= x.
Proof.
  unfold Py.Qltb. rewrite negb_false_iff. apply Qle_bool_iff.
Qed.

Lemma Qle_bool_gt (x y : Q) : Qle_bool x y = false <-> y < x.
Proof.
  rewrite <- Qltb_lt. unfold Py.Qltb.
  destruct (Qle_bool x y); simpl; intuition congruence.
Qed.

Lemma Qeq_bool_ne (x y : Q) : Qeq_bool x y = false <-> ~ x == y.
Proof.
  split.
  - apply Qeq_bool_neq.
  - intro H. destruct (Qeq_bool x y) eqn:E; [|reflexivity].
    apply Qeq_bool_iff in E. contradiction.
Qed.

(** Turns every boolean test on scores among the hypotheses into the
    order fact it decides. *)
Ltac q_tests :=
  repeat match goal with
    | H : Qle_bool _ _ = true |- _ => apply Qle_bool_iff in H
    | H : Qle_bool _ _ = false |- _ => apply Qle_bool_gt in H
    | H : Qeq_bool _ _ = true |- _ => apply Qeq_bool_iff in H
    | H : Qeq_bool _ _ = false |- _ => apply Qeq_bool_ne in H
    | H : Py.Qltb _ _ = true |- _ => apply Qltb_lt in H
    | H : Py.Qltb _ _ = false |- _ => apply Qltb_ge in H
    end.

(** ** The experience-gap score *)

Lemma search_experience_gap (x y : Q) :
  SearchHandler.calculate_experience_match (ExpYears x) (Some y)
  = gap_score (Qabs (x - y)).
Proof. reflexivity. Qed.

Lemma rank_experience_same (e : experience_value) (r : option Q) :
  RankHandler.calculate_experience_match e r
  = SearchHandler.calculate_experience_match e r.
Proof. destruct e, r; reflexivity. Qed.

Lemma gap_score_range (d : Q) : 0.1 <= gap_score d <= 1.
Proof.
  unfold gap_score.
  destruct (Qeq_bool d 0); [|destruct (Qle_bool d 1); [|destruct (Qle_bool d 2);
    [|destruct (Qle_bool d 3); [|destruct (Qle_bool d 4)]]]];
    split; unfold Qle; simpl; lia.
Qed.

(** ** [sum], [max] and [min] *)

Lemma fold_left_Qplus_acc (l : list Q) (a : Q) :
  fold_left Qplus l a == a + fold_left Qplus l 0.
Proof.
  revert a. induction l as [|x l IH]; intro a; simpl.
  - ring.
  - rewrite (IH (a + x)), (IH (0 + x)). ring.
Qed.

Lemma sum_cons (x : Q) (l : list Q) : Py.sum (x :: l) == x + Py.sum l.
Proof.
  unfold Py.sum. simpl. rewrite fold_left_Qplus_acc. ring.
Qed.

Lemma fold_max_spec (xs : list Q) (x : Q) :
  let m := fold_left (fun m y => if Py.Qltb m y then y else m) xs x in
  x <= m /\ (forall y, In y xs -> y <= m) /\ (m = x \/ In m xs).
Proof.
  revert x. induction xs as [|y xs IH]; intro x; simpl.
  - repeat split; [apply Qle_refl | contradiction | now left].
  - destruct (Py.Qltb x y) eqn:E; q_tests.
    + destruct (IH y) as (A & B & C). repeat split.
      * apply Qlt_le_weak in E. eapply Qle_trans; eassumption.
      * intros z [<-|Hz]; [assumption | now apply B].
      * destruct C as [C|C]; right; [left; now symmetry | now right].
    + destruct (IH x) as (A & B & C). repeat split.
      * assumption.
      * intros z [<-|Hz]; [eapply Qle_trans; eassumption | now apply B].
      * destruct C as [C|C]; [now left | right; now right].
Qed.

Lemma fold_min_spec (xs : list Q) (x : Q) :
  let m := fold_left (fun m y => if Py.Qltb y m then y else m) xs x in
  m <= x /\ (forall y, In y xs -> m <= y) /\ (m = x \/ In m xs).
Proof.
  revert x. induction xs as [|y xs IH]; intro x; simpl.
  - repeat split; [apply Qle_refl | contradiction | now left].
  - destruct (Py.Qltb y x) eqn:E; q_tests.
    + destruct (IH y) as (A & B & C). repeat split.
      * apply Qlt_le_weak in E. eapply Qle_trans; eassumption.
      * intros z [<-|Hz]; [assumption | now apply B].
      * destruct C as [C|C]; right; [left; now symmetry | now right].
    + destruct (IH x) as (A & B & C). repeat split.
      * assumption.
      * intros z [<-|Hz]; [eapply Qle_trans; eassumption | now apply B].
      * destruct C as [C|C]; [now left | right; now right].
Qed.

Lemma py_max_spec (l : list Q) (m : Q) :
  Py.max l = Some m -> In m l /\ forall y, In y l -> y <= m.
Proof.
  destruct l as [|x xs]; simpl; [discriminate|].
  intro H. injection H as <-.
  destruct (fold_max_spec xs x) as (A & B & C). split.
  - destruct C as [C|C]; [left; now symmetry | now right].
  - intros y [<-|Hy]; [assumption | now apply B].
Qed.

Lemma py_min_spec (l : list Q) (m : Q) :
  Py.min l = Some m -> In m l /\ forall y, In y l -> m <= y.
Proof.
  destruct l as [|x xs]; simpl; [discriminate|].
  intro H. injection H as <-.
  destruct (fold_min_spec xs x) as (A & B & C). split.
  - destruct C as [C|C]; [left; now symmetry | now right].
  - intros y [<-|Hy]; [assumption | now apply B].
Qed.

(** ** The search summary *)

Lemma sum_total_of (l : list Q) : Py.sum l == total_of l.
Proof.
  induction l as [|x l IH]; [reflexivity|].
  rewrite sum_cons, IH. reflexivity.
Qed.

Lemma filter_bucket (lo : Q) (hi : option Q) (l : list Q) :
  List.length
    (filter (fun s => Qle_bool lo s
                      && match hi with
                         | Some h => Py.Qltb s h
                         | None => true
                         end) l)
  = bucket lo hi l.
Proof.
  induction l as [|t l IH]; [reflexivity|]. simpl.
  destruct (Qlt_le_dec t lo) as [L|L].
  - apply Qle_bool_gt in L. rewrite L. simpl. exact IH.
  - apply Qle_bool_iff in L. rewrite L. simpl.
    destruct hi as [h|].
    + destruct (Qlt_le_dec t h) as [U|U].
      * apply Qltb_lt in U. rewrite U. simpl. now rewrite IH.
      * apply Qltb_ge in U. rewrite U. simpl. exact IH.
    + simpl. now rewrite IH.
Qed.

(** C9.  The summary of an empty result set is all zero; the summary of a
    non-empty one holds its length, the mean, greatest and least total
    score, and the numbers of totals that are at least 0.8 (excellent), in
    [0.6, 0.8) (good) and in [0.5, 0.6) (fair). *)
Theorem search_summary_statistics :
  SearchHandler.get_search_summary []
  = {| SearchHandler.count := 0;
       SearchHandler.avg_score := 0;
       SearchHandler.max_score := 0;
       SearchHandler.min_score := 0;
       SearchHandler.excellent := 0;
       SearchHandler.good := 0;
       SearchHandler.fair := 0 |}
  /\ forall (r : SearchHandler.result) (rs : list SearchHandler.result),
       let s := SearchHandler.get_search_summary (r :: rs) in
       let totals :=
         map (fun x => SearchHandler.total_score (SearchHandler.scores x))
             (r :: rs) in
       SearchHandler.count s = List.length (r :: rs)
       /\ SearchHandler.avg_score s
          == total_of totals / inject_Z (Z.of_nat (List.length (r :: rs)))
       /\ (In (SearchHandler.max_score s) totals
           /\ forall t, In t totals -> t <= SearchHandler.max_score s)
       /\ (In (SearchHandler.min_score s) totals
           /\ forall t, In t totals -> SearchHandler.min_score s <= t)
       /\ SearchHandler.excellent s = bucket 0.8 None totals
       /\ SearchHandler.good s = bucket 0.6 (Some 0.8) totals
       /\ SearchHandler.fair s = bucket 0.5 (Some 0.6) totals.
Proof.
  split; [reflexivity|].
  intros r rs s totals. subst s.
  unfold SearchHandler.get_search_summary.
  cbn [SearchHandler.count SearchHandler.avg_score
    SearchHandler.max_score SearchHandler.min_score SearchHandler.excellent
    SearchHandler.good SearchHandler.fair].
  fold totals.
  split; [reflexivity|]. split.
  { unfold Np.mean, Py.len.
    assert (L : List.length totals = List.length (r :: rs))
      by (unfold totals; apply length_map).
    rewrite L. apply Qmult_comp; [apply sum_total_of | reflexivity]. }
  split.
  { unfold Np.max. destruct (Py.max totals) as [m|] eqn:E.
    - now apply py_max_spec.
    - discriminate E. }
  split.
  { unfold Np.min. destruct (Py.min totals) as [m|] eqn:E.
    - now apply py_min_spec.
    - discriminate E. }
  split; [|split].
  - rewrite <- (filter_bucket 0.8 None). f_equal. apply filter_ext.
    intro a. now rewrite andb_true_r.
  - apply (filter_bucket 0.6 (Some 0.8)).
  - apply (filter_bucket 0.5 (Some 0.6)).
Qed.

(** ** Ranking without a job or without candidates *)

Lemma get_job_absent (db : Session) (id : Z) :
  (forall j, In j (jobs db) -> job_id j <> id) -> get_job db id = None.
Proof.
  unfold get_job. induction (jobs db) as [|j l IH]; intro H; simpl.
  - reflexivity.
  - destruct (job_id j =? id)%Z eqn:E.
    + apply Z.eqb_eq in E. exfalso. apply (H j); [now left | assumption].
    + apply IH. intros j' Hj'. apply H. now right.
Qed.

(** C8.  Ranking returns the empty list when no job has the requested
    identifier, and also when the job exists and there is no candidate. *)
Theorem rank_without_job_or_candidates :
  forall (norm : list Q -> Q) (db : Session) (id : Z) (min_score : Q)
         (limit : Z),
    ((forall j, In j (jobs db) -> job_id j <> id) ->
     RankHandler.rank_candidates_for_job norm db id min_score limit = [])
    /\ (forall job, get_job db id = Some job ->
        candidate_profiles db = [] ->
        RankHandler.rank_candidates_for_job norm db id min_score limit = []).
Proof.
  intros norm db id min_score limit. split.
  - intro H. unfold RankHandler.rank_candidates_for_job.
    now rewrite (get_job_absent db id H).
  - intros job Hjob Hc. unfold RankHandler.rank_candidates_for_job.
    now rewrite Hjob, Hc.
Qed.

(** ** Zero years of experience *)

Lemma truthy_num_zero (q : Q) : q == 0 -> Py.truthy_num q = false.
Proof.
  intro H. unfold Py.truthy_num. apply negb_false_iff.
  now apply Qeq_bool_iff.
Qed.

Lemma search_results_zero_required (norm : list Q -> Q)
    (sv : option (list (list Q))) (loc : option string) (q min_score : Q)
    (cs : list CandidateProfile) :
  q == 0 ->
  SearchHandler.results norm sv loc (Some q) min_score cs
  = SearchHandler.results norm sv loc None min_score cs.
Proof.
  intro H. induction cs as [|c cs IH]; [reflexivity|]. simpl.
  unfold SearchHandler.tally_of, SearchHandler.add_experience. simpl.
  rewrite (truthy_num_zero q H). simpl. now rewrite IH.
Qed.

(** C10.  A required experience of zero given to the search leaves the tally
    of every candidate as it is, so the search answers as if no experience
    had been required; in the ranking, a job requiring zero years or a
    candidate with zero years leaves the experience sub-score at 0.0 and adds
    nothing to the total. *)
Theorem zero_experience_is_skipped :
  forall (norm : list Q -> Q),
    (forall (q : Q) (c : CandidateProfile) (t : SearchHandler.tally),
        q == 0 -> SearchHandler.add_experience (Some q) c t = t)
    /\ (forall (db : Session) (sv : option (list (list Q)))
               (loc : option string) (q min_score : Q) (limit : Z),
          q == 0 ->
          SearchHandler.search_candidates norm db sv loc (Some q) min_score limit
          = SearchHandler.search_candidates norm db sv loc None min_score limit)
    /\ (forall (job : Job) (c : CandidateProfile) (t : RankHandler.tally),
          (exists q, required_experience job = Some q /\ q == 0)
          \/ (exists y, total_experience c = ExpYears y /\ y == 0) ->
          RankHandler.add_experience job c t = t)
    /\ (forall (job : Job) (c : CandidateProfile),
          (exists q, required_experience job = Some q /\ q == 0)
          \/ (exists y, total_experience c = ExpYears y /\ y == 0) ->
          RankHandler.experience_score (fst (RankHandler.tally_of norm job c))
          = 0.0
          /\ snd (RankHandler.tally_of norm job c)
             = snd (RankHandler.add_location job c
                      (RankHandler.add_skills norm job c RankHandler.tally0))).
Proof.
  intro norm.
  assert (R : forall job c t,
             (exists q, required_experience job = Some q /\ q == 0)
             \/ (exists y, total_experience c = ExpYears y /\ y == 0) ->
             RankHandler.add_experience job c t = t).
  { intros job c t [(q & Hq & Z0)|(y & Hy & Z0)];
      unfold RankHandler.add_experience.
    - rewrite Hq. simpl. now rewrite (truthy_num_zero q Z0).
    - rewrite Hy. simpl. rewrite (truthy_num_zero y Z0).
      now rewrite andb_false_r. }
  split; [|split; [|split]].
  - intros q c t H. unfold SearchHandler.add_experience. simpl.
    now rewrite (truthy_num_zero q H).
  - intros db sv loc q min_score limit H.
    unfold SearchHandler.search_candidates.
    now rewrite (search_results_zero_required norm sv loc q min_score _ H).
  - exact R.
  - intros job c H. unfold RankHandler.tally_of. rewrite (R job c _ H).
    split; [|reflexivity].
    unfold RankHandler.add_location, RankHandler.add_skills.
    destruct (Py.truthy_str (job_location job)
              && Py.truthy_str (get_location c));
      destruct (Py.truthy_list (jd_vector job)
                && Py.truthy_list (resume_vector c)); reflexivity.
Qed.

(** ** The location match *)

Lemma prefix_append (a b : string) :
  String.prefix a b = true <-> exists post, b = String.append a post.
Proof.
  revert b. induction a as [|x a IH]; intro b.
  - split; [intros _; now exists b | intros _; destruct b; reflexivity].
  - destruct b as [|y b]; simpl.
    + split; [discriminate | intros (post & H); discriminate H].
    + destruct (Ascii.ascii_dec x y) as [->|N].
      * rewrite IH. split; intros (post & H); exists post.
        -- now rewrite H.
        -- now injection H.
      * split; [discriminate | intros (post & H); injection H; congruence].
Qed.

Lemma contains_substring (a b : string) :
  Py.contains a b = true <-> Substring a b.
Proof.
  induction b as [|y b IH].
  - destruct a as [|x a]; simpl.
    + split; [intros _; now exists EmptyString, EmptyString | reflexivity].
    + split; [discriminate | intros ([|z pre] & post & H); discriminate H].
  - change (Py.contains a (String y b))
      with (String.prefix a (String y b) || Py.contains a b).
    rewrite orb_true_iff, prefix_append, IH. split.
    + intros [(post & H)|(pre & post & H)].
      * now exists EmptyString, post.
      * exists (String y pre), post. simpl. now rewrite H.
    + intros ([|z pre] & post & H).
      * left. now exists post.
      * right. simpl in H. injection H as _ H. now exists pre, post.
Qed.

Lemma filter_seq_succ (f : nat -> bool) (n : nat) :
  List.length (filter f (seq 1 n))
  = List.length (filter (fun i => f (S i)) (seq 0 n)).
Proof.
  rewrite <- seq_shift. generalize (seq 0 n) as l.
  induction l as [|i l IH]; [reflexivity|]. simpl.
  destruct (f (S i)); simpl; now rewrite IH.
Qed.

Lemma zip_matches_positional (a b : string) :
  Py.zip_matches a b = positional_matches a b.
Proof.
  unfold positional_matches. revert b.
  induction a as [|x a IH]; intro b; [reflexivity|].
  destruct b as [|y b]; [reflexivity|].
  cbn [Py.zip_matches String.length Nat.min seq filter String.get].
  rewrite IH.
  destruct (Ascii.eqb x y); cbn [List.length]; rewrite filter_seq_succ;
    reflexivity.
Qed.

Lemma zip_matches_comm (a b : string) :
  Py.zip_matches a b = Py.zip_matches b a.
Proof.
  revert b. induction a as [|x a IH]; intros [|y b]; try reflexivity.
  simpl. now rewrite IH, Ascii.eqb_sym.
Qed.

Lemma zip_matches_le (a b : string) :
  (Py.zip_matches a b <= String.length b)%nat.
Proof.
  revert b. induction a as [|x a IH]; intros [|y b]; simpl; try lia.
  specialize (IH b). destruct (Ascii.eqb x y); lia.
Qed.

Lemma part_similarity_cases (q c : string) :
  (q = c -> SearchHandler.part_similarity q c = 1.0)
  /\ (q <> c -> Substring q c \/ Substring c q ->
      SearchHandler.part_similarity q c = 0.9)
  /\ (q <> c -> ~ Substring q c -> ~ Substring c q ->
      SearchHandler.part_similarity q c
      = inject_Z (Z.of_nat (positional_matches q c))
        / inject_Z (Z.of_nat (Nat.max (String.length q) (String.length c)))).
Proof.
  unfold SearchHandler.part_similarity. split; [|split].
  - intros ->. now rewrite String.eqb_refl.
  - intros N S. apply String.eqb_neq in N. rewrite N.
    assert (E : Py.contains q c || Py.contains c q = true).
    { apply orb_true_iff. now rewrite !contains_substring. }
    now rewrite E.
  - intros N S1 S2. pose proof N as N'. apply String.eqb_neq in N'. rewrite N'.
    assert (E : Py.contains q c || Py.contains c q = false).
    { apply orb_false_iff. split; apply not_true_is_false;
        now rewrite contains_substring. }
    rewrite E.
    destruct (String.length q <=? String.length c)%nat eqn:L.
    + apply Nat.leb_le in L.
      destruct (String.length c =? 0)%nat eqn:Z0.
      * apply Nat.eqb_eq in Z0. exfalso. apply N.
        destruct q, c; simpl in *; try reflexivity; lia.
      * rewrite zip_matches_positional. now rewrite (Nat.max_r _ _ L).
    + apply Nat.leb_gt in L.
      destruct (String.length q =? 0)%nat eqn:Z0.
      * apply Nat.eqb_eq in Z0. lia.
      * rewrite zip_matches_comm, zip_matches_positional.
        rewrite Nat.max_l by lia. reflexivity.
Qed.

Lemma ratio_range (m n : nat) :
  (m <= n)%nat -> (0 < n)%nat ->
  0 <= inject_Z (Z.of_nat m) / inject_Z (Z.of_nat n) <= 1.
Proof.
  intros Hm Hn.
  assert (P : 0 < inject_Z (Z.of_nat n)).
  { change 0 with (inject_Z 0). rewrite <- Zlt_Qlt. lia. }
  split.
  - apply Qle_shift_div_l; [exact P|]. rewrite Qmult_0_l.
    change 0 with (inject_Z 0). rewrite <- Zle_Qle. lia.
  - apply Qle_shift_div_r; [exact P|]. rewrite Qmult_1_l.
    rewrite <- Zle_Qle. lia.
Qed.

Lemma part_similarity_range (q c : string) :
  0 <= SearchHandler.part_similarity q c <= 1.
Proof.
  unfold SearchHandler.part_similarity.
  destruct (String.eqb q c); [split; unfold Qle; simpl; lia|].
  destruct (Py.contains q c || Py.contains c q);
    [split; unfold Qle; simpl; lia|].
  destruct (String.length q <=? String.length c)%nat.
  - destruct (String.length c =? 0)%nat eqn:Z0;
      [split; unfold Qle; simpl; lia|].
    apply Nat.eqb_neq in Z0.
    apply ratio_range; [apply zip_matches_le | lia].
  - destruct (String.length q =? 0)%nat eqn:Z0;
      [split; unfold Qle; simpl; lia|].
    apply Nat.eqb_neq in Z0.
    apply ratio_range; [apply zip_matches_le | lia].
Qed.

Lemma max_or_zero_range (l : list Q) :
  (forall x, In x l -> 0 <= x <= 1) ->
  0 <= SearchHandler.max_or_zero l <= 1.
Proof.
  intro H. unfold SearchHandler.max_or_zero.
  destruct (Py.max l) as [m|] eqn:E.
  - apply H. now apply py_max_spec.
  - split; unfold Qle; simpl; lia.
Qed.

Lemma total_of_range (l : list Q) :
  (forall x, In x l -> 0 <= x <= 1) ->
  0 <= total_of l <= inject_Z (Z.of_nat (List.length l)).
Proof.
  induction l as [|x l IH]; intro H.
  - split; apply Qle_refl.
  - destruct (H x (or_introl eq_refl)) as [A B].
    destruct IH as [C D]; [intros y Hy; apply H; now right|].
    cbn [total_of List.length]. rewrite Nat2Z.inj_succ.
    unfold Z.succ. rewrite inject_Z_plus.
    change (inject_Z 1) with 1. split; lra.
Qed.

Lemma split_not_nil (sep : ascii) (s : string) : Py.split sep s <> [].
Proof.
  induction s as [|c s IH]; simpl; [discriminate|].
  destruct (Ascii.eqb c sep); [discriminate|].
  destruct (Py.split sep s); discriminate.
Qed.

Lemma parts_not_nil (s : string) : SearchHandler.parts s <> [].
Proof.
  unfold SearchHandler.parts. intro H. apply map_eq_nil in H.
  now apply split_not_nil in H.
Qed.

(** The location score of two non-empty strings, by its parts. *)
Lemma location_match_unfold (a : ascii) (q : string) (b : ascii) (c : string) :
  SearchHandler.calculate_location_match (Some (String a q)) (Some (String b c))
  == total_of
       (map (fun query_part =>
               SearchHandler.max_or_zero
                 (map (SearchHandler.part_similarity query_part)
                      (SearchHandler.parts (String b c))))
            (SearchHandler.parts (String a q)))
     / inject_Z (Z.of_nat (List.length (SearchHandler.parts (String a q)))).
Proof.
  unfold SearchHandler.calculate_location_match, Py.len.
  apply Qmult_comp; [apply sum_total_of | reflexivity].
Qed.

Lemma location_match_range (q c : option string) :
  0 <= SearchHandler.calculate_location_match q c <= 1.
Proof.
  destruct q as [[|a q]|]; try (split; unfold Qle; simpl; lia).
  destruct c as [[|b c]|]; try (split; unfold Qle; simpl; lia).
  rewrite location_match_unfold.
  set (ms := map _ (SearchHandler.parts (String a q))).
  assert (L : List.length (SearchHandler.parts (String a q)) = List.length ms)
    by (unfold ms; now rewrite length_map).
  rewrite L.
  assert (N : (0 < List.length ms)%nat).
  { rewrite <- L. pose proof (parts_not_nil (String a q)).
    destruct (SearchHandler.parts (String a q)); [congruence | simpl; lia]. }
  assert (R : forall x, In x ms -> 0 <= x <= 1).
  { intros x Hx. unfold ms in Hx. apply in_map_iff in Hx.
    destruct Hx as (p & <- & _). apply max_or_zero_range.
    intros y Hy. apply in_map_iff in Hy. destruct Hy as (cp & <- & _).
    apply part_similarity_range. }
  pose proof (total_of_range ms R) as [A B].
  assert (P : 0 < inject_Z (Z.of_nat (List.length ms))).
  { change 0 with (inject_Z 0). rewrite <- Zlt_Qlt. lia. }
  split.
  - apply Qle_shift_div_l; [exact P|]. now rewrite Qmult_0_l.
  - apply Qle_shift_div_r; [exact P|]. now rewrite Qmult_1_l.
Qed.

Lemma split_join (sep : ascii) (s : string) : join sep (Py.split sep s) = s.
Proof.
  induction s as [|c s IH]; [reflexivity|]. simpl.
  destruct (Ascii.eqb c sep) eqn:E.
  - apply Ascii.eqb_eq in E. subst c.
    pose proof (split_not_nil sep s) as N.
    destruct (Py.split sep s) as [|h t]; [congruence|].
    cbn [join String.append]. cbn [join] in IH. now rewrite IH.
  - pose proof (split_not_nil sep s) as N.
    destruct (Py.split sep s) as [|h t]; [congruence|].
    destruct t as [|h' t]; cbn [join String.append] in *; now rewrite IH.
Qed.

Lemma split_parts_without_sep (sep : ascii) (s : string) :
  Forall (fun p => forall i, String.get i p <> Some sep) (Py.split sep s).
Proof.
  induction s as [|c s IH]; simpl.
  - constructor; [intros i; destruct i; discriminate | constructor].
  - destruct (Ascii.eqb c sep) eqn:E.
    + constructor; [intros i; destruct i; discriminate | exact IH].
    + apply Ascii.eqb_neq in E.
      destruct (Py.split sep s) as [|h t];
        [constructor; [|constructor]|].
      * intros [|[|i]]; simpl; congruence.
      * inversion IH as [|? ? Hh Ht]; subst. constructor; [|exact Ht].
        intros [|i]; simpl; [congruence | apply Hh].
Qed.

(** ** The ranking total *)

Section Ranking.
Variable norm : list Q -> Q.

Lemma rank_entry_some (min_score : Q) (c : CandidateProfile)
    (t : RankHandler.tally) (r : RankHandler.result) :
  RankHandler.entry_of min_score c t = Some r
  <-> min_score <= snd t
      /\ r = {| RankHandler.candidate := c;
                RankHandler.scores := fst t;
                RankHandler.total_score := snd t |}.
Proof.
  unfold RankHandler.entry_of.
  destruct (Qle_bool min_score (snd t)) eqn:E; q_tests.
  - split; [intro H; injection H as <-; now split | intros [_ ->]; reflexivity].
  - split; [discriminate | intros [L _]; exfalso; lra].
Qed.

Lemma ranked_results_in (job : Job) (min_score : Q)
    (cs : list CandidateProfile) (r : RankHandler.result) :
  In r (RankHandler.ranked_results norm job min_score cs)
  <-> exists c, In c cs
                /\ RankHandler.entry_of min_score c
                     (RankHandler.tally_of norm job c) = Some r.
Proof.
  induction cs as [|c cs IH]; simpl.
  - split; [contradiction | intros (c & [] & _)].
  - destruct (RankHandler.entry_of min_score c
                (RankHandler.tally_of norm job c)) as [r0|] eqn:E; simpl;
      rewrite IH; split.
    + intros [<-|(c' & Hc' & He)]; [now exists c; split; [left|]|].
      exists c'. split; [now right | exact He].
    + intros (c' & [<-|Hc'] & He); [left; congruence|].
      right. now exists c'.
    + intros (c' & Hc' & He). exists c'. split; [now right | exact He].
    + intros (c' & [<-|Hc'] & He); [congruence|]. now exists c'.
Qed.

End Ranking.

(** ** Sorting by decreasing key, and slicing *)

Section SortedReverse.
Context {A : Type} (key : A -> Q).

Lemma insert_desc_perm (x : A) (l : list A) :
  Permutation (Py.insert_desc key x l) (x :: l).
Proof.
  induction l as [|y l IH]; simpl; [reflexivity|].
  destruct (Qle_bool (key y) (key x)); [reflexivity|].
  rewrite IH. apply perm_swap.
Qed.

Lemma sorted_reverse_perm (l : list A) :
  Permutation (Py.sorted_reverse key l) l.
Proof.
  induction l as [|x l IH]; simpl; [reflexivity|].
  rewrite insert_desc_perm. now constructor.
Qed.

Lemma insert_desc_sorted (x : A) (l : list A) :
  StronglySorted (desc key) l -> StronglySorted (desc key) (Py.insert_desc key x l).
Proof.
  induction 1 as [|y l S IH F]; simpl.
  - repeat constructor.
  - destruct (Qle_bool (key y) (key x)) eqn:E; q_tests.
    + constructor; [now constructor|].
      constructor; [exact E|].
      eapply Forall_impl; [|exact F]. intros b Hb. unfold desc in *.
      eapply Qle_trans; eassumption.
    + constructor; [exact IH|].
      assert (P : Forall (desc key y) (x :: l)).
      { constructor; [unfold desc; now apply Qlt_le_weak | exact F]. }
      rewrite Forall_forall in *. intros b Hb. apply P.
      eapply Permutation_in; [apply insert_desc_perm | exact Hb].
Qed.

Lemma sorted_reverse_sorted (l : list A) :
  StronglySorted (desc key) (Py.sorted_reverse key l).
Proof.
  induction l as [|x l IH]; simpl; [constructor|].
  now apply insert_desc_sorted.
Qed.

(** Stability: the entries of one key keep the order of the input.  When
    [x] goes in, everything it passes has a strictly greater key. *)
Lemma insert_desc_stable (k : Q) (x : A) (l : list A) :
  filter (fun a => Qeq_bool (key a) k) (Py.insert_desc key x l)
  = filter (fun a => Qeq_bool (key a) k) (x :: l).
Proof.
  induction l as [|y l IH]; [reflexivity|].
  cbn [Py.insert_desc].
  destruct (Qle_bool (key y) (key x)) eqn:E; [reflexivity|].
  cbn [filter] in *. rewrite IH.
  destruct (Qeq_bool (key x) k) eqn:Ex; [|reflexivity].
  destruct (Qeq_bool (key y) k) eqn:Ey; [|reflexivity].
  q_tests. exfalso. rewrite Ex, Ey in E. now apply Qlt_irrefl in E.
Qed.

Lemma sorted_reverse_stable (k : Q) (l : list A) :
  filter (fun a => Qeq_bool (key a) k) (Py.sorted_reverse key l)
  = filter (fun a => Qeq_bool (key a) k) l.
Proof.
  induction l as [|x l IH]; [reflexivity|].
  cbn [Py.sorted_reverse fold_right].
  rewrite insert_desc_stable. cbn [filter].
  fold (Py.sorted_reverse key l). now rewrite IH.
Qed.

Lemma slice_to_prefix (l : list A) (n : Z) :
  exists rest, l = Py.slice_to l n ++ rest.
Proof.
  unfold Py.slice_to.
  destruct (0 <=? n)%Z; eexists; symmetry; apply firstn_skipn.
Qed.

Lemma slice_to_length (l : list A) (n : Z) :
  (0 <= n)%Z -> (Z.of_nat (List.length (Py.slice_to l n)) <= n)%Z.
Proof.
  intro H. unfold Py.slice_to.
  destruct (0 <=? n)%Z eqn:E; [|apply Z.leb_gt in E; lia].
  rewrite length_firstn. lia.
Qed.

Lemma slice_to_all (l : list A) (n : Z) :
  (Z.of_nat (List.length l) <= n)%Z -> Py.slice_to l n = l.
Proof.
  intro H. unfold Py.slice_to.
  destruct (0 <=? n)%Z eqn:E; [|apply Z.leb_gt in E; lia].
  apply firstn_all2. lia.
Qed.

(** What [sorted(l, key, reverse=True)[:n]] guarantees: the result is a
    prefix of a stable rearrangement of [l] by decreasing key. *)
Lemma top_spec (l : list A) (n : Z) :
  let top := Py.slice_to (Py.sorted_reverse key l) n in
  StronglySorted (desc key) top
  /\ exists rest,
       Permutation (top ++ rest) l
       /\ (forall a b, In a top -> In b rest -> key b <= key a)
       /\ (forall k,
             filter (fun a => Qeq_bool (key a) k) top
             ++ filter (fun a => Qeq_bool (key a) k) rest
             = filter (fun a => Qeq_bool (key a) k) l).
Proof.
  intro top.
  destruct (slice_to_prefix (Py.sorted_reverse key l) n) as (rest & E).
  fold top in E.
  pose proof (sorted_reverse_sorted l) as S. rewrite E in S.
  split.
  - clear E. induction top as [|a top IH]; [constructor|].
    simpl in S. inversion S as [|? ? S' F]; subst.
    constructor; [now apply IH|].
    apply Forall_app in F. tauto.
  - exists rest. split; [|split].
    + rewrite <- E. apply sorted_reverse_perm.
    + clear E. induction top as [|a top IH]; [contradiction|].
      simpl in S. inversion S as [|? ? S' F]; subst.
      intros a' b [<-|Ha] Hb.
      * rewrite Forall_forall in F. apply F. apply in_or_app. now right.
      * now apply IH.
    + intro k. rewrite <- filter_app, <- E. apply sorted_reverse_stable.
Qed.

End SortedReverse.

Lemma rank_entry_dropped (min_score : Q) (c : CandidateProfile)
    (t : RankHandler.tally) :
  snd t < min_score -> RankHandler.entry_of min_score c t = None.
Proof.
  intro H. unfold RankHandler.entry_of.
  apply Qle_bool_gt in H. now rewrite H.
Qed.

Lemma rank_results_from (norm : list Q -> Q) (db : Session) (id : Z)
    (min_score : Q) (limit : Z) (r : RankHandler.result) :
  In r (RankHandler.rank_candidates_for_job norm db id min_score limit) ->
  exists job,
    get_job db id = Some job
    /\ In r (RankHandler.ranked_results norm job min_score
               (candidate_profiles db)).
Proof.
  unfold RankHandler.rank_candidates_for_job.
  destruct (get_job db id) as [job|]; [|contradiction].
  destruct (candidate_profiles db) as [|c cs] eqn:E; [contradiction|].
  intro H. exists job. split; [reflexivity|].
  destruct (slice_to_prefix
              (Py.sorted_reverse RankHandler.total_score
                 (RankHandler.ranked_results norm job min_score (c :: cs)))
              limit) as (rest & P).
  eapply Permutation_in; [apply sorted_reverse_perm|].
  rewrite P. apply in_or_app. left. exact H.
Qed.

(** ** The search score *)

Section Searching.
Variable norm : list Q -> Q.
Variables (sv : option (list (list Q))) (loc : option string)
          (required : option Q).

(** Destructs the three guards of the search loop body. *)
Ltac guards c :=
  destruct (Py.truthy_list sv && Py.truthy_list (resume_vector c));
  destruct (Py.truthy_str loc && Py.truthy_str (get_location c));
  destruct (Py.truthy_opt_num required
            && not_empty_str (total_experience c)).

Lemma search_tally_total (c : CandidateProfile) :
  let t := SearchHandler.tally_of norm sv loc required c in
  SearchHandler.t_score t == SearchSpec.applied_score norm sv loc required c
  /\ SearchHandler.t_weight t == SearchSpec.applied_weight sv loc required c.
Proof.
  unfold SearchHandler.tally_of, SearchHandler.add_experience,
    SearchHandler.add_location, SearchHandler.add_skills,
    SearchSpec.applied_score, SearchSpec.applied_weight,
    SearchSpec.criteria.
  cbn [filter SearchSpec.applied].
  guards c;
    cbn [map total_of SearchHandler.t_score SearchHandler.t_weight
         SearchHandler.tally0 SearchSpec.sub_score]; split; ring.
Qed.

Lemma search_tally_scores (c : CandidateProfile) (k : criterion) :
  match k with
  | Skills => SearchHandler.t_skills
  | Location => SearchHandler.t_location
  | Experience => SearchHandler.t_experience
  | Title => fun _ => None
  end (SearchHandler.tally_of norm sv loc required c)
  = if SearchSpec.applied sv loc required c k
    then Some (SearchSpec.sub_score norm sv loc required c k)
    else None.
Proof.
  unfold SearchHandler.tally_of, SearchHandler.add_experience,
    SearchHandler.add_location, SearchHandler.add_skills.
  destruct k; cbn [SearchSpec.applied SearchSpec.sub_score];
    guards c; reflexivity.
Qed.

Lemma search_entry_some (min_score : Q) (c : CandidateProfile)
    (t : SearchHandler.tally) (r : SearchHandler.result) :
  SearchHandler.entry_of min_score c t = Some r
  <-> 0 < SearchHandler.t_weight t
      /\ min_score <= SearchHandler.t_score t / SearchHandler.t_weight t
      /\ r = {| SearchHandler.candidate := c;
                SearchHandler.scores :=
                  {| SearchHandler.skills_score :=
                       Py.or_zero (SearchHandler.t_skills t);
                     SearchHandler.location_score :=
                       Py.or_zero (SearchHandler.t_location t);
                     SearchHandler.experience_score :=
                       Py.or_zero (SearchHandler.t_experience t);
                     SearchHandler.total_score :=
                       SearchHandler.t_score t / SearchHandler.t_weight t |}
             |}.
Proof.
  unfold SearchHandler.entry_of.
  destruct (Py.Qltb 0 (SearchHandler.t_weight t)) eqn:W;
    [destruct (Qle_bool min_score
                 (SearchHandler.t_score t / SearchHandler.t_weight t)) eqn:M|];
    q_tests.
  - split; [intro H; injection H as <-; now repeat split|].
    intros (_ & _ & ->). reflexivity.
  - split; [discriminate | intros (_ & L & _); exfalso].
    apply (Qlt_irrefl min_score). eapply Qle_lt_trans; eassumption.
  - split; [discriminate | intros (L & _); exfalso].
    apply (Qlt_irrefl 0). eapply Qlt_le_trans; eassumption.
Qed.

Lemma search_results_in (min_score : Q) (cs : list CandidateProfile)
    (r : SearchHandler.result) :
  In r (SearchHandler.results norm sv loc required min_score cs)
  <-> exists c, In c cs
                /\ SearchHandler.entry_of min_score c
                     (SearchHandler.tally_of norm sv loc required c) = Some r.
Proof.
  induction cs as [|c cs IH]; simpl.
  - split; [contradiction | intros (c & [] & _)].
  - destruct (SearchHandler.entry_of min_score c
                (SearchHandler.tally_of norm sv loc required c))
      as [r0|] eqn:E; simpl; rewrite IH; split.
    + intros [<-|(c' & Hc' & He)]; [now exists c; split; [left|]|].
      exists c'. split; [now right | exact He].
    + intros (c' & [<-|Hc'] & He); [left; congruence|].
      right. now exists c'.
    + intros (c' & Hc' & He). exists c'. split; [now right | exact He].
    + intros (c' & [<-|Hc'] & He); [congruence|]. now exists c'.
Qed.

Lemma search_results_from (db : Session) (min_score : Q) (limit : Z)
    (r : SearchHandler.result) :
  In r (SearchHandler.search_candidates norm db sv loc required
          min_score limit) ->
  In r (SearchHandler.results norm sv loc required min_score
          (candidate_profiles db)).
Proof.
  unfold SearchHandler.search_candidates. intro H.
  destruct (slice_to_prefix
              (Py.sorted_reverse
                 (fun x => SearchHandler.total_score (SearchHandler.scores x))
                 (SearchHandler.results norm sv loc required min_score
                    (candidate_profiles db)))
              limit) as (rest & P).
  eapply Permutation_in; [apply sorted_reverse_perm|].
  rewrite P. apply in_or_app. left. exact H.
Qed.

End Searching.


(** A candidate to whom no criterion applies is left out whatever the
    minimum score. *)
Lemma search_zero_weight_excluded (norm : list Q -> Q)
    (sv : option (list (list Q))) (loc : option string) (required : option Q)
    (min_score : Q) (c : CandidateProfile) :
  SearchSpec.applied_weight sv loc required c <= 0 ->
  SearchHandler.entry_of min_score c
    (SearchHandler.tally_of norm sv loc required c) = None.
Proof.
  intro H. unfold SearchHandler.entry_of.
  destruct (search_tally_total norm sv loc required c) as [_ T].
  rewrite <- T in H. apply Qltb_ge in H. now rewrite H.
Qed.

(** A criterion whose data the candidate lacks is not applied, a null
    experience apart. *)
Lemma search_missing_data_skipped (sv : option (list (list Q)))
    (loc : option string) (required : option Q) (c : CandidateProfile)
    (k : criterion) :
  SearchSpec.has_data c k = false ->
  total_experience c <> ExpNone ->
  SearchSpec.applied sv loc required c k = false.
Proof.
  destruct k; cbn [SearchSpec.has_data SearchSpec.applied]; intros H N.
  - rewrite H. apply andb_false_r.
  - rewrite H. apply andb_false_r.
  - destruct (total_experience c); try congruence; apply andb_false_r.
  - reflexivity.
Qed.

(** C1, at a candidate whose experience is null.  The search is given skill
    vectors and a required experience of 5 years; the candidate has a skills
    vector of cosine 1 and no experience (null).  The experience criterion is
    nevertheless applied with sub-score 0: the tally holds score 0.6 over
    weight 0.8, the final score is 0.75 and not 1, and with a minimum of 0.9
    the candidate is not returned. *)
Theorem search_null_experience_keeps_weight :
  let c := Example.null_experience in
  let t := SearchHandler.tally_of Np.l2norm Example.query None (Some 5.0) c in
  SearchSpec.has_data c Experience = false
  /\ SearchSpec.applied Example.query None (Some 5.0) c Experience = true
  /\ SearchHandler.t_skills t = Some 1
  /\ SearchHandler.t_experience t = Some 0
  /\ SearchHandler.t_score t == 0.6
  /\ SearchHandler.t_weight t == 0.8
  /\ map (fun r => Qred (SearchHandler.total_score (SearchHandler.scores r)))
       (SearchHandler.search_candidates Np.l2norm (Example.session [c])
          Example.query None (Some 5.0) 0.5 10)
     = [3 # 4]
  /\ SearchHandler.search_candidates Np.l2norm (Example.session [c])
       Example.query None (Some 5.0) 0.9 10
     = [].
Proof.
  cbv zeta. repeat split; vm_compute; reflexivity.
Qed.

(** ** Ranges of the sub-scores *)

Lemma clamp01_range (s : Q) : 0 <= RankHandler.clamp01 s <= 1.
Proof.
  unfold RankHandler.clamp01.
  destruct (Py.Qltb s 1.0) eqn:A.
  - destruct (Py.Qltb 0.0 s) eqn:B; q_tests; split; lra.
  - destruct (Py.Qltb 0.0 1.0) eqn:B; q_tests; split; lra.
Qed.

Lemma skills_match_range (norm : list Q -> Q) (c j : option (list Q)) :
  0 <= RankHandler.calculate_skills_match norm c j <= 1.
Proof.
  unfold RankHandler.calculate_skills_match.
  destruct c as [[|x c]|]; try (split; lra).
  destruct j as [[|y j]|]; try (split; lra).
  destruct (Np.dot (x :: c) (y :: j)); try (split; lra).
  destruct (Py.truthy_num (norm (x :: c)) && Py.truthy_num (norm (y :: j)));
    [apply clamp01_range | split; lra].
Qed.

Lemma experience_match_range (e : experience_value) (r : option Q) :
  0 <= SearchHandler.calculate_experience_match e r <= 1.
Proof.
  destruct e as [| |y], r as [q|]; try (split; simpl; lra).
  rewrite search_experience_gap.
  pose proof (gap_score_range (Qabs (y - q))). split; lra.
Qed.

Lemma or_zero_some (q : Q) : Py.or_zero (Some q) == q.
Proof.
  unfold Py.or_zero. destruct (Py.truthy_num q) eqn:E; [reflexivity|].
  unfold Py.truthy_num in E. apply negb_false_iff in E.
  apply Qeq_bool_iff in E. now rewrite E.
Qed.

Lemma or_zero_range (x : option Q) :
  (forall q, x = Some q -> 0 <= q <= 1) -> 0 <= Py.or_zero x <= 1.
Proof.
  intro H. destruct x as [q|]; [|split; simpl; lra].
  rewrite or_zero_some. now apply H.
Qed.

Section Ranges.
Variable norm : list Q -> Q.

Lemma rank_tally_range (job : Job) (c : CandidateProfile) :
  let t := RankHandler.tally_of norm job c in
  0 <= RankHandler.skills_score (fst t) <= 1
  /\ 0 <= RankHandler.experience_score (fst t) <= 1
  /\ 0 <= RankHandler.location_score (fst t) <= 1
  /\ 0 <= snd t <= 0.8.
Proof.
  pose proof (skills_match_range norm (resume_vector c) (jd_vector job)) as S.
  pose proof (experience_match_range (total_experience c)
                (required_experience job)) as E.
  rewrite <- rank_experience_same in E.
  pose proof (location_match_range (job_location job) (get_location c)) as L.
  unfold RankHandler.tally_of, RankHandler.add_location,
    RankHandler.add_experience, RankHandler.add_skills.
  destruct (Py.truthy_list (jd_vector job)
            && Py.truthy_list (resume_vector c));
    destruct (Py.truthy_opt_num (required_experience job)
              && truthy_experience (total_experience c));
    destruct (Py.truthy_str (job_location job)
              && Py.truthy_str (get_location c));
    cbn [fst snd RankHandler.tally0 RankHandler.skills_score
         RankHandler.experience_score RankHandler.location_score
         RankHandler.weights];
    repeat split; lra.
Qed.

Lemma search_tally_range (sv : option (list (list Q))) (loc : option string)
    (required : option Q) (c : CandidateProfile) :
  let t := SearchHandler.tally_of norm sv loc required c in
  0 <= Py.or_zero (SearchHandler.t_location t) <= 1
  /\ 0 <= Py.or_zero (SearchHandler.t_experience t) <= 1
  /\ (0 <= Py.or_zero (SearchHandler.t_skills t) <= 1 ->
      0 <= SearchHandler.t_score t <= SearchHandler.t_weight t).
Proof.
  pose proof (experience_match_range (total_experience c) required) as E.
  pose proof (location_match_range loc (get_location c)) as L.
  cbv zeta. split; [|split].
  - apply or_zero_range. intros q Hq.
    rewrite (search_tally_scores norm sv loc required c Location) in Hq.
    destruct (SearchSpec.applied sv loc required c Location);
      [injection Hq as <-; exact L | discriminate].
  - apply or_zero_range. intros q Hq.
    rewrite (search_tally_scores norm sv loc required c Experience) in Hq.
    destruct (SearchSpec.applied sv loc required c Experience);
      [injection Hq as <-; exact E | discriminate].
  - unfold SearchHandler.tally_of, SearchHandler.add_experience,
      SearchHandler.add_location, SearchHandler.add_skills.
    destruct (Py.truthy_list sv && Py.truthy_list (resume_vector c));
      destruct (Py.truthy_str loc && Py.truthy_str (get_location c));
      destruct (Py.truthy_opt_num required
                && not_empty_str (total_experience c));
      cbn [SearchHandler.t_skills SearchHandler.t_score SearchHandler.t_weight
           SearchHandler.tally0 SearchHandler.weights];
      rewrite ?or_zero_some; intro S; split; lra.
Qed.

End Ranges.

(** C6, evaluated.  Query of one skill, location "Austin, TX", 5 years
    required, minimum 0.5.  When the first candidate's missing experience is
    the empty string the totals are 0.9 and 0.7 and the order is first,
    second.  When it is null the experience criterion is applied to the first
    candidate with sub-score 0: its total is 0.675, below the 0.7 of the
    second, and the order is second, first. *)
Theorem search_scenario_totals :
  Example.listing
    (SearchHandler.search_candidates Np.l2norm
       (Example.session [Example.first_empty; Example.second])
       Example.query Example.austin (Some 5.0) 0.5 10)
  = [(1%Z, 0.9); (2%Z, 0.7)]
  /\ Example.listing
       (SearchHandler.search_candidates Np.l2norm
          (Example.session [Example.first_null; Example.second])
          Example.query Example.austin (Some 5.0) 0.5 10)
     = [(2%Z, 0.7); (1%Z, 27 # 40)]
  /\ SearchHandler.calculate_skills_similarity Np.l2norm Example.query
       (resume_vector Example.first_null) == 0.9
  /\ SearchHandler.calculate_skills_similarity Np.l2norm Example.query
       (resume_vector Example.second) == 0.5
  /\ SearchSpec.has_data Example.first_null Location = false
  /\ SearchSpec.has_data Example.first_null Experience = false
  /\ SearchHandler.calculate_location_match Example.austin
       (get_location Example.second) == 1.0
  /\ SearchHandler.calculate_experience_match
       (total_experience Example.second) (Some 5.0) == 1.0.
Proof.
  repeat split; vm_compute; reflexivity.
Qed.

(** ** Order, threshold and limit of the results *)

Lemma top_ranked_prefix {A : Type} (key : A -> Q) (limit : Z) (all : list A) :
  (0 <= limit)%Z ->
  ranked_prefix key limit all (Py.slice_to (Py.sorted_reverse key all) limit).
Proof.
  intro H. destruct (top_spec key all limit) as (S & rest & R).
  split; [exact S|]. split; [now apply slice_to_length|].
  now exists rest.
Qed.

(** The entries the search loop appends, in the order of the candidates. *)
Lemma search_results_candidates (norm : list Q -> Q)
    (sv : option (list (list Q))) (loc : option string) (required : option Q)
    (min_score : Q) (cs : list CandidateProfile) :
  map SearchHandler.candidate
    (SearchHandler.results norm sv loc required min_score cs)
  = filter (fun c =>
              let t := SearchHandler.tally_of norm sv loc required c in
              Py.Qltb 0 (SearchHandler.t_weight t)
              && Qle_bool min_score
                   (SearchHandler.t_score t / SearchHandler.t_weight t))
           cs.
Proof.
  induction cs as [|c cs IH]; [reflexivity|].
  cbn [SearchHandler.results filter]. unfold SearchHandler.entry_of.
  cbv zeta.
  destruct (Py.Qltb 0 _); [|exact IH].
  destruct (Qle_bool min_score _); [|exact IH].
  cbn [andb map SearchHandler.candidate]. now rewrite IH.
Qed.

(** The entries the ranking loop appends, in the order of the candidates. *)
Lemma ranked_results_candidates (norm : list Q -> Q) (job : Job)
    (min_score : Q) (cs : list CandidateProfile) :
  map RankHandler.candidate (RankHandler.ranked_results norm job min_score cs)
  = filter (fun c => Qle_bool min_score (snd (RankHandler.tally_of norm job c)))
           cs.
Proof.
  induction cs as [|c cs IH]; [reflexivity|].
  cbn [RankHandler.ranked_results filter]. unfold RankHandler.entry_of.
  destruct (Qle_bool min_score _); [|exact IH].
  cbn [map RankHandler.candidate]. now rewrite IH.
Qed.

Lemma rank_candidates_top (norm : list Q -> Q) (db : Session) (id : Z)
    (min_score : Q) (limit : Z) :
  RankHandler.rank_candidates_for_job norm db id min_score limit
  = Py.slice_to
      (Py.sorted_reverse RankHandler.total_score
         (ranked_for norm db id min_score))
      limit.
Proof.
  unfold RankHandler.rank_candidates_for_job, ranked_for.
  destruct (get_job db id) as [job|].
  - destruct (candidate_profiles db); [|reflexivity].
    unfold Py.slice_to. simpl.
    destruct (0 <=? limit)%Z; rewrite ?firstn_nil; reflexivity.
  - unfold Py.slice_to. simpl.
    destruct (0 <=? limit)%Z; rewrite ?firstn_nil; reflexivity.
Qed.

(** ** The theorems at concrete inputs *)

(** Decides a closed comparison of scores by evaluation. *)
Ltac by_evaluation :=
  vm_compute; first [reflexivity | discriminate | intro; discriminate].

(** C9 at a result set of one entry: its total is bounded by the maximum of
    the summary. *)
Lemma search_summary_statistics_at_one :
  let r := {| SearchHandler.candidate := Example.second;
              SearchHandler.scores :=
                {| SearchHandler.skills_score := 0.5;
                   SearchHandler.location_score := 1;
                   SearchHandler.experience_score := 1;
                   SearchHandler.total_score := 0.7 |} |} in
  0.7 <= SearchHandler.max_score (SearchHandler.get_search_summary [r]).
Proof.
  cbv zeta.
  destruct (proj2 search_summary_statistics
              {| SearchHandler.candidate := Example.second;
                 SearchHandler.scores :=
                   {| SearchHandler.skills_score := 0.5;
                      SearchHandler.location_score := 1;
                      SearchHandler.experience_score := 1;
                      SearchHandler.total_score := 0.7 |} |} [])
    as (_ & _ & (_ & H) & _).
  apply H. left. reflexivity.
Defined.

(** C8 at a session without jobs. *)
Lemma rank_without_job_or_candidates_at_empty :
  RankHandler.rank_candidates_for_job Np.l2norm (Example.session []) 7 0.5 10
  = [].
Proof.
  apply (proj1 (rank_without_job_or_candidates Np.l2norm
                  (Example.session []) 7 0.5 10)).
  intros j H. destruct H.
Defined.

(** C10 at a required experience of 0: the search answers as without it. *)
Lemma zero_experience_is_skipped_at_office :
  SearchHandler.search_candidates Np.l2norm Example.office Example.query None
    (Some 0) 0.5 10
  = SearchHandler.search_candidates Np.l2norm Example.office Example.query None
      None 0.5 10.
Proof.
  apply (proj1 (proj2 (zero_experience_is_skipped Np.l2norm))).
  reflexivity.
Defined.

(** * Further properties of the toolkit *)

(** ** Experience and location *)

(** X1.  The experience score does not tell a candidate with too many years
    from one with too few: exchanging the candidate's years and the required
    years leaves the score of both handlers unchanged. *)
Theorem experience_match_symmetric :
  forall x y : Q,
    SearchHandler.calculate_experience_match (ExpYears x) (Some y)
    = SearchHandler.calculate_experience_match (ExpYears y) (Some x)
    /\ RankHandler.calculate_experience_match (ExpYears x) (Some y)
       = RankHandler.calculate_experience_match (ExpYears y) (Some x).
Proof.
  intros x y.
  split;
    unfold RankHandler.calculate_experience_match,
      SearchHandler.calculate_experience_match;
    now rewrite (Qabs_Qminus x y).
Qed.

Lemma part_similarity_sym (q c : string) :
  SearchHandler.part_similarity q c = SearchHandler.part_similarity c q.
Proof.
  unfold SearchHandler.part_similarity.
  assert (E1 : String.eqb c q = String.eqb q c) by apply String.eqb_sym.
  assert (E2 : Py.contains c q || Py.contains q c
               = Py.contains q c || Py.contains c q) by apply orb_comm.
  rewrite E1, E2.
  destruct (String.eqb q c); [reflexivity|].
  destruct (Py.contains q c || Py.contains c q); [reflexivity|].
  destruct (String.length q <=? String.length c)%nat eqn:A;
    destruct (String.length c <=? String.length q)%nat eqn:B;
    try reflexivity.
  - apply Nat.leb_le in A, B.
    assert (E : String.length q = String.length c) by lia.
    rewrite (zip_matches_comm c q), E. reflexivity.
  - apply Nat.leb_gt in A, B. lia.
Qed.

(** X2.  The similarity of two location segments does not depend on which
    of them comes from the query, and it lies between 0 and 1. *)
Theorem part_similarity_symmetric_bounded :
  forall q c : string,
    SearchHandler.part_similarity q c = SearchHandler.part_similarity c q
    /\ 0 <= SearchHandler.part_similarity q c <= 1.
Proof.
  intros q c. split; [apply part_similarity_sym | apply part_similarity_range].
Qed.

Lemma total_of_ones (l : list Q) :
  (forall x, In x l -> x == 1) ->
  total_of l == inject_Z (Z.of_nat (List.length l)).
Proof.
  induction l as [|x l IH]; intro H; [reflexivity|].
  cbn [total_of List.length]. rewrite Nat2Z.inj_succ. unfold Z.succ.
  rewrite inject_Z_plus, (H x (or_introl eq_refl)), IH.
  - change (inject_Z 1) with 1. ring.
  - intros y Hy. apply H. now right.
Qed.

Lemma best_part_is_one (p : string) (cs : list string) :
  In p cs ->
  SearchHandler.max_or_zero (map (SearchHandler.part_similarity p) cs) == 1.
Proof.
  intro H. unfold SearchHandler.max_or_zero.
  destruct (Py.max (map (SearchHandler.part_similarity p) cs)) as [m|] eqn:E.
  - apply py_max_spec in E. destruct E as [Hm Hall].
    apply Qle_antisym.
    + apply in_map_iff in Hm. destruct Hm as (c & <- & _).
      apply part_similarity_range.
    + apply (Qle_trans _ (SearchHandler.part_similarity p p)).
      * rewrite (proj1 (part_similarity_cases p p) eq_refl). discriminate.
      * apply Hall. apply in_map_iff. now exists p.
  - destruct cs; [contradiction | discriminate E].
Qed.

(** X3.  The location score always lies between 0 and 1, and it is exactly 1
    when the two strings are not empty and split into the same trimmed,
    lower-cased segments; in particular a location matches itself with
    score 1. *)
Theorem location_match_bounds_and_identity :
  (forall q c : option string,
      0 <= SearchHandler.calculate_location_match q c <= 1)
  /\ (forall (a : ascii) (q : string) (b : ascii) (c : string),
        SearchHandler.parts (String a q) = SearchHandler.parts (String b c) ->
        SearchHandler.calculate_location_match
          (Some (String a q)) (Some (String b c)) == 1)
  /\ (forall (a : ascii) (q : string),
        SearchHandler.calculate_location_match
          (Some (String a q)) (Some (String a q)) == 1).
Proof.
  assert (Same : forall a q b c,
             SearchHandler.parts (String a q) = SearchHandler.parts (String b c) ->
             SearchHandler.calculate_location_match
               (Some (String a q)) (Some (String b c)) == 1).
  { intros a q b c E. rewrite location_match_unfold, <- E.
    set (ps := SearchHandler.parts (String a q)).
    assert (N : ps <> []) by apply parts_not_nil.
    rewrite total_of_ones.
    - rewrite length_map. apply Qmult_inv_r.
      destruct ps; [congruence|]. discriminate.
    - intros x Hx. apply in_map_iff in Hx. destruct Hx as (p & <- & Hp).
      now apply best_part_is_one. }
  split; [apply location_match_range|]. split; [exact Same|].
  intros a q. now apply Same.
Qed.

(** Settles a fact about one character by going through the 256 of them. *)
Ltac by_cases_on_char c :=
  destruct c as [[] [] [] [] [] [] [] []]; reflexivity.

Lemma lower_char_comma (c : ascii) :
  Ascii.eqb (Py.lower_char c) Py.comma = Ascii.eqb c Py.comma.
Proof. by_cases_on_char c. Qed.

Lemma lower_char_space (c : ascii) :
  Py.is_space (Py.lower_char c) = Py.is_space c.
Proof. by_cases_on_char c. Qed.

Lemma lower_char_idem (c : ascii) :
  Py.lower_char (Py.lower_char c) = Py.lower_char c.
Proof. by_cases_on_char c. Qed.

Lemma lower_idem (s : string) : Py.lower (Py.lower s) = Py.lower s.
Proof.
  induction s as [|c s IH]; [reflexivity|].
  simpl. now rewrite lower_char_idem, IH.
Qed.

Lemma split_lower (s : string) :
  Py.split Py.comma (Py.lower s) = map Py.lower (Py.split Py.comma s).
Proof.
  induction s as [|c s IH]; [reflexivity|].
  cbn [Py.lower Py.split]. rewrite lower_char_comma, IH.
  destruct (Ascii.eqb c Py.comma); [reflexivity|].
  destruct (Py.split Py.comma s); reflexivity.
Qed.

Lemma lstrip_lower (s : string) :
  Py.lstrip (Py.lower s) = Py.lower (Py.lstrip s).
Proof.
  induction s as [|c s IH]; [reflexivity|].
  cbn [Py.lower Py.lstrip]. rewrite lower_char_space.
  destruct (Py.is_space c); [exact IH | reflexivity].
Qed.

Lemma rstrip_lower (s : string) :
  Py.rstrip (Py.lower s) = Py.lower (Py.rstrip s).
Proof.
  induction s as [|c s IH]; [reflexivity|].
  cbn [Py.lower Py.rstrip]. rewrite IH, lower_char_space.
  destruct (Py.rstrip s); [|reflexivity].
  cbn [Py.lower]. destruct (Py.is_space c); reflexivity.
Qed.

Lemma parts_lower (s : string) :
  SearchHandler.parts (Py.lower s) = SearchHandler.parts s.
Proof.
  unfold SearchHandler.parts. rewrite split_lower, map_map.
  apply map_ext. intro p. unfold Py.strip.
  now rewrite lstrip_lower, rstrip_lower, lower_idem.
Qed.

Lemma location_match_lower_query (q : string) (c : option string) :
  SearchHandler.calculate_location_match (Some (Py.lower q)) c
  = SearchHandler.calculate_location_match (Some q) c.
Proof.
  destruct q as [|a q]; [reflexivity|].
  destruct c as [[|b c]|]; try reflexivity.
  change (Py.lower (String a q)) with (String (Py.lower_char a) (Py.lower q)).
  unfold SearchHandler.calculate_location_match.
  change (String (Py.lower_char a) (Py.lower q)) with (Py.lower (String a q)).
  now rewrite parts_lower.
Qed.

Lemma location_match_lower_candidate (q : option string) (c : string) :
  SearchHandler.calculate_location_match q (Some (Py.lower c))
  = SearchHandler.calculate_location_match q (Some c).
Proof.
  destruct q as [[|a q]|]; try reflexivity;
    destruct c as [|b c]; try reflexivity.
  change (Py.lower (String b c)) with (String (Py.lower_char b) (Py.lower c)).
  unfold SearchHandler.calculate_location_match.
  change (String (Py.lower_char b) (Py.lower c)) with (Py.lower (String b c)).
  now rewrite parts_lower.
Qed.

(** X4.  The location score ignores the case of the letters A to Z:
    lower-casing the query, the candidate's location, or both leaves the
    score unchanged. *)
Theorem location_match_ignores_case :
  forall q c : string,
    SearchHandler.calculate_location_match (Some (Py.lower q)) (Some c)
    = SearchHandler.calculate_location_match (Some q) (Some c)
    /\ SearchHandler.calculate_location_match (Some q) (Some (Py.lower c))
       = SearchHandler.calculate_location_match (Some q) (Some c)
    /\ SearchHandler.calculate_location_match
         (Some (Py.lower q)) (Some (Py.lower c))
       = SearchHandler.calculate_location_match (Some q) (Some c).
Proof.
  intros q c. split; [apply location_match_lower_query|].
  split; [apply location_match_lower_candidate|].
  now rewrite location_match_lower_query, location_match_lower_candidate.
Qed.

(** ** Cosine similarity *)

Lemma dot_none_iff (u v : list Q) :
  Np.dot u v = None <-> List.length u <> List.length v.
Proof.
  revert v. induction u as [|x u IH]; intros [|y v]; simpl;
    try (split; [discriminate | congruence]);
    try (split; [intros _; discriminate | reflexivity]).
  destruct (Np.dot u v) eqn:E.
  - split; [discriminate|]. intro H. exfalso.
    assert (N : Np.dot u v = None) by (apply IH; congruence). congruence.
  - split; [|reflexivity]. intros _ H. apply (proj1 (IH v) E). congruence.
Qed.

Lemma dot_comm (u v : list Q) (d : Q) :
  Np.dot u v = Some d -> exists d', Np.dot v u = Some d' /\ d' == d.
Proof.
  revert v d. induction u as [|x u IH]; intros [|y v] d; simpl;
    try discriminate.
  - intro H. injection H as <-. now exists 0.
  - destruct (Np.dot u v) as [e|] eqn:E; [|discriminate].
    intro H. injection H as <-.
    destruct (IH v e E) as (e' & -> & He). eexists. split; [reflexivity|].
    rewrite He. ring.
Qed.

Lemma similarities_mismatch (norm : list Q -> Q) (qs : list (list Q))
    (v : list Q) :
  (exists q, In q qs /\ List.length q <> List.length v) ->
  SearchHandler.similarities norm qs v = None.
Proof.
  induction qs as [|q0 qs IH]; intros (q & Hq & L); [contradiction|].
  simpl. destruct (Np.dot q0 v) eqn:E; [|reflexivity].
  destruct Hq as [<-|Hq].
  - apply dot_none_iff in L. congruence.
  - rewrite IH; [reflexivity | now exists q].
Qed.

Lemma similarities_aligned (norm : list Q -> Q) (qs : list (list Q))
    (v : list Q) :
  (forall q, In q qs -> List.length q = List.length v) ->
  SearchHandler.similarities norm qs v
  = Some (map (fun q => cosine_of norm q v)
              (filter (fun q => usable norm q v) qs)).
Proof.
  induction qs as [|q0 qs IH]; intro H; [reflexivity|].
  cbn [SearchHandler.similarities filter].
  assert (L : List.length q0 = List.length v) by (apply H; now left).
  destruct (Np.dot q0 v) as [d|] eqn:E.
  - rewrite IH by (intros q Hq; apply H; now right).
    change (Py.truthy_num (norm q0) && Py.truthy_num (norm v))
      with (usable norm q0 v).
    destruct (usable norm q0 v); [|reflexivity].
    cbn [map]. do 2 f_equal. unfold cosine_of. now rewrite E.
  - apply dot_none_iff in E. contradiction.
Qed.

(** X5.  The skills similarity of the search is best-of-batch with an
    all-or-nothing error rule.  If one query vector has another length than
    the candidate's vector the result is 0, whatever the other vectors give.
    If all lengths agree the result is the greatest cosine over the query
    vectors whose norm, like the candidate's, is not zero (it is attained and
    bounds the others), and 0 when there is no such vector. *)
Theorem skills_similarity_best_of_batch :
  forall (norm : list Q -> Q) (q0 : list Q) (qs : list (list Q))
         (x : Q) (v : list Q),
    let r := SearchHandler.calculate_skills_similarity norm
               (Some (q0 :: qs)) (Some (x :: v)) in
    ((exists q, In q (q0 :: qs) /\ List.length q <> List.length (x :: v)) ->
     r = 0)
    /\ ((forall q, In q (q0 :: qs) -> List.length q = List.length (x :: v)) ->
        (forall q, In q (q0 :: qs) -> usable norm q (x :: v) = true ->
                   cosine_of norm q (x :: v) <= r)
        /\ ((exists q, In q (q0 :: qs) /\ usable norm q (x :: v) = true) ->
            exists q, In q (q0 :: qs) /\ usable norm q (x :: v) = true
                      /\ r = cosine_of norm q (x :: v))
        /\ ((forall q, In q (q0 :: qs) -> usable norm q (x :: v) = false) ->
            r = 0)).
Proof.
  intros norm q0 qs x v r. subst r.
  unfold SearchHandler.calculate_skills_similarity. split.
  - intro H. now rewrite (similarities_mismatch norm _ _ H).
  - intro H. rewrite (similarities_aligned norm _ _ H).
    set (good := filter (fun q => usable norm q (x :: v)) (q0 :: qs)).
    unfold SearchHandler.max_or_zero.
    destruct (Py.max (map (fun q => cosine_of norm q (x :: v)) good))
      as [m|] eqn:E.
    + apply py_max_spec in E. destruct E as [Hm Hall].
      split; [|split].
      * intros q Hq U. apply Hall. apply in_map_iff. exists q.
        split; [reflexivity|]. apply filter_In. now split.
      * intros _. apply in_map_iff in Hm. destruct Hm as (q & <- & Hq).
        apply filter_In in Hq. now exists q.
      * intro N. apply in_map_iff in Hm. destruct Hm as (q & _ & Hq).
        apply filter_In in Hq. destruct Hq as [Hq U].
        rewrite (N q Hq) in U. discriminate.
    + assert (G : good = []).
      { destruct good; [reflexivity | discriminate E]. }
      split; [|split].
      * intros q Hq U. exfalso.
        assert (I : In q good) by (apply filter_In; now split).
        rewrite G in I. contradiction.
      * intros (q & Hq & U). exfalso.
        assert (I : In q good) by (apply filter_In; now split).
        rewrite G in I. contradiction.
      * reflexivity.
Qed.

Lemma clamp01_compat (s s' : Q) :
  s == s' -> RankHandler.clamp01 s == RankHandler.clamp01 s'.
Proof.
  intro E. unfold RankHandler.clamp01.
  destruct (Py.Qltb s 1.0) eqn:A; destruct (Py.Qltb s' 1.0) eqn:A';
    q_tests; try (exfalso; lra).
  - destruct (Py.Qltb 0.0 s) eqn:B; destruct (Py.Qltb 0.0 s') eqn:B';
      q_tests; try (exfalso; lra); [exact E | reflexivity].
  - reflexivity.
Qed.

Lemma clamp01_zero : RankHandler.clamp01 0 == 0.
Proof. reflexivity. Qed.

(** X6.  The skills match of the ranking lies between 0 and 1, gives the
    same score when the two vectors are exchanged, and is 0 when the vectors
    have different lengths or one of the norms is zero. *)
Theorem skills_match_symmetric_bounded :
  forall (norm : list Q -> Q) (c j : option (list Q)),
    0 <= RankHandler.calculate_skills_match norm c j <= 1
    /\ RankHandler.calculate_skills_match norm c j
       == RankHandler.calculate_skills_match norm j c
    /\ (forall u v, c = Some u -> j = Some v ->
        List.length u <> List.length v \/ usable norm u v = false ->
        RankHandler.calculate_skills_match norm c j = 0).
Proof.
  intros norm c j. split; [apply skills_match_range|]. split.
  - unfold RankHandler.calculate_skills_match.
    destruct c as [[|x u]|], j as [[|y v]|]; try reflexivity.
    destruct (Np.dot (x :: u) (y :: v)) as [d|] eqn:E.
    + destruct (dot_comm _ _ _ E) as (d' & -> & Hd).
      rewrite (andb_comm (Py.truthy_num (norm (y :: v)))).
      destruct (Py.truthy_num (norm (x :: u))
                && Py.truthy_num (norm (y :: v))); [|reflexivity].
      apply clamp01_compat. rewrite Hd.
      unfold Qdiv.
      setoid_replace (norm (y :: v) * norm (x :: u))
        with (norm (x :: u) * norm (y :: v)) by ring.
      reflexivity.
    + destruct (Np.dot (y :: v) (x :: u)) as [d'|] eqn:E'; [|reflexivity].
      destruct (dot_comm _ _ _ E') as (d & Hd & _). congruence.
  - intros u v -> -> H. unfold RankHandler.calculate_skills_match.
    destruct u as [|x u]; [reflexivity|]. destruct v as [|y v]; [reflexivity|].
    destruct H as [L|U].
    + apply dot_none_iff in L. now rewrite L.
    + unfold usable in U. rewrite U.
      now destruct (Np.dot (x :: u) (y :: v)).
Qed.

(** X7.  The three cosine routines agree.  Where the similarity of
    [candidate_crud] returns a score, the skills similarity of the search
    with that single query vector returns the same score and the skills match
    of the ranking returns it clamped to [0, 1]; where it raises (vectors of
    different lengths) both handlers return 0. *)
Theorem cosine_routines_agree :
  forall (norm : list Q -> Q) (u v : option (list Q)),
    let query := match u with Some x => Some [x] | None => None end in
    match CandidateCrud.cosine_similarity norm u v with
    | Some s =>
        SearchHandler.calculate_skills_similarity norm query v = s
        /\ RankHandler.calculate_skills_match norm u v
           == RankHandler.clamp01 s
    | None =>
        SearchHandler.calculate_skills_similarity norm query v = 0
        /\ RankHandler.calculate_skills_match norm u v = 0
    end.
Proof.
  intros norm u v query. subst query.
  unfold CandidateCrud.cosine_similarity,
    SearchHandler.calculate_skills_similarity,
    RankHandler.calculate_skills_match.
  destruct u as [[|x u]|].
  - destruct v as [[|y v]|]; split; reflexivity.
  - destruct v as [[|y v]|]; try (split; reflexivity).
    cbn [SearchHandler.similarities].
    destruct (Np.dot (x :: u) (y :: v)) as [d|]; [|split; reflexivity].
    destruct (Py.truthy_num (norm (x :: u))
              && Py.truthy_num (norm (y :: v))); split; reflexivity.
  - destruct v as [[|y v]|]; split; reflexivity.
Qed.

(** ** Search by skills in candidate_crud.py *)

Lemma scored_candidates (norm : list Q -> Q) (sv : option (list Q))
    (cs : list CandidateProfile) (scored : list (CandidateProfile * Q)) :
  CandidateCrud.candidates_with_scores norm sv cs = Some scored ->
  scored = map (fun c => (c, CandidateCrud.sort_key norm sv c)) cs.
Proof.
  revert scored. induction cs as [|c cs IH]; intros scored; simpl.
  - intro H. now injection H as <-.
  - unfold CandidateCrud.sort_key at 1.
    destruct (CandidateCrud.cosine_similarity norm sv (resume_vector c))
      as [s|]; [|discriminate].
    destruct (CandidateCrud.candidates_with_scores norm sv cs) as [rest|];
      [|discriminate].
    intro H. injection H as <-. now rewrite (IH rest eq_refl).
Qed.

Lemma scored_candidates_raise (norm : list Q -> Q) (sv : option (list Q))
    (cs : list CandidateProfile) :
  CandidateCrud.candidates_with_scores norm sv cs = None
  <-> exists c, In c cs
        /\ CandidateCrud.cosine_similarity norm sv (resume_vector c) = None.
Proof.
  induction cs as [|c cs IH]; simpl.
  - split; [discriminate | intros (c & [] & _)].
  - destruct (CandidateCrud.cosine_similarity norm sv (resume_vector c))
      as [s|] eqn:E.
    + destruct (CandidateCrud.candidates_with_scores norm sv cs) as [rest|].
      * split; [discriminate|]. intros (c' & [<-|Hc'] & N); [congruence|].
        assert (X := proj2 IH (ex_intro _ c' (conj Hc' N))).
        discriminate X.
      * split; [|reflexivity]. intros _.
        destruct (proj1 IH eq_refl) as (c' & Hc' & N).
        exists c'. split; [now right | exact N].
    + split; [|reflexivity]. intros _. exists c. split; [now left | exact E].
Qed.

Lemma cosine_raises (norm : list Q -> Q) (u v : option (list Q)) :
  CandidateCrud.cosine_similarity norm u v = None
  <-> exists x y, u = Some x /\ v = Some y /\ x <> [] /\ y <> []
                  /\ List.length x <> List.length y.
Proof.
  unfold CandidateCrud.cosine_similarity. split.
  - destruct u as [[|a x]|]; try discriminate.
    destruct v as [[|b y]|]; try discriminate.
    destruct (Np.dot (a :: x) (b :: y)) eqn:E; [discriminate|].
    intros _. exists (a :: x), (b :: y).
    repeat split; try discriminate. now apply dot_none_iff.
  - intros (x & y & -> & -> & Nx & Ny & L).
    destruct x as [|a x]; [congruence|]. destruct y as [|b y]; [congruence|].
    apply dot_none_iff in L. now rewrite L.
Qed.

Lemma map_fst_scored {A : Type} (f : A -> Q) (p : Q -> bool) (l : list A) :
  map fst (filter (fun cs => p (snd cs)) (map (fun c => (c, f c)) l))
  = filter (fun c => p (f c)) l.
Proof.
  induction l as [|c l IH]; [reflexivity|]. simpl.
  destruct (p (f c)); simpl; now rewrite IH.
Qed.

(** X8.  The search by skills of [candidate_crud] raises exactly when the
    query vector and the vector of some candidate are both non-empty and of
    different lengths; unlike the two handlers it does not turn the error
    into a score of 0. *)
Theorem crud_search_raises_on_length_mismatch :
  forall (norm : list Q -> Q) (candidates : list CandidateProfile)
         (skills_vector : option (list Q)) (limit : Z) (threshold : Q),
    CandidateCrud.search_candidates_by_skills norm candidates skills_vector
      limit threshold = None
    <-> exists c x y,
          In c candidates /\ skills_vector = Some x
          /\ resume_vector c = Some y /\ x <> [] /\ y <> []
          /\ List.length x <> List.length y.
Proof.
  intros norm candidates sv limit threshold.
  unfold CandidateCrud.search_candidates_by_skills.
  destruct (CandidateCrud.candidates_with_scores norm sv candidates)
    as [scored|] eqn:E.
  - split; [discriminate|]. intros (c & x & y & Hc & Hx & Hy & R).
    assert (N : CandidateCrud.candidates_with_scores norm sv candidates = None).
    { apply scored_candidates_raise. exists c. split; [exact Hc|].
      apply cosine_raises. now exists x, y. }
    congruence.
  - split; [|reflexivity]. intros _.
    apply scored_candidates_raise in E. destruct E as (c & Hc & N).
    apply cosine_raises in N. destruct N as (x & y & Hx & Hy & R).
    now exists c, x, y.
Qed.

(** X9.  When the search by skills of [candidate_crud] returns, and the
    limit is not negative, it returns the candidates whose similarity reaches
    the threshold, by decreasing similarity, at most [limit] of them, the
    most similar first, ties in the order of the input. *)
Theorem crud_search_sorted_and_limited :
  forall (norm : list Q -> Q) (candidates : list CandidateProfile)
         (skills_vector : option (list Q)) (limit : Z) (threshold : Q)
         (out : list CandidateProfile),
    (0 <= limit)%Z ->
    CandidateCrud.search_candidates_by_skills norm candidates skills_vector
      limit threshold = Some out ->
    let similarity := CandidateCrud.sort_key norm skills_vector in
    ranked_prefix similarity limit
      (filter (fun c => Qle_bool threshold (similarity c)) candidates) out
    /\ (forall c, In c out -> In c candidates /\ threshold <= similarity c).
Proof.
  intros norm candidates sv limit threshold out L H similarity.
  unfold CandidateCrud.search_candidates_by_skills in H.
  destruct (CandidateCrud.candidates_with_scores norm sv candidates)
    as [scored|] eqn:E; [|discriminate].
  apply scored_candidates in E. subst scored.
  rewrite (map_fst_scored (CandidateCrud.sort_key norm sv)
             (Qle_bool threshold)) in H.
  injection H as <-. fold similarity.
  split; [now apply top_ranked_prefix|].
  intros c Hc.
  destruct (slice_to_prefix
              (Py.sorted_reverse similarity
                 (filter (fun c => Qle_bool threshold (similarity c))
                    candidates)) limit) as (rest & P).
  assert (I : In c (filter (fun c => Qle_bool threshold (similarity c))
                      candidates)).
  { eapply Permutation_in; [apply sorted_reverse_perm|].
    rewrite P. apply in_or_app. now left. }
  apply filter_In in I. destruct I as [I T]. split; [exact I|].
  now apply Qle_bool_iff.
Qed.

(** X9 at the two candidates of the search scenario, threshold 0.7: the one
    returned has similarity at least 0.7. *)
Lemma crud_search_sorted_and_limited_at_scenario :
  0.7 <= CandidateCrud.sort_key Np.l2norm (Some [1; 0; 0; 0])
           Example.first_empty.
Proof.
  assert (L : (0 <= 10)%Z) by discriminate.
  assert (H : CandidateCrud.search_candidates_by_skills Np.l2norm
                [Example.second; Example.first_empty]
                (Some [1; 0; 0; 0]) 10 0.7
              = Some [Example.first_empty]) by (vm_compute; reflexivity).
  exact (proj2 (proj2
           (crud_search_sorted_and_limited Np.l2norm
              [Example.second; Example.first_empty]
              (Some [1; 0; 0; 0]) 10%Z 0.7 [Example.first_empty] L H)
           Example.first_empty (or_introl eq_refl))).
Defined.

(** * Further properties of the orchestrators *)

(** ** Criteria, limit and threshold *)

Lemma search_results_without_criteria (norm : list Q -> Q)
    (sv : option (list (list Q))) (loc : option string) (required : option Q)
    (min_score : Q) (cs : list CandidateProfile) :
  Py.truthy_list sv = false -> Py.truthy_str loc = false ->
  Py.truthy_opt_num required = false ->
  SearchHandler.results norm sv loc required min_score cs = [].
Proof.
  intros S L R. induction cs as [|c cs IH]; [reflexivity|].
  cbn [SearchHandler.results].
  unfold SearchHandler.tally_of, SearchHandler.add_experience,
    SearchHandler.add_location, SearchHandler.add_skills.
  rewrite S, L, R. cbn [andb]. exact IH.
Qed.

(** X10.  A search that is given no criterion (no skill vector, no or an
    empty location, no or a zero required experience) returns nothing,
    whatever the candidates, the minimum score and the limit. *)
Theorem search_without_criteria_is_empty :
  forall (norm : list Q -> Q) (db : Session) (sv : option (list (list Q)))
         (loc : option string) (required : option Q) (min_score : Q)
         (limit : Z),
    Py.truthy_list sv = false -> Py.truthy_str loc = false ->
    Py.truthy_opt_num required = false ->
    SearchHandler.search_candidates norm db sv loc required min_score limit
    = [].
Proof.
  intros norm db sv loc required min_score limit S L R.
  unfold SearchHandler.search_candidates.
  rewrite (search_results_without_criteria norm sv loc required min_score
             _ S L R).
  unfold Py.slice_to. simpl.
  destruct (0 <=? limit)%Z; rewrite ?firstn_nil; reflexivity.
Qed.

(** X10 at an empty skill list, an empty location and zero years, with a
    negative minimum. *)
Lemma search_without_criteria_is_empty_at_office :
  SearchHandler.search_candidates Np.l2norm Example.office (Some [])
    (Some ""%string) (Some 0) (-1) 10
  = [].
Proof.
  apply (search_without_criteria_is_empty Np.l2norm Example.office (Some [])
           (Some ""%string) (Some 0) (-1) 10%Z); reflexivity.
Defined.

Lemma slice_to_of_slice_to {A : Type} (l : list A) (n m : Z) :
  (0 <= n <= m)%Z ->
  Py.slice_to l n = Py.slice_to (Py.slice_to l m) n.
Proof.
  intros [Hn Hm]. unfold Py.slice_to.
  assert (En : (0 <=? n)%Z = true) by now apply Z.leb_le.
  assert (Em : (0 <=? m)%Z = true) by (apply Z.leb_le; lia).
  rewrite En, Em, firstn_firstn. f_equal. lia.
Qed.

(** X11.  For limits that are not negative, asking for fewer results gives
    the beginning of what asking for more gives: the result for the limit
    [n] is the first [n] entries of the result for any limit [m >= n], in the
    search and in the ranking; the limit 0 gives nothing. *)
Theorem smaller_limit_is_a_prefix :
  forall (norm : list Q -> Q) (db : Session) (n m : Z),
    (0 <= n <= m)%Z ->
    (forall (sv : option (list (list Q))) (loc : option string)
            (required : option Q) (min_score : Q),
        SearchHandler.search_candidates norm db sv loc required min_score n
        = firstn (Z.to_nat n)
            (SearchHandler.search_candidates norm db sv loc required
               min_score m)
        /\ SearchHandler.search_candidates norm db sv loc required min_score 0
           = [])
    /\ (forall (id : Z) (min_score : Q),
          RankHandler.rank_candidates_for_job norm db id min_score n
          = firstn (Z.to_nat n)
              (RankHandler.rank_candidates_for_job norm db id min_score m)
          /\ RankHandler.rank_candidates_for_job norm db id min_score 0 = []).
Proof.
  intros norm db n m H.
  assert (F : forall (A : Type) (l : list A),
             Py.slice_to l n = firstn (Z.to_nat n) (Py.slice_to l m)).
  { intros A l. rewrite (slice_to_of_slice_to l n m H).
    unfold Py.slice_to at 1.
    assert (En : (0 <=? n)%Z = true) by (apply Z.leb_le; lia).
    now rewrite En. }
  split.
  - intros sv loc required min_score. split.
    + unfold SearchHandler.search_candidates. apply F.
    + reflexivity.
  - intros id min_score. split.
    + rewrite !rank_candidates_top. apply F.
    + rewrite rank_candidates_top. reflexivity.
Qed.

(** X11 at the search scenario: the limit 1 gives the first entry of the
    result for the limit 10. *)
Lemma smaller_limit_is_a_prefix_at_scenario :
  SearchHandler.search_candidates Np.l2norm
    (Example.session [Example.first_empty; Example.second])
    Example.query Example.austin (Some 5) 0.5 1
  = firstn 1
      (SearchHandler.search_candidates Np.l2norm
         (Example.session [Example.first_empty; Example.second])
         Example.query Example.austin (Some 5) 0.5 10).
Proof.
  assert (H : (0 <= 1 <= 10)%Z) by (split; discriminate).
  exact (proj1 (proj1
           (smaller_limit_is_a_prefix Np.l2norm
              (Example.session [Example.first_empty; Example.second])
              1%Z 10%Z H)
           Example.query Example.austin (Some 5) 0.5)).
Defined.

Section FilterSorted.
Context {A : Type} (key : A -> Q) (f : A -> bool).

Lemma insert_desc_front (x : A) (l : list A) :
  (forall b, In b l -> key b <= key x) ->
  Py.insert_desc key x l = x :: l.
Proof.
  destruct l as [|y l]; [reflexivity|]. intro H. simpl.
  assert (E : Qle_bool (key y) (key x) = true)
    by (apply Qle_bool_iff, H; now left).
  now rewrite E.
Qed.

Lemma filter_insert_desc (x : A) (s : list A) :
  StronglySorted (desc key) s ->
  filter f (Py.insert_desc key x s)
  = if f x then Py.insert_desc key x (filter f s) else filter f s.
Proof.
  induction 1 as [|y s S IH F]; simpl.
  - now destruct (f x).
  - destruct (Qle_bool (key y) (key x)) eqn:E.
    + cbn [filter]. destruct (f x); [|reflexivity].
      symmetry. apply insert_desc_front.
      apply Qle_bool_iff in E. rewrite Forall_forall in F.
      intros b Hb. destruct (f y).
      * destruct Hb as [<-|Hb]; [exact E|].
        apply filter_In in Hb. apply (Qle_trans _ (key y)); [|exact E].
        apply F, Hb.
      * apply filter_In in Hb. apply (Qle_trans _ (key y)); [|exact E].
        apply F, Hb.
    + cbn [filter]. rewrite IH.
      destruct (f y); destruct (f x); try reflexivity.
      cbn [Py.insert_desc]. now rewrite E.
Qed.

Lemma filter_sorted_reverse (l : list A) :
  filter f (Py.sorted_reverse key l) = Py.sorted_reverse key (filter f l).
Proof.
  induction l as [|x l IH]; [reflexivity|].
  cbn [Py.sorted_reverse fold_right filter].
  fold (Py.sorted_reverse key l).
  rewrite filter_insert_desc by apply sorted_reverse_sorted.
  rewrite IH. now destruct (f x).
Qed.

End FilterSorted.

Lemma search_results_threshold (norm : list Q -> Q)
    (sv : option (list (list Q))) (loc : option string) (required : option Q)
    (min1 min2 : Q) (cs : list CandidateProfile) :
  min1 <= min2 ->
  SearchHandler.results norm sv loc required min2 cs
  = filter (fun r => Qle_bool min2
                       (SearchHandler.total_score (SearchHandler.scores r)))
      (SearchHandler.results norm sv loc required min1 cs).
Proof.
  intro H. induction cs as [|c cs IH]; [reflexivity|].
  cbn [SearchHandler.results]. unfold SearchHandler.entry_of.
  destruct (Py.Qltb 0 _); [|exact IH].
  set (final := SearchHandler.t_score _ / SearchHandler.t_weight _).
  destruct (Qle_bool min2 final) eqn:E2.
  - assert (E1 : Qle_bool min1 final = true).
    { apply Qle_bool_iff. apply Qle_bool_iff in E2.
      eapply Qle_trans; eassumption. }
    rewrite E1. cbn [filter SearchHandler.scores SearchHandler.total_score].
    rewrite E2. now rewrite IH.
  - destruct (Qle_bool min1 final); [|exact IH].
    cbn [filter SearchHandler.scores SearchHandler.total_score].
    now rewrite E2.
Qed.

Lemma ranked_results_threshold (norm : list Q -> Q) (job : Job)
    (min1 min2 : Q) (cs : list CandidateProfile) :
  min1 <= min2 ->
  RankHandler.ranked_results norm job min2 cs
  = filter (fun r => Qle_bool min2 (RankHandler.total_score r))
      (RankHandler.ranked_results norm job min1 cs).
Proof.
  intro H. induction cs as [|c cs IH]; [reflexivity|].
  cbn [RankHandler.ranked_results]. unfold RankHandler.entry_of.
  set (total := snd (RankHandler.tally_of norm job c)).
  destruct (Qle_bool min2 total) eqn:E2.
  - assert (E1 : Qle_bool min1 total = true).
    { apply Qle_bool_iff. apply Qle_bool_iff in E2.
      eapply Qle_trans; eassumption. }
    rewrite E1. cbn [filter RankHandler.total_score].
    rewrite E2. now rewrite IH.
  - destruct (Qle_bool min1 total); [|exact IH].
    cbn [filter RankHandler.total_score]. now rewrite E2.
Qed.

Lemma search_results_length (norm : list Q -> Q)
    (sv : option (list (list Q))) (loc : option string) (required : option Q)
    (min_score : Q) (cs : list CandidateProfile) :
  (List.length (SearchHandler.results norm sv loc required min_score cs)
   <= List.length cs)%nat.
Proof.
  induction cs as [|c cs IH]; [apply Nat.le_refl|].
  cbn [SearchHandler.results].
  destruct (SearchHandler.entry_of _ _ _); simpl; lia.
Qed.

Lemma ranked_results_length (norm : list Q -> Q) (job : Job) (min_score : Q)
    (cs : list CandidateProfile) :
  (List.length (RankHandler.ranked_results norm job min_score cs)
   <= List.length cs)%nat.
Proof.
  induction cs as [|c cs IH]; [apply Nat.le_refl|].
  cbn [RankHandler.ranked_results].
  destruct (RankHandler.entry_of _ _ _); simpl; lia.
Qed.

Lemma sorted_reverse_length {A : Type} (key : A -> Q) (l : list A) :
  List.length (Py.sorted_reverse key l) = List.length l.
Proof. apply Permutation_length, sorted_reverse_perm. Qed.

(** X12.  When the limit is at least the number of candidates, raising the
    minimum score only removes entries: the result for the higher minimum is
    the result for the lower one without the entries whose total is below
    the higher minimum, in the same order.  This holds for the search and for
    the ranking. *)
Theorem raising_threshold_only_removes :
  forall (norm : list Q -> Q) (db : Session) (min1 min2 : Q) (limit : Z),
    min1 <= min2 ->
    (Z.of_nat (List.length (candidate_profiles db)) <= limit)%Z ->
    (forall (sv : option (list (list Q))) (loc : option string)
            (required : option Q),
        SearchHandler.search_candidates norm db sv loc required min2 limit
        = filter (fun r => Qle_bool min2
                             (SearchHandler.total_score
                                (SearchHandler.scores r)))
            (SearchHandler.search_candidates norm db sv loc required
               min1 limit))
    /\ (forall id : Z,
          RankHandler.rank_candidates_for_job norm db id min2 limit
          = filter (fun r => Qle_bool min2 (RankHandler.total_score r))
              (RankHandler.rank_candidates_for_job norm db id min1 limit)).
Proof.
  intros norm db min1 min2 limit H L. split.
  - intros sv loc required. unfold SearchHandler.search_candidates.
    rewrite !slice_to_all.
    + rewrite filter_sorted_reverse. f_equal.
      now apply search_results_threshold.
    + rewrite sorted_reverse_length.
      pose proof (search_results_length norm sv loc required min1
                    (candidate_profiles db)). lia.
    + rewrite sorted_reverse_length.
      pose proof (search_results_length norm sv loc required min2
                    (candidate_profiles db)). lia.
  - intro id. rewrite !rank_candidates_top. unfold ranked_for.
    destruct (get_job db id) as [job|].
    + rewrite !slice_to_all.
      * rewrite filter_sorted_reverse. f_equal.
        now apply ranked_results_threshold.
      * rewrite sorted_reverse_length.
        pose proof (ranked_results_length norm job min1
                      (candidate_profiles db)). lia.
      * rewrite sorted_reverse_length.
        pose proof (ranked_results_length norm job min2
                      (candidate_profiles db)). lia.
    + unfold Py.slice_to. simpl.
      destruct (0 <=? limit)%Z; rewrite ?firstn_nil; reflexivity.
Qed.

(** X12 at the search scenario: from the minimum 0.5 to 0.8 with the limit
    10. *)
Lemma raising_threshold_only_removes_at_scenario :
  SearchHandler.search_candidates Np.l2norm
    (Example.session [Example.first_empty; Example.second])
    Example.query Example.austin (Some 5) 0.8 10
  = filter (fun r => Qle_bool 0.8
                       (SearchHandler.total_score (SearchHandler.scores r)))
      (SearchHandler.search_candidates Np.l2norm
         (Example.session [Example.first_empty; Example.second])
         Example.query Example.austin (Some 5) 0.5 10).
Proof.
  assert (H : 0.5 <= 0.8) by discriminate.
  assert (L : (Z.of_nat
                 (List.length
                    (candidate_profiles
                       (Example.session [Example.first_empty; Example.second])))
               <= 10)%Z) by discriminate.
  exact (proj1
           (raising_threshold_only_removes Np.l2norm
              (Example.session [Example.first_empty; Example.second])
              0.5 0.8 10%Z H L)
           Example.query Example.austin (Some 5)).
Defined.

(** ** What the ranking and the search never return *)

(** X13.  The ranking never gives a total above 0.8, since nothing scores
    the title and its weight of 0.2 is never added: with a minimum score
    above 0.8 the ranking returns nothing, whatever the job and the
    candidates. *)
Theorem rank_above_08_is_empty :
  forall (norm : list Q -> Q) (db : Session) (id : Z) (min_score : Q)
         (limit : Z),
    0.8 < min_score ->
    RankHandler.rank_candidates_for_job norm db id min_score limit = [].
Proof.
  intros norm db id min_score limit H.
  rewrite rank_candidates_top. unfold ranked_for.
  assert (E : forall job cs,
             RankHandler.ranked_results norm job min_score cs = []).
  { intros job cs. induction cs as [|c cs IH]; [reflexivity|].
    cbn [RankHandler.ranked_results].
    rewrite rank_entry_dropped; [exact IH|].
    destruct (rank_tally_range norm job c) as (_ & _ & _ & _ & T).
    eapply Qle_lt_trans; eassumption. }
  destruct (get_job db id) as [job|]; rewrite ?E; unfold Py.slice_to; simpl;
    destruct (0 <=? limit)%Z; rewrite ?firstn_nil; reflexivity.
Qed.

(** X13 at the ranking scenario with the minimum 0.85. *)
Lemma rank_above_08_is_empty_at_office :
  RankHandler.rank_candidates_for_job Np.l2norm Example.office 7 0.85 10 = [].
Proof.
  apply (rank_above_08_is_empty Np.l2norm Example.office 7%Z 0.85 10%Z).
  reflexivity.
Defined.

Lemma slice_to_NoDup {A : Type} (l : list A) (n : Z) :
  NoDup l -> NoDup (Py.slice_to l n).
Proof.
  intro H. destruct (slice_to_prefix l n) as (rest & E).
  rewrite E in H. now apply NoDup_app_remove_r in H.
Qed.

Lemma slice_to_map {A B : Type} (f : A -> B) (l : list A) (n : Z) :
  map f (Py.slice_to l n) = Py.slice_to (map f l) n.
Proof.
  unfold Py.slice_to. rewrite length_map.
  destruct (0 <=? n)%Z; symmetry; apply firstn_map.
Qed.

(** X14.  No candidate is returned twice and none is invented: when the
    candidate rows of the session are pairwise distinct, so are the
    candidates of the entries of a search and of a ranking, and each of them
    is a row of the session. *)
Theorem results_hold_distinct_candidates :
  forall (norm : list Q -> Q) (db : Session) (min_score : Q) (limit : Z),
    NoDup (candidate_profiles db) ->
    (forall (sv : option (list (list Q))) (loc : option string)
            (required : option Q),
        let out := SearchHandler.search_candidates norm db sv loc required
                     min_score limit in
        NoDup (map SearchHandler.candidate out)
        /\ incl (map SearchHandler.candidate out) (candidate_profiles db))
    /\ (forall id : Z,
          let out := RankHandler.rank_candidates_for_job norm db id
                       min_score limit in
          NoDup (map RankHandler.candidate out)
          /\ incl (map RankHandler.candidate out) (candidate_profiles db)).
Proof.
  intros norm db min_score limit D. split.
  - intros sv loc required out. subst out.
    unfold SearchHandler.search_candidates.
    set (key := fun x => SearchHandler.total_score (SearchHandler.scores x)).
    set (all := SearchHandler.results norm sv loc required min_score
                  (candidate_profiles db)).
    assert (P : Permutation (map SearchHandler.candidate
                               (Py.sorted_reverse key all))
                  (filter (fun c =>
                             let t := SearchHandler.tally_of norm sv loc
                                        required c in
                             Py.Qltb 0 (SearchHandler.t_weight t)
                             && Qle_bool min_score
                                  (SearchHandler.t_score t
                                   / SearchHandler.t_weight t))
                          (candidate_profiles db))).
    { rewrite <- search_results_candidates. apply Permutation_map.
      apply sorted_reverse_perm. }
    rewrite slice_to_map. split.
    + apply slice_to_NoDup.
      eapply Permutation_NoDup; [symmetry; exact P|]. now apply NoDup_filter.
    + intros c Hc.
      destruct (slice_to_prefix
                  (map SearchHandler.candidate (Py.sorted_reverse key all))
                  limit) as (rest & E).
      assert (I : In c (map SearchHandler.candidate
                          (Py.sorted_reverse key all)))
        by (rewrite E; apply in_or_app; now left).
      eapply Permutation_in in I; [|exact P].
      apply filter_In in I. tauto.
  - intros id out. subst out. rewrite rank_candidates_top.
    unfold ranked_for. destruct (get_job db id) as [job|].
    + set (all := RankHandler.ranked_results norm job min_score
                    (candidate_profiles db)).
      assert (P : Permutation (map RankHandler.candidate
                                 (Py.sorted_reverse RankHandler.total_score all))
                    (filter (fun c =>
                               Qle_bool min_score
                                 (snd (RankHandler.tally_of norm job c)))
                            (candidate_profiles db))).
      { rewrite <- ranked_results_candidates. apply Permutation_map.
        apply sorted_reverse_perm. }
      rewrite slice_to_map. split.
      * apply slice_to_NoDup.
        eapply Permutation_NoDup; [symmetry; exact P|]. now apply NoDup_filter.
      * intros c Hc.
        destruct (slice_to_prefix
                    (map RankHandler.candidate
                       (Py.sorted_reverse RankHandler.total_score all))
                    limit) as (rest & E).
        assert (I : In c (map RankHandler.candidate
                            (Py.sorted_reverse RankHandler.total_score all)))
          by (rewrite E; apply in_or_app; now left).
        eapply Permutation_in in I; [|exact P].
        apply filter_In in I. tauto.
    + assert (E : Py.slice_to
                    (Py.sorted_reverse RankHandler.total_score
                       (@nil RankHandler.result)) limit = []).
      { unfold Py.slice_to. simpl.
        destruct (0 <=? limit)%Z; rewrite ?firstn_nil; reflexivity. }
      rewrite E. split; [constructor | intros c []].
Qed.

(** X14 at the search scenario. *)
Lemma results_hold_distinct_candidates_at_scenario :
  NoDup
    (map SearchHandler.candidate
       (SearchHandler.search_candidates Np.l2norm
          (Example.session [Example.first_empty; Example.second])
          Example.query Example.austin (Some 5) 0.5 10)).
Proof.
  assert (D : NoDup (candidate_profiles
                       (Example.session [Example.first_empty; Example.second]))).
  { repeat constructor; simpl; [|tauto].
    intros [H|[]]. discriminate H. }
  exact (proj1 (proj1
           (results_hold_distinct_candidates Np.l2norm
              (Example.session [Example.first_empty; Example.second])
              0.5 10%Z D)
           Example.query Example.austin (Some 5))).
Defined.

(** ** The summary of a result set *)

Lemma bucket_le_length (lo : Q) (hi : option Q) (l : list Q) :
  (bucket lo hi l <= List.length l)%nat.
Proof.
  induction l as [|t l IH]; [apply Nat.le_refl|]. cbn [bucket List.length].
  destruct (Qlt_le_dec t lo); [lia|].
  destruct hi as [h|]; [destruct (Qlt_le_dec t h)|]; lia.
Qed.

Lemma bucket_all (lo : Q) (l : list Q) :
  (forall t, In t l -> lo <= t) -> bucket lo None l = List.length l.
Proof.
  induction l as [|t l IH]; intro H; [reflexivity|]. cbn [bucket List.length].
  destruct (Qlt_le_dec t lo) as [L|L].
  - exfalso. apply (Qlt_not_le _ _ L). apply H. now left.
  - rewrite IH; [reflexivity|]. intros y Hy. apply H. now right.
Qed.

Lemma buckets_add_up (l : list Q) :
  (bucket 0.8%Q None l + bucket 0.6%Q (Some 0.8%Q) l
   + bucket 0.5%Q (Some 0.6%Q) l
   = bucket 0.5%Q None l)%nat.
Proof.
  induction l as [|t l IH]; [reflexivity|]. cbn [bucket].
  destruct (Qlt_le_dec t 0.8) as [A|A]; destruct (Qlt_le_dec t 0.6) as [B|B];
    destruct (Qlt_le_dec t 0.5) as [C|C]; try (exfalso; lra); lia.
Qed.

Lemma summary_histogram (rs : list SearchHandler.result) :
  let s := SearchHandler.get_search_summary rs in
  let totals :=
    map (fun x => SearchHandler.total_score (SearchHandler.scores x)) rs in
  SearchHandler.count s = List.length rs
  /\ SearchHandler.excellent s = bucket 0.8 None totals
  /\ SearchHandler.good s = bucket 0.6 (Some 0.8) totals
  /\ SearchHandler.fair s = bucket 0.5 (Some 0.6) totals.
Proof.
  destruct rs as [|r rs]; [repeat split|].
  cbv zeta. unfold SearchHandler.get_search_summary.
  cbn [SearchHandler.count SearchHandler.excellent SearchHandler.good
       SearchHandler.fair].
  split; [reflexivity|]. split; [|split].
  - rewrite <- (filter_bucket 0.8 None). f_equal. apply filter_ext.
    intro a. now rewrite andb_true_r.
  - apply (filter_bucket 0.6 (Some 0.8)).
  - apply (filter_bucket 0.5 (Some 0.6)).
Qed.


(** X16.  The three buckets of the summary are disjoint and cover exactly
    the totals of at least 0.5: their counts add up to the number of such
    results, never more than the count, and to the count itself when every
    total is at least 0.5.  A result below 0.5 is in no bucket. *)
Theorem summary_buckets_partition :
  forall rs : list SearchHandler.result,
    let s := SearchHandler.get_search_summary rs in
    let totals :=
      map (fun x => SearchHandler.total_score (SearchHandler.scores x)) rs in
    let in_buckets :=
      (SearchHandler.excellent s + SearchHandler.good s
       + SearchHandler.fair s)%nat in
    in_buckets = bucket 0.5 None totals
    /\ (in_buckets <= SearchHandler.count s)%nat
    /\ ((forall t, In t totals -> 0.5 <= t) ->
        in_buckets = SearchHandler.count s).
Proof.
  intros rs s totals in_buckets.
  destruct (summary_histogram rs) as (C & E & G & F).
  fold s totals in C, E, G, F.
  assert (X : in_buckets = bucket 0.5 None totals).
  { unfold in_buckets. rewrite E, G, F. apply buckets_add_up. }
  assert (L : List.length totals = List.length rs)
    by (unfold totals; apply length_map).
  split; [exact X|]. split.
  - rewrite X, C, <- L. apply bucket_le_length.
  - intro H. rewrite X, C, <- L. now apply bucket_all.
Qed.

(** X16 at a single result of total 0.7. *)
Lemma summary_buckets_partition_at_one :
  let r := {| SearchHandler.candidate := Example.second;
              SearchHandler.scores :=
                {| SearchHandler.skills_score := 0.5;
                   SearchHandler.location_score := 1;
                   SearchHandler.experience_score := 1;
                   SearchHandler.total_score := 0.7 |} |} in
  let s := SearchHandler.get_search_summary [r] in
  (SearchHandler.excellent s + SearchHandler.good s + SearchHandler.fair s)%nat
  = SearchHandler.count s.
Proof.
  cbv zeta.
  apply (proj2 (proj2 (summary_buckets_partition
           [{| SearchHandler.candidate := Example.second;
               SearchHandler.scores :=
                 {| SearchHandler.skills_score := 0.5;
                    SearchHandler.location_score := 1;
                    SearchHandler.experience_score := 1;
                    SearchHandler.total_score := 0.7 |} |}]))).
  intros t [<-|[]]. discriminate.
Defined.



(** * The extension of an uploaded file *)

Lemma split_app_sep (sep : ascii) (a b : string) :
  Py.split sep (String.append a (String sep b))
  = Py.split sep a ++ Py.split sep b.
Proof.
  induction a as [|c a IH]; simpl.
  - now rewrite Ascii.eqb_refl.
  - rewrite IH. destruct (Ascii.eqb c sep); [reflexivity|].
    pose proof (split_not_nil sep a) as N.
    destruct (Py.split sep a); [congruence | reflexivity].
Qed.

Lemma split_without_sep (sep : ascii) (e : string) :
  (forall i, String.get i e <> Some sep) -> Py.split sep e = [e].
Proof.
  induction e as [|c e IH]; intro H; [reflexivity|]. simpl.
  destruct (Ascii.eqb c sep) eqn:E.
  - apply Ascii.eqb_eq in E. subst c. exfalso. now apply (H 0%nat).
  - rewrite IH; [reflexivity|]. intro i. apply (H (S i)).
Qed.

Lemma join_app_last (sep : ascii) (front : list string) (e : string) :
  front <> [] ->
  join sep (front ++ [e]) = String.append (join sep front) (String sep e).
Proof.
  induction front as [|x front IH]; intro N; [congruence|].
  destruct front as [|y front]; [reflexivity|].
  change (join sep ((x :: y :: front) ++ [e]))
    with (String.append x (String sep (join sep ((y :: front) ++ [e])))).
  rewrite IH by discriminate.
  change (join sep (x :: y :: front))
    with (String.append x (String sep (join sep (y :: front)))).
  generalize (join sep (y :: front)) as t. intro t.
  induction x as [|c x IHx]; simpl; [reflexivity | now rewrite IHx].
Qed.

Lemma file_ext_of_last (filename ext : string) :
  CandidateEndpoints.last_item
    (Py.split CandidateEndpoints.dot_char filename) = ext ->
  CandidateEndpoints.allowed filename
  = String.eqb (Py.lower ext) "pdf" || String.eqb (Py.lower ext) "docx".
Proof.
  intro H. unfold CandidateEndpoints.allowed, CandidateEndpoints.file_ext.
  rewrite H. reflexivity.
Qed.

(** X18.  [upload_resume] accepts a file name exactly when the text after
    its last dot, or the whole name when it has no dot, reads "pdf" or
    "docx" once lower-cased; every other name is answered 400 before the
    file is read. *)
Theorem upload_accepts_pdf_and_docx :
  forall filename : string,
    CandidateEndpoints.allowed filename = true
    <-> exists ext : string,
          (Py.lower ext = "pdf"%string \/ Py.lower ext = "docx"%string)
          /\ (forall i, String.get i ext <> Some CandidateEndpoints.dot_char)
          /\ (filename = ext
              \/ exists stem,
                   filename
                   = String.append stem
                       (String CandidateEndpoints.dot_char ext)).
Proof.
  intro filename. split.
  - intro H.
    set (l := Py.split CandidateEndpoints.dot_char filename).
    set (e := CandidateEndpoints.last_item l).
    rewrite (file_ext_of_last filename e eq_refl) in H.
    assert (N : l <> []) by apply split_not_nil.
    assert (D : l = removelast l ++ [e])
      by (apply app_removelast_last; exact N).
    exists e. split; [|split].
    + apply orb_true_iff in H. destruct H as [H|H];
        apply String.eqb_eq in H; [now left | now right].
    + pose proof (split_parts_without_sep CandidateEndpoints.dot_char filename)
        as F.
      rewrite Forall_forall in F. apply F. fold l. rewrite D.
      apply in_or_app. right. now left.
    + pose proof (split_join CandidateEndpoints.dot_char filename) as J.
      fold l in J. rewrite D in J.
      destruct (removelast l) as [|x front] eqn:R.
      * left. now rewrite <- J.
      * right. exists (join CandidateEndpoints.dot_char (x :: front)).
        rewrite <- J. apply join_app_last. discriminate.
  - intros (ext & L & Dot & [->|(stem & ->)]).
    + rewrite (file_ext_of_last ext ext).
      * apply orb_true_iff. destruct L as [L|L]; rewrite L; [now left | now right].
      * now rewrite (split_without_sep _ _ Dot).
    + rewrite (file_ext_of_last _ ext).
      * apply orb_true_iff. destruct L as [L|L]; rewrite L; [now left | now right].
      * rewrite split_app_sep, (split_without_sep _ _ Dot).
        unfold CandidateEndpoints.last_item. apply last_last.
Qed.

(** * Totals and the reported sub-scores *)

Lemma rank_tally_recomputed (norm : list Q -> Q) (job : Job)
    (c : CandidateProfile) :
  let t := RankHandler.tally_of norm job c in
  snd t == 0.4 * RankHandler.skills_score (fst t)
           + 0.3 * RankHandler.experience_score (fst t)
           + 0.1 * RankHandler.location_score (fst t).
Proof.
  unfold RankHandler.tally_of, RankHandler.add_location,
    RankHandler.add_experience, RankHandler.add_skills.
  destruct (Py.truthy_list (jd_vector job)
            && Py.truthy_list (resume_vector c));
    destruct (Py.truthy_opt_num (required_experience job)
              && truthy_experience (total_experience c));
    destruct (Py.truthy_str (job_location job)
              && Py.truthy_str (get_location c));
    cbn [fst snd RankHandler.tally0 RankHandler.skills_score
         RankHandler.experience_score RankHandler.location_score
         RankHandler.weights]; ring.
Qed.

(** X19.  The total of every ranked entry can be computed again from the
    three sub-scores it reports: it is 0.4 times the skills score plus 0.3
    times the experience score plus 0.1 times the location score, a
    criterion that was not evaluated counting with its reported 0.0. *)
Theorem rank_total_from_reported_scores :
  forall (norm : list Q -> Q) (db : Session) (id : Z) (min_score : Q)
         (limit : Z) (r : RankHandler.result),
    In r (RankHandler.rank_candidates_for_job norm db id min_score limit) ->
    RankHandler.total_score r
    == 0.4 * RankHandler.skills_score (RankHandler.scores r)
       + 0.3 * RankHandler.experience_score (RankHandler.scores r)
       + 0.1 * RankHandler.location_score (RankHandler.scores r).
Proof.
  intros norm db id min_score limit r H.
  destruct (rank_results_from norm db id min_score limit r H)
    as (job & _ & Hin).
  apply ranked_results_in in Hin. destruct Hin as (c & _ & He).
  apply rank_entry_some in He. destruct He as [_ ->].
  apply (rank_tally_recomputed norm job c).
Qed.

(** X19 at the entry the ranking scenario returns. *)
Lemma rank_total_from_reported_scores_at_office :
  let r := hd {| RankHandler.candidate := Example.newcomer;
                 RankHandler.scores :=
                   {| RankHandler.skills_score := 0;
                      RankHandler.experience_score := 0;
                      RankHandler.location_score := 0 |};
                 RankHandler.total_score := 0 |}
             (RankHandler.rank_candidates_for_job Np.l2norm Example.office
                7 0.5 10) in
  RankHandler.candidate r = Example.experienced
  /\ RankHandler.total_score r
     == 0.4 * RankHandler.skills_score (RankHandler.scores r)
        + 0.3 * RankHandler.experience_score (RankHandler.scores r)
        + 0.1 * RankHandler.location_score (RankHandler.scores r).
Proof.
  cbv zeta. split; [vm_compute; reflexivity|].
  apply (rank_total_from_reported_scores Np.l2norm Example.office 7%Z 0.5 10%Z).
  vm_compute. left. reflexivity.
Defined.

(** * The further properties at concrete inputs *)

(** X3 at two spellings of one location. *)
Lemma location_match_bounds_and_identity_at_austin :
  SearchHandler.calculate_location_match
    (Some "Austin,TX"%string) (Some " austin , tx"%string) == 1.
Proof.
  apply (proj1 (proj2 location_match_bounds_and_identity)
           "A"%char "ustin,TX"%string " "%char "austin , tx"%string).
  vm_compute. reflexivity.
Defined.

(** X5 at a batch whose second vector has one component too few. *)
Lemma skills_similarity_best_of_batch_at_mismatch :
  SearchHandler.calculate_skills_similarity Np.l2norm
    (Some [[1; 0]; [1]]) (Some [1; 0]) = 0.
Proof.
  apply (proj1 (skills_similarity_best_of_batch Np.l2norm
                  [1; 0] [[1]] 1 [0])).
  exists [1]. split; [right; left; reflexivity | discriminate].
Defined.

(** X6 at a job vector with one component too few. *)
Lemma skills_match_symmetric_bounded_at_mismatch :
  RankHandler.calculate_skills_match Np.l2norm (Some [1; 0]) (Some [1]) = 0.
Proof.
  apply (proj2 (proj2 (skills_match_symmetric_bounded Np.l2norm
                         (Some [1; 0]) (Some [1])))
           [1; 0] [1] eq_refl eq_refl).
  left. discriminate.
Defined.

(** X18 at a name with two dots and an upper-case extension. *)
Lemma upload_accepts_pdf_and_docx_at_names :
  CandidateEndpoints.allowed "CV.final.PDF" = true.
Proof.
  apply (proj2 (upload_accepts_pdf_and_docx "CV.final.PDF"%string)).
  exists "PDF"%string. split; [left; reflexivity|]. split.
  - intros [|[|[|i]]]; discriminate.
  - right. exists "CV.final"%string. reflexivity.
Defined.

(** ** The ranges of the scores *)

(** The greatest cosine of the batch: what X5 says of
    [calculate_skills_similarity], for a score [s] equal to it. *)
Lemma best_cosine (norm : list Q -> Q) (q0 : list Q) (qs : list (list Q))
    (x : Q) (v : list Q) (s : Q) :
  s == SearchHandler.calculate_skills_similarity norm
         (Some (q0 :: qs)) (Some (x :: v)) ->
  ((exists q, In q (q0 :: qs) /\ List.length q <> List.length (x :: v)) ->
   s == 0)
  /\ ((forall q, In q (q0 :: qs) -> List.length q = List.length (x :: v)) ->
      (forall q, In q (q0 :: qs) -> usable norm q (x :: v) = true ->
                 cosine_of norm q (x :: v) <= s)
      /\ ((exists q, In q (q0 :: qs) /\ usable norm q (x :: v) = true) ->
          exists q, In q (q0 :: qs) /\ usable norm q (x :: v) = true
                    /\ s == cosine_of norm q (x :: v))
      /\ ((forall q, In q (q0 :: qs) -> usable norm q (x :: v) = false) ->
          s == 0)).
Proof.
  intro E.
  unfold SearchHandler.calculate_skills_similarity in E. split.
  - intro H. now rewrite (similarities_mismatch norm _ _ H) in E.
  - intro H. rewrite (similarities_aligned norm _ _ H) in E.
    set (good := filter (fun q => usable norm q (x :: v)) (q0 :: qs)) in E.
    unfold SearchHandler.max_or_zero in E.
    destruct (Py.max (map (fun q => cosine_of norm q (x :: v)) good))
      as [m|] eqn:M.
    + apply py_max_spec in M. destruct M as [Hm Hall].
      split; [|split].
      * intros q Hq U. rewrite E. apply Hall. apply in_map_iff. exists q.
        split; [reflexivity|]. apply filter_In. now split.
      * intros _. apply in_map_iff in Hm. destruct Hm as (q & Q & Hq).
        apply filter_In in Hq. exists q. split; [tauto|].
        split; [tauto|]. now rewrite Q.
      * intro N. apply in_map_iff in Hm. destruct Hm as (q & _ & Hq).
        apply filter_In in Hq. destruct Hq as [Hq U].
        rewrite (N q Hq) in U. discriminate.
    + assert (G : good = []).
      { destruct good; [reflexivity | discriminate M]. }
      split; [|split].
      * intros q Hq U. exfalso.
        assert (I : In q good) by (apply filter_In; now split).
        rewrite G in I. contradiction.
      * intros (q & Hq & U). exfalso.
        assert (I : In q good) by (apply filter_In; now split).
        rewrite G in I. contradiction.
      * intros _. exact E.
Qed.

(** The bounds of the score of a tally, one for each bound of the skills
    sub-score. *)
Lemma search_tally_bounds (norm : list Q -> Q) (sv : option (list (list Q)))
    (loc : option string) (required : option Q) (c : CandidateProfile) :
  let t := SearchHandler.tally_of norm sv loc required c in
  (Py.or_zero (SearchHandler.t_skills t) <= 1 ->
   SearchHandler.t_score t <= SearchHandler.t_weight t)
  /\ (0 <= Py.or_zero (SearchHandler.t_skills t) ->
      0 <= SearchHandler.t_score t).
Proof.
  pose proof (experience_match_range (total_experience c) required) as E.
  pose proof (location_match_range loc (get_location c)) as L.
  cbv zeta.
  unfold SearchHandler.tally_of, SearchHandler.add_experience,
    SearchHandler.add_location, SearchHandler.add_skills.
  destruct (Py.truthy_list sv && Py.truthy_list (resume_vector c));
    destruct (Py.truthy_str loc && Py.truthy_str (get_location c));
    destruct (Py.truthy_opt_num required
              && not_empty_str (total_experience c));
    cbn [SearchHandler.t_skills SearchHandler.t_score SearchHandler.t_weight
         SearchHandler.tally0 SearchHandler.weights];
    rewrite ?or_zero_some; split; intro S; simpl in *; lra.
Qed.

(** C3, amended.  In every entry of a ranking the skills, experience and
    location sub-scores lie in [0, 1] and the total lies in [0, 0.8], the
    sum of the weights in use.  In every entry of a search the location and
    experience sub-scores lie in [0, 1]; the skills sub-score is 0 when the
    criterion is not applied and otherwise the best cosine of the batch,
    unclamped: 0 when a query vector has another length than the
    candidate's or no query vector has a usable norm, and else the greatest
    of the cosines, attained by one of the query vectors; the normalized
    total is at least the minimum score, at most 1 whenever the skills
    sub-score is, and at least 0 whenever the skills sub-score is. *)
Theorem score_bundle_ranges :
  forall norm : list Q -> Q,
    (forall (db : Session) (id : Z) (min_score : Q) (limit : Z)
            (r : RankHandler.result),
        In r (RankHandler.rank_candidates_for_job norm db id min_score limit)
        -> 0 <= RankHandler.skills_score (RankHandler.scores r) <= 1
           /\ 0 <= RankHandler.experience_score (RankHandler.scores r) <= 1
           /\ 0 <= RankHandler.location_score (RankHandler.scores r) <= 1
           /\ 0 <= RankHandler.total_score r <= 0.8)
    /\ (forall (db : Session) (sv : option (list (list Q)))
               (loc : option string) (required : option Q) (min_score : Q)
               (limit : Z) (r : SearchHandler.result),
          In r (SearchHandler.search_candidates norm db sv loc required
                  min_score limit)
          -> let c := SearchHandler.candidate r in
             let s := SearchHandler.skills_score (SearchHandler.scores r) in
             let total := SearchHandler.total_score (SearchHandler.scores r) in
             0 <= SearchHandler.location_score (SearchHandler.scores r) <= 1
             /\ 0 <= SearchHandler.experience_score (SearchHandler.scores r)
                <= 1
             /\ (SearchSpec.applied sv loc required c Skills = false ->
                 s == 0)
             /\ (forall (q0 : list Q) (qs : list (list Q)) (x : Q)
                        (v : list Q),
                   sv = Some (q0 :: qs) -> resume_vector c = Some (x :: v) ->
                   ((exists q, In q (q0 :: qs)
                               /\ List.length q <> List.length (x :: v)) ->
                    s == 0)
                   /\ ((forall q, In q (q0 :: qs) ->
                                  List.length q = List.length (x :: v)) ->
                       (forall q, In q (q0 :: qs) ->
                                  usable norm q (x :: v) = true ->
                                  cosine_of norm q (x :: v) <= s)
                       /\ ((exists q, In q (q0 :: qs)
                                      /\ usable norm q (x :: v) = true) ->
                           exists q, In q (q0 :: qs)
                                     /\ usable norm q (x :: v) = true
                                     /\ s == cosine_of norm q (x :: v))
                       /\ ((forall q, In q (q0 :: qs) ->
                                      usable norm q (x :: v) = false) ->
                           s == 0)))
             /\ (s <= 1 -> total <= 1)
             /\ (0 <= s -> 0 <= total)
             /\ min_score <= total).
Proof.
  intro norm. split.
  - intros db id min_score limit r H.
    destruct (rank_results_from norm db id min_score limit r H)
      as (job & _ & Hin).
    apply ranked_results_in in Hin. destruct Hin as (c & _ & He).
    apply rank_entry_some in He. destruct He as [_ ->].
    apply (rank_tally_range norm job c).
  - intros db sv loc required min_score limit r H.
    apply search_results_from in H. apply search_results_in in H.
    destruct H as (c & _ & He). apply search_entry_some in He.
    destruct He as (W & M & ->).
    cbn [SearchHandler.candidate SearchHandler.scores
         SearchHandler.location_score SearchHandler.experience_score
         SearchHandler.skills_score SearchHandler.total_score].
    cbv zeta.
    destruct (search_tally_range norm sv loc required c) as (L & E & _).
    destruct (search_tally_bounds norm sv loc required c) as (U & D).
    pose proof (search_tally_scores norm sv loc required c Skills) as K.
    cbv beta iota in K.
    split; [exact L|]. split; [exact E|]. split; [|split; [|split; [|split]]].
    + intro A. rewrite K, A. reflexivity.
    + intros q0 qs x v Hsv Hv. apply best_cosine.
      rewrite K. cbn [SearchSpec.applied SearchSpec.sub_score].
      rewrite Hsv, Hv. cbn [Py.truthy_list andb]. apply or_zero_some.
    + intro S. apply Qle_shift_div_r; [exact W|]. rewrite Qmult_1_l.
      now apply U.
    + intro S. apply Qle_shift_div_l; [exact W|]. rewrite Qmult_0_l.
      now apply D.
    + exact M.
Qed.

(** C3 at the two candidates of the search scenario: both entries have
    their skills sub-score in [0, 1], hence their total too. *)
Lemma score_bundle_ranges_at_scenario :
  Forall (fun r => 0 <= SearchHandler.total_score (SearchHandler.scores r) <= 1)
    (SearchHandler.search_candidates Np.l2norm
       (Example.session [Example.first_empty; Example.second])
       Example.query Example.austin (Some 5) 0.5 10).
Proof.
  apply Forall_forall. intros r H.
  destruct (proj2 (score_bundle_ranges Np.l2norm)
              (Example.session [Example.first_empty; Example.second])
              Example.query Example.austin (Some 5) 0.5 10%Z r H)
    as (_ & _ & _ & _ & U & D & _).
  vm_compute in H.
  destruct H as [<-|[<-|[]]]; (split; [apply D | apply U]); by_evaluation.
Defined.

(** * Properties of the handlers on runtime values *)

(** ** The keys of binary64 values *)

Lemma digits2_pos_bound (m : positive) :
  (Zpos m < 2 ^ Zpos (digits2_pos m))%Z.
Proof.
  induction m as [m IH|m IH|]; cbn [digits2_pos].
  - rewrite Pos2Z.inj_succ, Z.pow_succ_r by lia. lia.
  - rewrite Pos2Z.inj_succ, Z.pow_succ_r by lia. lia.
  - reflexivity.
Qed.

Lemma valid_finite (s : bool) (m : positive) (e : Z) :
  valid_binary (S754_finite s m e) = true ->
  (- 1074 <= e <= 971 /\ Zpos m < 2 ^ 53)%Z.
Proof.
  cbn [SpecFloat.valid_binary]. unfold bounded, canonical_mantissa, fexp.
  rewrite andb_true_iff, Z.eqb_eq, Z.leb_le.
  change (SpecFloat.emin prec emax) with (-1074)%Z.
  change (emax - prec)%Z with 971%Z. change prec with 53%Z.
  intros [C B].
  assert (D : (Zpos (digits2_pos m) <= 53)%Z) by lia.
  split; [lia|].
  apply (Z.lt_le_trans _ _ _ (digits2_pos_bound m)).
  apply Z.pow_le_mono_r; lia.
Qed.

Lemma sf_compare_key (x y : spec_float) :
  valid_binary x = true -> valid_binary y = true ->
  SFcompare x y
  = match sf_key x, sf_key y with
    | Some a, Some b => Some (a ?= b)%Z
    | _, _ => None
    end.
Proof.
  intros Vx Vy.
  destruct x as [sx|sx| |sx mx ex], y as [sy|sy| |sy my ey];
    try reflexivity;
    try (apply valid_finite in Vx; destruct Vx as [Ex Mx]);
    try (apply valid_finite in Vy; destruct Vy as [Ey My]);
    cbn [SFcompare sf_key]; cbv zeta;
    try (destruct sx); try (destruct sy); try reflexivity; f_equal;
    symmetry;
    try (apply Z.compare_lt_iff; lia); try (apply Z.compare_gt_iff; lia).
  - destruct (Z.compare_spec ex ey) as [E|L|G].
    + subst ey. rewrite Pos.compare_cont_spec. cbn [Pos.switch_Eq].
      destruct (Pos.compare_spec mx my) as [E|L|G]; cbn [CompOpp];
        [apply Z.compare_eq_iff | apply Z.compare_gt_iff
        | apply Z.compare_lt_iff]; lia.
    + apply Z.compare_gt_iff. lia.
    + apply Z.compare_lt_iff. lia.
  - destruct (Z.compare_spec ex ey) as [E|L|G].
    + subst ey. rewrite Pos.compare_cont_spec. cbn [Pos.switch_Eq].
      destruct (Pos.compare_spec mx my) as [E|L|G];
        [apply Z.compare_eq_iff | apply Z.compare_lt_iff
        | apply Z.compare_gt_iff]; lia.
    + apply Z.compare_lt_iff. lia.
    + apply Z.compare_gt_iff. lia.
Qed.

Lemma leb_key (x y : float) :
  (x <=? y)%float
  = match fkey x, fkey y with
    | Some a, Some b => (a <=? b)%Z
    | _, _ => false
    end.
Proof.
  rewrite FloatAxioms.leb_spec. unfold SFleb, fkey.
  rewrite (sf_compare_key _ _ (Prim2SF_valid x) (Prim2SF_valid y)).
  destruct (sf_key (Prim2SF x)) as [a|], (sf_key (Prim2SF y)) as [b|];
    reflexivity.
Qed.

Lemma ltb_key (x y : float) :
  (x <? y)%float
  = match fkey x, fkey y with
    | Some a, Some b => (a <? b)%Z
    | _, _ => false
    end.
Proof.
  rewrite FloatAxioms.ltb_spec. unfold SFltb, fkey.
  rewrite (sf_compare_key _ _ (Prim2SF_valid x) (Prim2SF_valid y)).
  destruct (sf_key (Prim2SF x)) as [a|], (sf_key (Prim2SF y)) as [b|];
    reflexivity.
Qed.

Lemma eqb_key (x y : float) :
  (x =? y)%float
  = match fkey x, fkey y with
    | Some a, Some b => (a =? b)%Z
    | _, _ => false
    end.
Proof.
  rewrite FloatAxioms.eqb_spec. unfold SFeqb, fkey.
  rewrite (sf_compare_key _ _ (Prim2SF_valid x) (Prim2SF_valid y)).
  destruct (sf_key (Prim2SF x)) as [a|], (sf_key (Prim2SF y)) as [b|];
    try reflexivity.
  destruct (Z.compare_spec a b) as [E|L|G].
  - subst b. now rewrite Z.eqb_refl.
  - symmetry. apply Z.eqb_neq. lia.
  - symmetry. apply Z.eqb_neq. lia.
Qed.

Lemma abs_key (x : float) : fkey (abs x) = option_map Z.abs (fkey x).
Proof.
  unfold fkey. rewrite FloatAxioms.abs_spec. pose proof (Prim2SF_valid x) as V.
  destruct (Prim2SF x) as [s|s| |s m e]; try reflexivity.
  - destruct s; reflexivity.
  - apply valid_finite in V. cbn [SFabs sf_key option_map]. cbv zeta.
    f_equal. destruct s; lia.
Qed.

Lemma sub_equal_key (x y : float) (k : Z) :
  fkey x = Some k -> fkey y = Some k -> finite_key k ->
  fkey (x - y) = Some 0%Z.
Proof.
  unfold fkey, finite_key. rewrite FloatAxioms.sub_spec.
  pose proof (Prim2SF_valid x) as Vx. pose proof (Prim2SF_valid y) as Vy.
  destruct (Prim2SF x) as [sx|sx| |sx mx ex], (Prim2SF y) as [sy|sy| |sy my ey];
    cbn [sf_key]; cbv zeta; intros Hx Hy F;
    try discriminate Hx; try discriminate Hy;
    injection Hx as Hx; injection Hy as Hy;
    try (apply valid_finite in Vx; destruct Vx as [Ex Mx]);
    try (apply valid_finite in Vy; destruct Vy as [Ey My]);
    try (destruct sx; lia); try (destruct sy; lia).
  - destruct sx, sy; reflexivity.
  - assert (S : sx = sy) by (destruct sx, sy; try reflexivity; lia).
    subst sy.
    assert (E : ex = ey) by (destruct sx; lia). subst ey.
    assert (M : mx = my) by (destruct sx; lia). subst my.
    unfold SF64sub, SFsub. cbv zeta. rewrite Z.sub_diag. reflexivity.
Qed.

Section RuntimeOrder.
Local Open Scope float_scope.

(** ** The order of the floats *)

Lemma key_range (x : float) (k : Z) :
  fkey x = Some k -> (- 2 ^ 64 <= k <= 2 ^ 64)%Z.
Proof.
  unfold fkey. pose proof (Prim2SF_valid x) as V.
  destruct (Prim2SF x) as [s|s| |s m e]; cbn [sf_key]; cbv zeta;
    intro H; try discriminate H; injection H as <-.
  - lia.
  - destruct s; lia.
  - apply valid_finite in V. destruct s; lia.
Qed.

Lemma is_finite_key (x : float) :
  is_finite x = true -> exists k, fkey x = Some k /\ finite_key k.
Proof.
  unfold is_finite, is_nan, is_infinity.
  rewrite negb_true_iff, orb_false_iff, negb_false_iff.
  rewrite !eqb_key, abs_key. intros [N I].
  destruct (fkey x) as [k|] eqn:K; [|discriminate N].
  exists k. split; [reflexivity|].
  cbn [option_map] in I.
  change (fkey infinity) with (Some (2 ^ 64)%Z) in I.
  apply Z.eqb_neq in I. apply key_range in K. unfold finite_key. lia.
Qed.

End RuntimeOrder.

(** Replaces the key of a constant by its value. *)
Ltac key_of c :=
  let v := eval vm_compute in (fkey c) in change (fkey c) with v in *.

(** Turns the comparisons of floats among the hypotheses and in the goal
    into comparisons of integers. *)
Ltac float_order :=
  rewrite ?leb_key, ?ltb_key, ?eqb_key, ?abs_key in *;
  key_of 0%float; key_of 1%float; key_of 2%float; key_of 3%float;
  key_of 4%float; key_of 0.1%float; key_of 0.3%float; key_of 0.5%float;
  key_of 0.7%float; key_of 0.9%float.

Section Experience.
Local Open Scope float_scope.

(** The chain of tests of [calculate_experience_match] on a difference. *)
Lemma runtime_experience_gap (x y : float) :
  Runtime.SearchHandler.calculate_experience_match (Runtime.ExpYears x) (Some y)
  = (let d := abs (x - y) in
     if d =? 0 then 1.0 else if d <=? 1 then 0.9 else if d <=? 2 then 0.7
     else if d <=? 3 then 0.5 else if d <=? 4 then 0.3 else 0.1).
Proof. reflexivity. Qed.

Lemma runtime_rank_experience_same (e : Runtime.experience_value)
    (r : option float) :
  Runtime.RankHandler.calculate_experience_match e r
  = Runtime.SearchHandler.calculate_experience_match e r.
Proof. destruct e, r; reflexivity. Qed.

(** C4.  For present years [x] and [y] the experience score of both
    handlers is the step function of the difference [d = abs (x - y)] that
    binary64 arithmetic gives: 1.0 at [d = 0], 0.9 up to 1, 0.7 up to 2, 0.5
    up to 3, 0.3 up to 4 and 0.1 beyond.  It is 1.0 when [x] and [y] are
    equal and finite, does not increase when [d] grows, never falls below
    0.1, and is 0 as soon as one of the two values is absent.  The steps are
    those of the rounded difference: 2.2 against 1.2 differ by
    1.0000000000000002 and score 0.7, while 1.01 against 0.01 differ by
    exactly 1.0 and score 0.9. *)
Theorem experience_match_step_function :
  (forall x y : float,
     let d := abs (x - y) in
     let s := Runtime.SearchHandler.calculate_experience_match
                (Runtime.ExpYears x) (Some y) in
     Runtime.RankHandler.calculate_experience_match
       (Runtime.ExpYears x) (Some y) = s
     /\ ((d =? 0) = true -> s = 1.0)
     /\ ((0 <? d) = true -> (d <=? 1) = true -> s = 0.9)
     /\ ((1 <? d) = true -> (d <=? 2) = true -> s = 0.7)
     /\ ((2 <? d) = true -> (d <=? 3) = true -> s = 0.5)
     /\ ((3 <? d) = true -> (d <=? 4) = true -> s = 0.3)
     /\ ((4 <? d) = true -> s = 0.1)
     /\ ((x =? y) = true -> is_finite x = true -> s = 1.0)
     /\ (0.1 <=? s) = true)
  /\ (forall x y x' y' : float,
        (abs (x - y) <=? abs (x' - y')) = true ->
        (Runtime.SearchHandler.calculate_experience_match
           (Runtime.ExpYears x') (Some y')
         <=? Runtime.SearchHandler.calculate_experience_match
               (Runtime.ExpYears x) (Some y)) = true)
  /\ (forall (e : Runtime.experience_value) (r : option float),
        Runtime.SearchHandler.calculate_experience_match Runtime.ExpNone r = 0
        /\ Runtime.SearchHandler.calculate_experience_match e None = 0
        /\ Runtime.RankHandler.calculate_experience_match Runtime.ExpNone r = 0
        /\ Runtime.RankHandler.calculate_experience_match e None = 0)
  /\ (abs (2.2 - 1.2) = 1.0000000000000002
      /\ Runtime.SearchHandler.calculate_experience_match
           (Runtime.ExpYears 2.2) (Some 1.2) = 0.7
      /\ abs (1.01 - 0.01) = 1.0
      /\ Runtime.SearchHandler.calculate_experience_match
           (Runtime.ExpYears 1.01) (Some 0.01) = 0.9).
Proof.
  split; [|split; [|split]].
  - intros x y d s. subst s. rewrite runtime_rank_experience_same.
    rewrite runtime_experience_gap. cbv zeta. fold d.
    split; [reflexivity|].
    assert (E : (x =? y) = true -> is_finite x = true -> (d =? 0) = true).
    { intros Q F. apply is_finite_key in F. destruct F as (k & K & F).
      rewrite eqb_key, K in Q.
      destruct (fkey y) as [k'|] eqn:K'; [|discriminate Q].
      apply Z.eqb_eq in Q. subst k'.
      unfold d. rewrite eqb_key, abs_key, (sub_equal_key x y k K K' F).
      reflexivity. }
    destruct (d =? 0) eqn:D0; [|destruct (d <=? 1) eqn:D1;
      [|destruct (d <=? 2) eqn:D2; [|destruct (d <=? 3) eqn:D3;
      [|destruct (d <=? 4) eqn:D4]]]];
      (repeat split; intros; try reflexivity;
       try (exfalso;
            first [ discriminate
                  | match goal with
                    | H : is_finite _ = true |- _ =>
                        specialize (E ltac:(assumption) H); discriminate E
                    end
                  | float_order; destruct (fkey d); try discriminate; lia ])).
  - intros x y x' y' H. rewrite !runtime_experience_gap. cbv zeta.
    generalize dependent (x - y). generalize dependent (x' - y').
    intros g2 g1 H.
    destruct (abs g1 =? 0) eqn:A0; [|destruct (abs g1 <=? 1) eqn:A1;
      [|destruct (abs g1 <=? 2) eqn:A2; [|destruct (abs g1 <=? 3) eqn:A3;
      [|destruct (abs g1 <=? 4) eqn:A4]]]];
      (destruct (abs g2 =? 0) eqn:B0; [|destruct (abs g2 <=? 1) eqn:B1;
         [|destruct (abs g2 <=? 2) eqn:B2; [|destruct (abs g2 <=? 3) eqn:B3;
         [|destruct (abs g2 <=? 4) eqn:B4]]]]);
      try reflexivity; exfalso; float_order;
      destruct (fkey g1), (fkey g2); cbn [option_map] in *;
      try discriminate; lia.
  - intros e r. repeat split; destruct e; try destruct r; reflexivity.
  - repeat split; vm_compute; reflexivity.
Qed.

End Experience.

(** ** The location match on runtime values *)

Section RuntimeLocation.
Local Open Scope float_scope.
Import Runtime.

Lemma rt_eqb_eq (a b : str) : Py.eqb a b = true <-> a = b.
Proof.
  revert b. induction a as [|x a IH]; intros [|y b]; simpl;
    try (split; [reflexivity || discriminate | reflexivity || discriminate]).
  rewrite andb_true_iff, N.eqb_eq, IH. split.
  - intros [-> ->]. reflexivity.
  - intro H. injection H as -> ->. now split.
Qed.

Lemma rt_prefix_app (a b : str) :
  Py.prefix a b = true <-> exists post, b = a ++ post.
Proof.
  revert b. induction a as [|x a IH]; intro b.
  - split; [intros _; now exists b | intros _; destruct b; reflexivity].
  - destruct b as [|y b]; simpl.
    + split; [discriminate | intros (post & H); discriminate H].
    + rewrite andb_true_iff, N.eqb_eq, IH. split.
      * intros [-> (post & ->)]. now exists post.
      * intros (post & H). injection H as -> ->. split; [reflexivity|].
        now exists post.
Qed.

Lemma rt_contains_substring (a b : str) :
  Py.contains a b = true <-> Spec.Substring a b.
Proof.
  induction b as [|y b IH].
  - destruct a as [|x a]; simpl.
    + split; [intros _; now exists [], [] | reflexivity].
    + split; [discriminate | intros ([|z pre] & post & H); discriminate H].
  - change (Py.contains a (y :: b))
      with (Py.prefix a (y :: b) || Py.contains a b).
    rewrite orb_true_iff, rt_prefix_app, IH. split.
    + intros [(post & H)|(pre & post & H)].
      * now exists [], post.
      * exists (y :: pre), post. simpl. now rewrite H.
    + intros ([|z pre] & post & H).
      * left. now exists post.
      * right. simpl in H. injection H as _ H. now exists pre, post.
Qed.

Lemma rt_filter_seq_succ (f : nat -> bool) (n : nat) :
  List.length (filter f (seq 1 n))
  = List.length (filter (fun i => f (S i)) (seq 0 n)).
Proof.
  rewrite <- seq_shift. generalize (seq 0 n) as l.
  induction l as [|i l IH]; [reflexivity|]. simpl.
  destruct (f (S i)); simpl; now rewrite IH.
Qed.

Lemma rt_zip_matches_positional (a b : str) :
  Py.zip_matches a b = Spec.positional_matches a b.
Proof.
  unfold Spec.positional_matches. revert b.
  induction a as [|x a IH]; intro b; [reflexivity|].
  destruct b as [|y b]; [reflexivity|].
  cbn [Py.zip_matches List.length Nat.min seq filter nth_error].
  rewrite IH.
  destruct (x =? y)%N; cbn [List.length]; rewrite rt_filter_seq_succ;
    reflexivity.
Qed.

Lemma rt_zip_matches_comm (a b : str) :
  Py.zip_matches a b = Py.zip_matches b a.
Proof.
  revert b. induction a as [|x a IH]; intros [|y b]; try reflexivity.
  simpl. now rewrite IH, N.eqb_sym.
Qed.

Lemma rt_part_similarity_cases (q c : str) :
  (q = c -> SearchHandler.part_similarity q c = 1.0)
  /\ (q <> c -> Spec.Substring q c \/ Spec.Substring c q ->
      SearchHandler.part_similarity q c = 0.9)
  /\ (q <> c -> ~ Spec.Substring q c -> ~ Spec.Substring c q ->
      SearchHandler.part_similarity q c
      = Py.of_nat (Spec.positional_matches q c)
        / Py.of_nat (Nat.max (List.length q) (List.length c))).
Proof.
  unfold SearchHandler.part_similarity. split; [|split].
  - intro E. apply rt_eqb_eq in E. now rewrite E.
  - intros N S.
    assert (N' : Py.eqb q c = false)
      by (apply not_true_is_false; now rewrite rt_eqb_eq).
    rewrite N'.
    assert (E : Py.contains q c || Py.contains c q = true).
    { apply orb_true_iff. now rewrite !rt_contains_substring. }
    now rewrite E.
  - intros N S1 S2.
    assert (N' : Py.eqb q c = false)
      by (apply not_true_is_false; now rewrite rt_eqb_eq).
    rewrite N'.
    assert (E : Py.contains q c || Py.contains c q = false).
    { apply orb_false_iff. split; apply not_true_is_false;
        now rewrite rt_contains_substring. }
    rewrite E.
    destruct (List.length q <=? List.length c)%nat eqn:L.
    + apply Nat.leb_le in L.
      destruct (List.length c =? 0)%nat eqn:Z0.
      * apply Nat.eqb_eq in Z0. exfalso. apply N.
        destruct q, c; simpl in *; try reflexivity; lia.
      * rewrite rt_zip_matches_positional. now rewrite (Nat.max_r _ _ L).
    + apply Nat.leb_gt in L.
      destruct (List.length q =? 0)%nat eqn:Z0.
      * apply Nat.eqb_eq in Z0. lia.
      * rewrite rt_zip_matches_comm, rt_zip_matches_positional.
        rewrite Nat.max_l by lia. reflexivity.
Qed.

Lemma rt_split_not_nil (sep : N) (s : str) : Py.split sep s <> [].
Proof.
  induction s as [|c s IH]; simpl; [discriminate|].
  destruct (c =? sep)%N; [discriminate|].
  destruct (Py.split sep s); discriminate.
Qed.

Lemma rt_split_join (sep : N) (s : str) :
  Spec.join sep (Py.split sep s) = s.
Proof.
  induction s as [|c s IH]; [reflexivity|]. simpl.
  destruct (c =? sep)%N eqn:E.
  - apply N.eqb_eq in E. subst c.
    pose proof (rt_split_not_nil sep s) as N.
    destruct (Py.split sep s) as [|h t]; [congruence|].
    cbn [Spec.join app]. cbn [Spec.join] in IH. now rewrite IH.
  - pose proof (rt_split_not_nil sep s) as N.
    destruct (Py.split sep s) as [|h t]; [congruence|].
    destruct t as [|h' t]; cbn [Spec.join app] in *; now rewrite IH.
Qed.

Lemma rt_split_parts_without_sep (sep : N) (s : str) :
  Forall (fun p => ~ In sep p) (Py.split sep s).
Proof.
  induction s as [|c s IH]; simpl.
  - constructor; [intros [] | constructor].
  - destruct (c =? sep)%N eqn:E.
    + constructor; [intros [] | exact IH].
    + apply N.eqb_neq in E.
      destruct (Py.split sep s) as [|h t];
        [constructor; [|constructor]|].
      * intros [H|[]]. congruence.
      * inversion IH as [|? ? Hh Ht]; subst. constructor; [|exact Ht].
        intros [H|H]; [congruence | now apply Hh].
Qed.

Section StripSpec.
Variable py : Interpreter.

Lemma rt_lstrip_spec (s : str) :
  (exists pre, s = pre ++ Py.lstrip py s /\ forallb (str_isspace py) pre = true)
  /\ (forall c, hd_error (Py.lstrip py s) = Some c -> str_isspace py c = false).
Proof.
  induction s as [|c s [(pre & E & A) F]]; simpl.
  - split; [now exists [] | discriminate].
  - destruct (str_isspace py c) eqn:S.
    + split; [|exact F]. exists (c :: pre). simpl.
      rewrite S, A. now rewrite <- E.
    + split; [now exists []|].
      simpl. intros c' H. now injection H as <-.
Qed.

Lemma rt_rstrip_spec (s : str) :
  (exists post, s = Py.rstrip py s ++ post
                /\ forallb (str_isspace py) post = true)
  /\ (forall c, Spec.last_char (Py.rstrip py s) = Some c ->
                str_isspace py c = false).
Proof.
  induction s as [|c s [(post & E & A) F]]; simpl.
  - split; [now exists [] | discriminate].
  - destruct (Py.rstrip py s) as [|d r] eqn:R.
    + simpl in E. subst post. destruct (str_isspace py c) eqn:S.
      * split; [|discriminate]. exists (c :: s). simpl. now rewrite S, A.
      * split; [now exists s|]. simpl. intros c' H. now injection H as <-.
    + split; [|exact F]. exists post. split; [|exact A].
      simpl. simpl in E. now rewrite <- E.
Qed.

Lemma rt_rstrip_hd_inv (s : str) (c : N) :
  hd_error (Py.rstrip py s) = Some c -> hd_error s = Some c.
Proof.
  destruct s as [|d s]; simpl; [discriminate|].
  destruct (Py.rstrip py s); [destruct (str_isspace py d)|]; simpl; congruence.
Qed.

(** [strip] removes white space at both ends, and nothing else. *)
Lemma rt_strip_spec (s : str) :
  (exists pre post,
      s = pre ++ Py.strip py s ++ post
      /\ forallb (str_isspace py) pre = true
      /\ forallb (str_isspace py) post = true)
  /\ Spec.trimmed py (Py.strip py s).
Proof.
  unfold Py.strip.
  destruct (rt_lstrip_spec s) as [(pre & E & A) F].
  destruct (rt_rstrip_spec (Py.lstrip py s)) as [(post & E' & A') L].
  split.
  - exists pre, post. split; [|now split]. now rewrite <- E', <- E.
  - split; [|exact L]. intros c H. apply F.
    now apply rt_rstrip_hd_inv.
Qed.

End StripSpec.

End RuntimeLocation.

Section RuntimeLocationMatch.
Local Open Scope float_scope.
Import Runtime.

Lemma rt_fold_max_spec (xs : list float) (x : float) :
  let m := fold_left (fun m y => if m <? y then y else m) xs x in
  (m = x \/ In m xs)
  /\ (m <? x) = false
  /\ (forall y, In y xs -> (m <? y) = false)
  /\ (fkey x = None -> fkey m = None).
Proof.
  revert x. induction xs as [|y xs IH]; intro x; cbn [fold_left]; cbv zeta.
  - split; [now left|]. split; [|split; [intros y []|tauto]].
    rewrite ltb_key. destruct (fkey x); [apply Z.ltb_irrefl | reflexivity].
  - destruct (x <? y) eqn:E.
    + destruct (IH y) as (A & B & C & D). split; [|split; [|split]].
      * right. destruct A as [A|A]; [left; now symmetry | now right].
      * rewrite ltb_key in *.
        destruct (fkey x), (fkey y),
          (fkey (fold_left (fun m y0 => if m <? y0 then y0 else m) xs y));
          try discriminate; try reflexivity; lia.
      * intros z [<-|Hz]; [exact B | now apply C].
      * intro N. rewrite ltb_key, N in E. discriminate E.
    + destruct (IH x) as (A & B & C & D). split; [|split; [|split]].
      * destruct A as [A|A]; [now left | right; now right].
      * exact B.
      * intros z [<-|Hz]; [|now apply C].
        rewrite ltb_key in *.
        destruct (fkey x);
          [|rewrite (D eq_refl); reflexivity].
        destruct (fkey y),
          (fkey (fold_left (fun m y0 => if m <? y0 then y0 else m) xs x));
          try discriminate; try reflexivity; lia.
      * exact D.
Qed.

(** [max(l)] is an item of [l], and no item is strictly greater. *)
Lemma rt_max_spec (l : list float) (m : float) :
  Py.max l = Some m -> In m l /\ forall y, In y l -> (m <? y) = false.
Proof.
  destruct l as [|x xs]; simpl; [discriminate|].
  intro H. injection H as <-.
  destruct (rt_fold_max_spec xs x) as (A & B & C & _). split.
  - destruct A as [A|A]; [left; now symmetry | now right].
  - intros y [<-|Hy]; [exact B | now apply C].
Qed.

Lemma rt_parts_not_nil (py : Interpreter) (s : str) : SearchHandler.parts py s <> [].
Proof.
  unfold SearchHandler.parts. intro H. apply map_eq_nil in H.
  now apply rt_split_not_nil in H.
Qed.

(** *** ASCII text *)

Lemma rt_is_ascii_split (sep : N) (s : str) :
  Spec.is_ascii s = true ->
  Forall (fun p => Spec.is_ascii p = true) (Py.split sep s).
Proof.
  induction s as [|c s IH]; simpl.
  - intros _. now constructor.
  - rewrite andb_true_iff. intros [C S]. specialize (IH S).
    destruct (c =? sep)%N; [now constructor|].
    destruct (Py.split sep s) as [|h t]; [now repeat constructor; simpl; rewrite C|].
    inversion IH as [|? ? Hh Ht]; subst. constructor; [|exact Ht].
    simpl. now rewrite C, Hh.
Qed.

Section Agreement.
Variable py : Interpreter.
Hypothesis faithful : Spec.conforming py.

Lemma rt_lstrip_ascii (s : str) :
  Spec.is_ascii s = true ->
  Py.lstrip py s = Py.lstrip Example.ascii_only s
  /\ Spec.is_ascii (Py.lstrip py s) = true.
Proof.
  induction s as [|c s IH]; simpl; [now split|].
  rewrite andb_true_iff. intros [C S].
  rewrite (proj1 (proj2 faithful) c) by now apply N.ltb_lt.
  destruct (Spec.ascii_space c); [now apply IH|].
  split; [reflexivity|]. simpl. now rewrite C, S.
Qed.

Lemma rt_rstrip_ascii (s : str) :
  Spec.is_ascii s = true ->
  Py.rstrip py s = Py.rstrip Example.ascii_only s
  /\ Spec.is_ascii (Py.rstrip py s) = true.
Proof.
  induction s as [|c s IH]; simpl; [now split|].
  rewrite andb_true_iff. intros [C S].
  destruct (IH S) as [E A]. rewrite <- E.
  rewrite (proj1 (proj2 faithful) c) by now apply N.ltb_lt.
  destruct (Py.rstrip py s) as [|d r].
  - destruct (Spec.ascii_space c); split; try reflexivity.
    simpl. now rewrite C.
  - split; [reflexivity|]. simpl in *. now rewrite C, A.
Qed.

Lemma rt_parts_ascii (s : str) :
  Spec.is_ascii s = true ->
  SearchHandler.parts py s = SearchHandler.parts Example.ascii_only s.
Proof.
  intro A. unfold SearchHandler.parts.
  pose proof (rt_is_ascii_split Py.comma s A) as F.
  induction F as [|p ps Hp _ IH]; [reflexivity|].
  cbn [map]. rewrite IH. f_equal. unfold Py.strip.
  destruct (rt_lstrip_ascii p Hp) as [E1 A1].
  destruct (rt_rstrip_ascii (Py.lstrip py p) A1) as [E2 A2].
  rewrite (proj1 faithful _ A2). cbn [str_lower Example.ascii_only].
  now rewrite E2, E1.
Qed.

(** On an ASCII query of at most two segments and an ASCII candidate the
    location score does not depend on the interpreter. *)
Lemma rt_location_match_ascii (q c : str) :
  Spec.is_ascii q = true -> Spec.is_ascii c = true ->
  (List.length (SearchHandler.parts Example.ascii_only q) <= 2)%nat ->
  SearchHandler.calculate_location_match py (Some q) (Some c)
  = SearchHandler.calculate_location_match Example.ascii_only
      (Some q) (Some c).
Proof.
  intros Q C L. unfold SearchHandler.calculate_location_match.
  destruct q as [|a q]; [reflexivity|]. destruct c as [|b c]; [reflexivity|].
  rewrite (rt_parts_ascii _ Q), (rt_parts_ascii _ C).
  cbv zeta. rewrite (proj2 (proj2 faithful)) by now rewrite length_map.
  reflexivity.
Qed.

End Agreement.

(** C5.  The location match splits both strings on the commas and trims
    and lowercases the segments with [str.strip] and [str.lower]; a pair of
    segments scores 1.0 when equal, 0.9 when one occurs in the other, and
    otherwise the number of positions (from index 0) holding equal
    characters divided by the length of the longer segment; every query
    segment keeps its greatest score over the candidate segments, and the
    result is [sum] of these divided by their number; it is 0 when a string
    is missing or empty.  On ASCII text, where the Unicode tables of every
    interpreter agree, "  New York ,NY, usa " has the segments "new york",
    "ny" and "usa"; and on ASCII queries of at most two segments, where
    [sum] is the same in every interpreter, "Austin, TX" against itself
    gives 1.0, the empty query gives 0, "Austin" against "Austn" gives
    4/6, strictly between 0 and 1; " AUSTIN ,  tx" against "austin,TX "
    gives 1.0, and "Austin, TX" against "AUSTIN" gives 0.5. *)
Theorem location_match_algorithm :
  forall py : Interpreter,
    (forall s : str,
        SearchHandler.parts py s
        = map (fun p => str_lower py (Py.strip py p)) (Py.split Py.comma s)
        /\ Spec.join Py.comma (Py.split Py.comma s) = s
        /\ Forall (fun p => ~ In Py.comma p) (Py.split Py.comma s)
        /\ (exists pre post,
              s = pre ++ Py.strip py s ++ post
              /\ forallb (str_isspace py) pre = true
              /\ forallb (str_isspace py) post = true)
        /\ Spec.trimmed py (Py.strip py s))
    /\ (forall q c : str,
          (q = c -> SearchHandler.part_similarity q c = 1.0)
          /\ (q <> c -> Spec.Substring q c \/ Spec.Substring c q ->
              SearchHandler.part_similarity q c = 0.9)
          /\ (q <> c -> ~ Spec.Substring q c -> ~ Spec.Substring c q ->
              SearchHandler.part_similarity q c
              = Py.of_nat (Spec.positional_matches q c)
                / Py.of_nat (Nat.max (List.length q) (List.length c))))
    /\ (forall (a : N) (q : str) (b : N) (c : str),
          let query_parts := SearchHandler.parts py (a :: q) in
          let candidate_parts := SearchHandler.parts py (b :: c) in
          exists maxima : list float,
            Forall2
              (fun p m =>
                 In m (map (SearchHandler.part_similarity p) candidate_parts)
                 /\ forall x,
                      In x (map (SearchHandler.part_similarity p)
                              candidate_parts)
                      -> (m <? x) = false)
              query_parts maxima
            /\ SearchHandler.calculate_location_match py
                 (Some (a :: q)) (Some (b :: c))
               = float_sum py maxima
                 / Py.of_nat (List.length query_parts))
    /\ (forall c : option str,
          SearchHandler.calculate_location_match py None c = 0
          /\ SearchHandler.calculate_location_match py (Some []) c = 0
          /\ SearchHandler.calculate_location_match py c None = 0
          /\ SearchHandler.calculate_location_match py c (Some []) = 0)
    /\ (Spec.conforming py ->
        SearchHandler.parts py (text "  New York ,NY, usa ")
        = [text "new york"; text "ny"; text "usa"]
        /\ SearchHandler.calculate_location_match py
             (Some (text "Austin, TX")) (Some (text "Austin, TX")) = 1.0
        /\ SearchHandler.calculate_location_match py
             (Some (text "")) (Some (text "Austin")) = 0
        /\ SearchHandler.calculate_location_match py
             (Some (text "Austin")) (Some (text "Austn"))
           = Py.of_nat 4 / Py.of_nat 6
        /\ (0 <? Py.of_nat 4 / Py.of_nat 6) = true
        /\ (Py.of_nat 4 / Py.of_nat 6 <? 1) = true
        /\ SearchHandler.calculate_location_match py
             (Some (text " AUSTIN ,  tx")) (Some (text "austin,TX ")) = 1.0
        /\ SearchHandler.calculate_location_match py
             (Some (text "Austin, TX")) (Some (text "AUSTIN")) = 0.5).
Proof.
  intro py. split; [|split; [|split; [|split]]].
  - intro s. split; [reflexivity|]. split; [apply rt_split_join|].
    split; [apply rt_split_parts_without_sep | apply rt_strip_spec].
  - apply rt_part_similarity_cases.
  - intros a q b c query_parts candidate_parts.
    exists (map (fun p => SearchHandler.max_or_zero
                            (map (SearchHandler.part_similarity p)
                                 candidate_parts)) query_parts).
    split; [|reflexivity].
    assert (N : candidate_parts <> []) by apply rt_parts_not_nil.
    induction query_parts as [|p ps IH]; simpl; constructor; [|exact IH].
    unfold SearchHandler.max_or_zero.
    destruct (Py.max (map (SearchHandler.part_similarity p) candidate_parts))
      as [m|] eqn:E.
    + now apply rt_max_spec.
    + destruct candidate_parts; [congruence | discriminate E].
  - intro c. repeat split; destruct c as [[|? ?]|]; reflexivity.
  - intro F. split; [rewrite (rt_parts_ascii py F) by reflexivity; reflexivity|].
    repeat split;
      try (rewrite (rt_location_match_ascii py F)
             by first [reflexivity | vm_compute; lia]);
      vm_compute; reflexivity.
Qed.

End RuntimeLocationMatch.

(** ** Sorting by decreasing key, and slicing, on runtime values *)

Section RuntimeSort.
Local Open Scope float_scope.
Import Runtime.
Context {A : Type} (key : A -> float).

(** The key is a number: it compares with every other number. *)
Let number (a : A) : Prop := fkey (key a) <> None.

Lemma rt_insert_desc_perm (x : A) (l : list A) :
  Permutation (Py.insert_desc key x l) (x :: l).
Proof.
  induction l as [|y l IH]; simpl; [reflexivity|].
  destruct (key x <? key y); [|reflexivity].
  rewrite IH. apply perm_swap.
Qed.

Lemma rt_sorted_reverse_perm (l : list A) :
  Permutation (Py.sorted_reverse key l) l.
Proof.
  induction l as [|x l IH]; simpl; [reflexivity|].
  rewrite rt_insert_desc_perm. now constructor.
Qed.

Lemma rt_insert_desc_sorted (x : A) (l : list A) :
  number x -> Forall number l ->
  StronglySorted (Spec.desc key) l ->
  StronglySorted (Spec.desc key) (Py.insert_desc key x l).
Proof.
  intros Nx Nl S. induction S as [|y l S IH F]; simpl.
  - repeat constructor.
  - inversion Nl as [|? ? Ny Nl']; subst.
    destruct (key x <? key y) eqn:E.
    + constructor; [now apply IH|].
      assert (P : Forall (Spec.desc key y) (x :: l)).
      { constructor; [|exact F]. unfold Spec.desc.
        rewrite ltb_key in E. rewrite leb_key.
        destruct (fkey (key x)), (fkey (key y)); try discriminate. lia. }
      rewrite Forall_forall in *. intros b Hb. apply P.
      eapply Permutation_in; [apply rt_insert_desc_perm | exact Hb].
    + constructor; [now constructor|].
      assert (D : Spec.desc key x y).
      { unfold Spec.desc, number in *. rewrite ltb_key in E.
        rewrite leb_key.
        destruct (fkey (key x)), (fkey (key y)); try congruence. lia. }
      constructor; [exact D|].
      eapply Forall_impl; [|exact F]. intros b Hb. unfold Spec.desc in *.
      rewrite leb_key in *.
      destruct (fkey (key x)), (fkey (key y)), (fkey (key b));
        try discriminate. lia.
Qed.

Lemma rt_sorted_reverse_sorted (l : list A) :
  Forall number l -> StronglySorted (Spec.desc key) (Py.sorted_reverse key l).
Proof.
  induction 1 as [|x l Nx Nl IH]; simpl; [constructor|].
  apply rt_insert_desc_sorted; [exact Nx | | exact IH].
  rewrite Forall_forall in *. intros a Ha. apply Nl.
  eapply Permutation_in; [apply rt_sorted_reverse_perm | exact Ha].
Qed.

(** Stability: when [x] goes in, everything it passes has a strictly
    greater key. *)
Lemma rt_insert_desc_stable (k : float) (x : A) (l : list A) :
  filter (fun a => key a =? k) (Py.insert_desc key x l)
  = filter (fun a => key a =? k) (x :: l).
Proof.
  induction l as [|y l IH]; [reflexivity|].
  cbn [Py.insert_desc].
  destruct (key x <? key y) eqn:E; [|reflexivity].
  cbn [filter] in *. rewrite IH.
  destruct (key x =? k) eqn:Ex; [|reflexivity].
  destruct (key y =? k) eqn:Ey; [|reflexivity].
  exfalso. rewrite ltb_key in E. rewrite eqb_key in Ex, Ey.
  destruct (fkey (key x)), (fkey (key y)), (fkey k); try discriminate. lia.
Qed.

Lemma rt_sorted_reverse_stable (k : float) (l : list A) :
  filter (fun a => key a =? k) (Py.sorted_reverse key l)
  = filter (fun a => key a =? k) l.
Proof.
  induction l as [|x l IH]; [reflexivity|].
  cbn [Py.sorted_reverse fold_right].
  rewrite rt_insert_desc_stable. cbn [filter].
  fold (Py.sorted_reverse key l). now rewrite IH.
Qed.

Lemma rt_slice_to_prefix (l : list A) (n : Z) :
  exists rest, l = Py.slice_to l n ++ rest.
Proof.
  unfold Py.slice_to.
  destruct (0 <=? n)%Z; eexists; symmetry; apply firstn_skipn.
Qed.

Lemma rt_slice_to_length (l : list A) (n : Z) :
  List.length (Py.slice_to l n) = Spec.slice_length (List.length l) n.
Proof.
  unfold Py.slice_to, Spec.slice_length.
  destruct (0 <=? n)%Z; rewrite length_firstn; lia.
Qed.

(** What [sorted(l, key, reverse=True)[:n]] guarantees when every key is a
    number. *)
Lemma rt_top_spec (l : list A) (n : Z) :
  Forall number l ->
  let top := Py.slice_to (Py.sorted_reverse key l) n in
  Spec.ranked_prefix key l top
  /\ List.length top = Spec.slice_length (List.length l) n.
Proof.
  intros Nl top. split.
  - destruct (rt_slice_to_prefix (Py.sorted_reverse key l) n) as (rest & E).
    fold top in E.
    pose proof (rt_sorted_reverse_sorted l Nl) as S. rewrite E in S.
    split.
    + clear E. induction top as [|a top IH]; [constructor|].
      simpl in S. inversion S as [|? ? S' F]; subst.
      constructor; [now apply IH|].
      apply Forall_app in F. tauto.
    + exists rest. split; [|split].
      * rewrite <- E. apply rt_sorted_reverse_perm.
      * clear E. induction top as [|a top IH]; [contradiction|].
        simpl in S. inversion S as [|? ? S' F]; subst.
        intros a' b [<-|Ha] Hb.
        -- rewrite Forall_forall in F. apply F. apply in_or_app. now right.
        -- now apply IH.
      * intro k. rewrite <- filter_app, <- E. apply rt_sorted_reverse_stable.
  - unfold top. rewrite rt_slice_to_length.
    now rewrite (Permutation_length (rt_sorted_reverse_perm l)).
Qed.

End RuntimeSort.

(** ** Order, threshold and limit of the results on runtime values *)

Section RuntimeResults.
Local Open Scope float_scope.
Import Runtime.
Variables (np : Numpy) (py : Interpreter).

Lemma leb_true_number (x y : float) :
  (x <=? y) = true -> fkey y <> None.
Proof.
  rewrite leb_key. destruct (fkey x), (fkey y); discriminate.
Qed.

Lemma rt_search_tally_none (sv : option (list (list float)))
    (loc : option str) (required : option float) (c : CandidateProfile) :
  SearchHandler.tally_of np py sv loc required c = None
  <-> Py.truthy_str loc = true /\ get_location c = None.
Proof.
  unfold SearchHandler.tally_of, SearchHandler.add_location.
  destruct (Py.truthy_str loc); [|split; [discriminate | intros [H _]; discriminate H]].
  destruct (get_location c); simpl; split; try discriminate; try tauto.
  intros [_ H]. discriminate H.
Qed.

Lemma rt_search_results_none (sv : option (list (list float)))
    (loc : option str) (required : option float) (min_score : float)
    (cs : list CandidateProfile) :
  SearchHandler.results np py sv loc required min_score cs = None
  <-> Py.truthy_str loc = true
      /\ exists c, In c cs /\ get_location c = None.
Proof.
  induction cs as [|c cs IH]; cbn [SearchHandler.results].
  - split; [discriminate | intros (_ & c & [] & _)].
  - destruct (SearchHandler.tally_of np py sv loc required c) as [t|] eqn:T.
    + assert (N : ~ (Py.truthy_str loc = true /\ get_location c = None)).
      { rewrite <- rt_search_tally_none, T. discriminate. }
      destruct (SearchHandler.results np py sv loc required min_score cs)
        as [rs|].
      * split; [discriminate|]. intros (L & c' & [<-|Hc'] & G); [tauto|].
        assert (Y : Some rs = None) by (apply IH; split; [exact L|]; now exists c').
        discriminate Y.
      * split; [|reflexivity]. intros _.
        destruct (proj1 IH eq_refl) as (L & c' & Hc' & G).
        split; [exact L|]. exists c'. split; [now right | exact G].
    + split; [|reflexivity]. intros _.
      apply rt_search_tally_none in T. destruct T as [L G].
      split; [exact L|]. exists c. split; [now left | exact G].
Qed.

Lemma rt_search_results_some (sv : option (list (list float)))
    (loc : option str) (required : option float) (min_score : float)
    (cs : list CandidateProfile) (all : list SearchHandler.result) :
  SearchHandler.results np py sv loc required min_score cs = Some all ->
  (forall r, In r all ->
     (min_score <=? SearchHandler.total_score (SearchHandler.scores r)) = true)
  /\ map SearchHandler.candidate all
     = filter (Spec.search_kept np py sv loc required min_score) cs.
Proof.
  revert all. induction cs as [|c cs IH]; cbn [SearchHandler.results];
    intros all H.
  - injection H as <-. split; [intros r [] | reflexivity].
  - cbn [filter]. unfold Spec.search_kept at 1.
    destruct (SearchHandler.tally_of np py sv loc required c) as [t|];
      [|discriminate H].
    destruct (SearchHandler.results np py sv loc required min_score cs)
      as [rs|]; [|discriminate H].
    destruct (IH rs eq_refl) as [M C]. injection H as <-.
    unfold SearchHandler.entry_of.
    destruct (0 <? SearchHandler.t_weight t); [|now split].
    destruct (min_score <=? SearchHandler.t_score t / SearchHandler.t_weight t)
      eqn:E; [|now split].
    cbn [andb map SearchHandler.candidate]. split; [|now rewrite C].
    intros r [<-|Hr]; [exact E | now apply M].
Qed.

Lemma rt_rank_results_none (job : Job) (min_score : float)
    (cs : list CandidateProfile) :
  RankHandler.ranked_results np py job min_score cs = None
  <-> exists c, In c cs /\ get_location c = None.
Proof.
  assert (T : forall c, RankHandler.tally_of np py job c = None
                        <-> get_location c = None).
  { intro c. unfold RankHandler.tally_of, RankHandler.add_location.
    destruct (get_location c); split; try discriminate; reflexivity. }
  induction cs as [|c cs IH]; cbn [RankHandler.ranked_results].
  - split; [discriminate | intros (c & [] & _)].
  - destruct (RankHandler.tally_of np py job c) as [t|] eqn:E.
    + assert (N : get_location c <> None).
      { rewrite <- T, E. discriminate. }
      destruct (RankHandler.ranked_results np py job min_score cs) as [rs|].
      * split; [discriminate|]. intros (c' & [<-|Hc'] & G); [contradiction|].
        assert (Y : Some rs = None) by (apply IH; now exists c').
        discriminate Y.
      * split; [|reflexivity]. intros _.
        destruct (proj1 IH eq_refl) as (c' & Hc' & G).
        exists c'. split; [now right | exact G].
    + split; [|reflexivity]. intros _. apply T in E.
      exists c. split; [now left | exact E].
Qed.

Lemma rt_rank_results_some (job : Job) (min_score : float)
    (cs : list CandidateProfile) (all : list RankHandler.result) :
  RankHandler.ranked_results np py job min_score cs = Some all ->
  (forall r, In r all -> (min_score <=? RankHandler.total_score r) = true)
  /\ map RankHandler.candidate all
     = filter (Spec.rank_kept np py job min_score) cs.
Proof.
  revert all. induction cs as [|c cs IH]; cbn [RankHandler.ranked_results];
    intros all H.
  - injection H as <-. split; [intros r [] | reflexivity].
  - cbn [filter]. unfold Spec.rank_kept at 1.
    destruct (RankHandler.tally_of np py job c) as [t|]; [|discriminate H].
    destruct (RankHandler.ranked_results np py job min_score cs) as [rs|];
      [|discriminate H].
    destruct (IH rs eq_refl) as [M C]. injection H as <-.
    unfold RankHandler.entry_of.
    destruct (min_score <=? snd t) eqn:E; [|now split].
    cbn [map RankHandler.candidate]. split; [|now rewrite C].
    intros r [<-|Hr]; [exact E | now apply M].
Qed.

Lemma rt_ranked_for_threshold (db : Session) (id : Z) (min_score : float)
    (r : RankHandler.result) :
  In r (Spec.ranked_for np py db id min_score) ->
  (min_score <=? RankHandler.total_score r) = true.
Proof.
  unfold Spec.ranked_for.
  destruct (get_job db id) as [job|]; [|intros []].
  destruct (RankHandler.ranked_results np py job min_score
              (candidate_profiles db)) as [rs|] eqn:E; [|intros []].
  now apply (rt_rank_results_some job min_score _ rs E).
Qed.

Lemma rt_rank_candidates_top (db : Session) (id : Z) (min_score : float)
    (limit : Z) :
  RankHandler.rank_candidates_for_job np py db id min_score limit
  = Py.slice_to
      (Py.sorted_reverse RankHandler.total_score
         (Spec.ranked_for np py db id min_score))
      limit.
Proof.
  assert (E : forall A : Type, Py.slice_to (@nil A) limit = []).
  { intro A. unfold Py.slice_to.
    destruct (0 <=? limit)%Z; rewrite ?firstn_nil; reflexivity. }
  unfold RankHandler.rank_candidates_for_job, Spec.ranked_for.
  destruct (get_job db id) as [job|]; [|now rewrite E].
  destruct (candidate_profiles db) as [|c cs]; [now rewrite E|].
  destruct (RankHandler.ranked_results np py job min_score (c :: cs));
    [reflexivity | now rewrite E].
Qed.

(** When the location of one candidate cannot be read the ranking returns
    the empty list. *)
Lemma rt_rank_raises (db : Session) (id : Z) (min_score : float)
    (limit : Z) :
  (exists c, In c (candidate_profiles db) /\ get_location c = None) ->
  RankHandler.rank_candidates_for_job np py db id min_score limit = [].
Proof.
  intro X. unfold RankHandler.rank_candidates_for_job.
  destruct (get_job db id) as [job|]; [|reflexivity].
  destruct (candidate_profiles db) as [|c cs] eqn:Ec; [reflexivity|].
  assert (E : RankHandler.ranked_results np py job min_score (c :: cs)
              = None) by now apply rt_rank_results_none.
  now rewrite E.
Qed.

Lemma slice_length_le (n : nat) (limit : Z) :
  (0 <= limit)%Z -> (Z.of_nat (Spec.slice_length n limit) <= limit)%Z.
Proof.
  intro H. unfold Spec.slice_length.
  destruct (0 <=? limit)%Z eqn:E; [lia | apply Z.leb_gt in E; lia].
Qed.

End RuntimeResults.

Section RuntimeC7.
Local Open Scope float_scope.
Import Runtime.

(** C7.  A search raises only when it is given a location and the
    location of some candidate cannot be read; a ranking always returns.
    What they return is, for every limit, the list of the entries appended
    by the loop, sorted by decreasing total and cut by [[:limit]]: it is
    sorted, every entry left out has a total no greater than any returned
    one, and entries of equal total keep their input order; its length is
    that of the slice, so at most [limit] when the limit is not negative.
    The entries appended are those of the candidates, taken in input order,
    whose final score reaches the minimum, and every one of them has a total
    of at least the minimum. *)
Theorem results_sorted_and_limited :
  forall (np : Numpy) (py : Interpreter),
    (forall (db : Session) (sv : option (list (list float)))
            (loc : option str) (required : option float)
            (min_score : float) (limit : Z),
        let key := fun r => SearchHandler.total_score (SearchHandler.scores r) in
        (SearchHandler.search_candidates np py db sv loc required
           min_score limit = None
         <-> Py.truthy_str loc = true
             /\ exists c, In c (candidate_profiles db)
                          /\ get_location c = None)
        /\ forall out,
             SearchHandler.search_candidates np py db sv loc required
               min_score limit = Some out ->
             exists all,
               SearchHandler.results np py sv loc required min_score
                 (candidate_profiles db) = Some all
               /\ Spec.ranked_prefix key all out
               /\ List.length out
                  = Spec.slice_length (List.length all) limit
               /\ ((0 <= limit)%Z -> (Z.of_nat (List.length out) <= limit)%Z)
               /\ (forall r, In r all -> (min_score <=? key r) = true)
               /\ map SearchHandler.candidate all
                  = filter (Spec.search_kept np py sv loc required min_score)
                      (candidate_profiles db))
    /\ (forall (db : Session) (id : Z) (min_score : float) (limit : Z),
          let all := Spec.ranked_for np py db id min_score in
          let out := RankHandler.rank_candidates_for_job np py db id
                       min_score limit in
          Spec.ranked_prefix RankHandler.total_score all out
          /\ List.length out = Spec.slice_length (List.length all) limit
          /\ ((0 <= limit)%Z -> (Z.of_nat (List.length out) <= limit)%Z)
          /\ (forall r, In r all ->
                (min_score <=? RankHandler.total_score r) = true)
          /\ (forall job,
                get_job db id = Some job ->
                (forall c, In c (candidate_profiles db) ->
                           get_location c <> None) ->
                map RankHandler.candidate all
                = filter (Spec.rank_kept np py job min_score)
                    (candidate_profiles db))
          /\ ((exists c, In c (candidate_profiles db)
                         /\ get_location c = None) -> out = [])).
Proof.
  intros np py. split.
  - intros db sv loc required min_score limit key. split.
    + rewrite <- (rt_search_results_none np py sv loc required min_score).
      unfold SearchHandler.search_candidates.
      destruct (SearchHandler.results np py sv loc required min_score
                  (candidate_profiles db)); split; try discriminate;
        reflexivity.
    + intros out H. unfold SearchHandler.search_candidates in H.
      destruct (SearchHandler.results np py sv loc required min_score
                  (candidate_profiles db)) as [all|] eqn:E; [|discriminate H].
      injection H as <-. exists all. split; [reflexivity|].
      destruct (rt_search_results_some np py sv loc required min_score _ all E)
        as [M C].
      assert (N : Forall (fun a => fkey (key a) <> None) all).
      { apply Forall_forall. intros r Hr.
        apply (leb_true_number min_score). now apply M. }
      destruct (rt_top_spec key all limit N) as [P L].
      split; [exact P|]. split; [exact L|]. split.
      { intro H. fold key. rewrite L. now apply slice_length_le. }
      split; [exact M | exact C].
  - intros db id min_score limit all out.
    assert (M : forall r, In r all ->
                  (min_score <=? RankHandler.total_score r) = true)
      by (intros r; apply rt_ranked_for_threshold).
    assert (N : Forall (fun a => fkey (RankHandler.total_score a) <> None) all).
    { apply Forall_forall. intros r Hr.
      apply (leb_true_number min_score). now apply M. }
    destruct (rt_top_spec RankHandler.total_score all limit N) as [P L].
    assert (O : out = Py.slice_to
                        (Py.sorted_reverse RankHandler.total_score all) limit)
      by apply rt_rank_candidates_top.
    rewrite O. split; [exact P|]. split; [exact L|]. split.
    { intro H. rewrite L. now apply slice_length_le. }
    split; [exact M|]. split.
    + intros job Hjob Hc. unfold all, Spec.ranked_for. rewrite Hjob.
      destruct (RankHandler.ranked_results np py job min_score
                  (candidate_profiles db)) as [rs|] eqn:E.
      * now apply (rt_rank_results_some np py job min_score _ rs E).
      * apply rt_rank_results_none in E. destruct E as (c & Hin & G).
        exfalso. now apply (Hc c Hin).
    + intros X. rewrite <- O. now apply rt_rank_raises.
Qed.

End RuntimeC7.

(** ** The ranking total on runtime values *)

Section RuntimeRanking.
Local Open Scope float_scope.
Import Runtime.
Variables (np : Numpy) (py : Interpreter).






End RuntimeRanking.

Section RuntimeC2.
Local Open Scope float_scope.
Import Runtime.


End RuntimeC2.

(** ** The range of the skills sub-score of a search *)

Section RuntimeScoreRanges.
Local Open Scope float_scope.
Import Runtime.
(** C3, counterexample.  The search does not clamp the cosine.  Against
    the query [[1, 0, 0, 0]] the candidate vector [[-3, 4, 0, 0]] has the
    skills sub-score -0.6, below 0, in an entry the search returns.  Against
    the query [[1, 1, 1]] the candidate vector [[1, 1, 1]] has the skills
    sub-score 1.0000000000000002, above 1: the dot product is 3, the norm is
    the float nearest to the square root of 3, and its square is
    2.9999999999999996.  With skills as the only criterion the total is
    above 1 as well. *)
Lemma search_skills_score_outside_unit_interval :
  (exists r,
      SearchHandler.search_candidates Np.in_order Example.ascii_only
        (Example.session [Example.contrarian])
        Example.query Example.austin (Some 5) 0 10 = Some [r]
      /\ SearchHandler.skills_score (SearchHandler.scores r) = (-0.6)
      /\ (SearchHandler.skills_score (SearchHandler.scores r) <? 0) = true)
  /\ (exists r,
        SearchHandler.search_candidates Np.in_order Example.ascii_only
          (Example.session [Example.twin])
          Example.diagonal None None 0.5 10 = Some [r]
        /\ SearchHandler.skills_score (SearchHandler.scores r)
           = 1.0000000000000002
        /\ (1 <? SearchHandler.skills_score (SearchHandler.scores r)) = true
        /\ SearchHandler.total_score (SearchHandler.scores r)
           = 1.0000000000000002
        /\ (1 <? SearchHandler.total_score (SearchHandler.scores r)) = true).
Proof.
  split; eexists; (split; [vm_compute; reflexivity|]);
    repeat split; vm_compute; reflexivity.
Qed.
End RuntimeScoreRanges.

(** ** The theorems on runtime values at concrete inputs *)

Section RuntimeWitnesses.
Local Open Scope float_scope.
Import Runtime.

(** C4 at 2.2 years against 1.2 required: the difference of the two
    floats is 1.0000000000000002, beyond the first step, and the score is
    0.7. *)
Lemma experience_match_step_function_at_rounded_gap :
  SearchHandler.calculate_experience_match (ExpYears 2.2) (Some 1.2) = 0.7.
Proof.
  destruct (proj1 experience_match_step_function 2.2 1.2)
    as (_ & _ & _ & H & _).
  apply H; reflexivity.
Defined.

(** C5 at two spellings of one location that differ in case and in the
    blanks around the comma. *)
Lemma location_match_algorithm_at_spellings :
  SearchHandler.calculate_location_match Example.ascii_only
    (Some (text " AUSTIN ,  tx")) (Some (text "austin,TX ")) = 1.0.
Proof.
  assert (F : Spec.conforming Example.ascii_only)
    by (repeat split; intros; reflexivity).
  destruct (proj2 (proj2 (proj2 (proj2
              (location_match_algorithm Example.ascii_only)))) F)
    as (_ & _ & _ & _ & _ & _ & H & _).
  exact H.
Defined.


(** C7 at the search scenario with the limit 10. *)
Lemma results_sorted_and_limited_at_10 :
  exists out,
    SearchHandler.search_candidates Np.in_order Example.ascii_only
      (Example.session [Example.first; Example.second])
      Example.query Example.austin (Some 5) 0.5 10 = Some out
    /\ (Z.of_nat (List.length out) <= 10)%Z.
Proof.
  eexists. split; [vm_compute; reflexivity|].
  destruct (proj2 (proj1 (results_sorted_and_limited Np.in_order
                            Example.ascii_only)
                     (Example.session [Example.first; Example.second])
                     Example.query Example.austin (Some 5) 0.5 10%Z)
              _ eq_refl)
    as (all & _ & _ & _ & L & _).
  apply L. discriminate.
Defined.

End RuntimeWitnesses.
